(** * A calculator REPL with a plugin registry and a pandas-backed history

  Shallow embedding of [app/history/manager.py] (class [HistoryManager])
  and [app/__init__.py] (class [App]), together with the history plugin
  ([app/plugins/history]) and [get_float] of the arithmetic plugins.

  Python text is modelled by [string] over code points below 256; the
  integers of Python are [Z], with the interpreter's limit of 4300
  digits on conversions between [int] and [str] where the code meets
  it ([str(inputs)], [int(arg)], the f-string of an index out of
  range); floating-point values are outside the embedding.  Library
  behaviour the program relies on (pandas, [re],
  the interpreter's treatment of [SystemExit]) is written out next to
  the code that calls it, under the name the library gives it. *)

From Stdlib Require Import ZArith Lia List String Ascii Bool DecimalString DecimalZ
  DecimalPos DecimalFacts.
From stdpp Require Import base gmap strings list.

Open Scope string_scope.
Open Scope Z_scope.
Open Scope list_scope.

(* ===================================================================== *)
(** ** Python text *)
(* ===================================================================== *)

Module PyStr.

Definition code (c : ascii) : nat := nat_of_ascii c.

(** [str.isspace] on one code point below 256. *)
Definition isspace (c : ascii) : bool :=
  let n := code c in
  ((9 <=? n) && (n <=? 13) || (28 <=? n) && (n <=? 32)
   || (n =? 133) || (n =? 160))%nat.

(** [str.lower] on one code point below 256: A-Z and the accented
    capitals U+00C0..U+00DE (the multiplication sign apart). *)
Definition lower_char (c : ascii) : ascii :=
  let n := code c in
  if ((65 <=? n) && (n <=? 90)
      || (192 <=? n) && (n <=? 222) && negb (n =? 215))%nat
  then ascii_of_nat (n + 32) else c.

Fixpoint lower (s : string) : string :=
  match s with
  | EmptyString => EmptyString
  | String c r => String (lower_char c) (lower r)
  end.

Fixpoint lstrip_chars (l : list ascii) : list ascii :=
  match l with
  | c :: r => if isspace c then lstrip_chars r else l
  | [] => []
  end.

(** [str.strip()] with no argument. *)
Definition strip (s : string) : string :=
  string_of_list_ascii
    (rev (lstrip_chars (rev (lstrip_chars (list_ascii_of_string s))))).

(** Truth value of a [str]: the empty string is false. *)
Definition nonempty (s : string) : bool :=
  match s with EmptyString => false | _ => true end.

(** [str(n)] for an [int]. *)
Definition of_int (z : Z) : string := NilZero.string_of_int (Z.to_int z).

(** An [int] of at most 4300 digits: for a longer one [str(n)] raises
    [ValueError]. *)
Definition short (z : Z) : bool :=
  (String.length (of_int (Z.abs z)) <=? 4300)%nat.

Fixpoint join (sep : string) (l : list string) : string :=
  match l with
  | [] => ""
  | [x] => x
  | x :: r => x +:+ sep +:+ join sep r
  end.

(** [str(xs)] for a list of [int]s: ["[1, 2]"]. *)
Definition of_int_list (xs : list Z) : string :=
  "[" +:+ join ", " (map of_int xs) +:+ "]".

Fixpoint mem (c : ascii) (s : string) : bool :=
  match s with
  | EmptyString => false
  | String d r => if Ascii.eqb c d then true else mem c r
  end.

Fixpoint all_chars (p : ascii -> bool) (s : string) : bool :=
  match s with
  | EmptyString => true
  | String c r => p c && all_chars p r
  end.

Definition any_char (p : ascii -> bool) (s : string) : bool :=
  negb (all_chars (fun c => negb (p c)) s).

Definition elem (s : string) (l : list string) : bool :=
  existsb (String.eqb s) l.

(** Two-digit zero padding, as [%m], [%d], [%H], [%M] and [%S] of
    [strftime] produce for values in range. *)
Definition digit (n : nat) : ascii := ascii_of_nat (48 + n mod 10).
Definition pad2 (n : nat) : string :=
  String (digit (n / 10)) (String (digit n) EmptyString).

End PyStr.

(* ===================================================================== *)
(** ** Tables: the part of [pandas.DataFrame] the history uses *)
(* ===================================================================== *)

Module Frame.

(** A cell of an object or integer column.  [CNaN] is the missing
    value [read_csv] produces. *)
Inductive cell : Type :=
| CStr (s : string)
| CInt (z : Z)
| CNaN.

(** One row of the history table. *)
Record HistoryEntry : Type := mkEntry {
  timestamp : cell;
  operation : cell;
  inputs : cell;
  result : cell
}.

(** A frame: its column labels and its rows, each with its row label
    (the index of pandas). *)
Record DataFrame : Type := mkFrame {
  df_columns : list string;
  df_data : list (Z * HistoryEntry)
}.

Definition df_index (df : DataFrame) : list Z := map fst (df_data df).
Definition df_rows (df : DataFrame) : list HistoryEntry :=
  map snd (df_data df).

(** [pd.RangeIndex(n)]. *)
Definition RangeIndex (n : nat) : list Z := seqZ 0 (Z.of_nat n).

(** Rows labelled afresh with [RangeIndex]. *)
Definition relabel (rows : list HistoryEntry) : list (Z * HistoryEntry) :=
  combine (RangeIndex (length rows)) rows.

(** [pd.DataFrame()]: no columns, no rows. *)
Definition DataFrame_empty : DataFrame := mkFrame [] [].

(** [pd.DataFrame(columns=cols)]. *)
Definition DataFrame_columns (cols : list string) : DataFrame :=
  mkFrame cols [].

(** The keys of the [new_row] dict of [add_calculation], in insertion
    order. *)
Definition row_keys : list string :=
  ["timestamp"; "operation"; "inputs"; "result"].

(** [pd.DataFrame([new_row])]. *)
Definition DataFrame_of_row (r : HistoryEntry) : DataFrame :=
  mkFrame row_keys [(0, r)].

(** [len(df)]. *)
Definition len (df : DataFrame) : Z := Z.of_nat (length (df_data df)).

(** [df.empty]. *)
Definition empty (df : DataFrame) : bool :=
  match df_data df with [] => true | _ => false end.

(** [pd.concat([a, b], ignore_index=True)]: the rows of [a] then those
    of [b], the columns of [a] then the new ones of [b], fresh row
    labels. *)
Definition concat_ignore_index (a b : DataFrame) : DataFrame :=
  mkFrame
    (df_columns a
     ++ List.filter (fun c => negb (PyStr.elem c (df_columns a))) (df_columns b))
    (relabel (df_rows a ++ df_rows b)).

Definition in_int64 (z : Z) : bool := (- 2 ^ 63 <=? z) && (z <? 2 ^ 63).

Definition is_str (c : cell) : bool :=
  match c with CStr _ => true | _ => false end.
Definition is_int64 (c : cell) : bool :=
  match c with CInt z => in_int64 z | _ => false end.
Definition is_nan (c : cell) : bool :=
  match c with CNaN => true | _ => false end.

(** [pd.concat] gives a column of two parts one type.  [retyped col v]:
    joining the value [v] to the cells [col] changes the type of the
    cells or of the value, as when an [int64] column meets a missing
    value or an integer outside [int64] and becomes [float64] (3 is
    then 3.0).  A column without rows takes the type of the value, a
    column that holds text holds any value as it is, and text joins
    any column. *)
Definition retyped (col : list cell) (v : cell) : bool :=
  match col with
  | [] => false
  | _ =>
      if existsb is_str col then false
      else
        match v with
        | CStr _ => false
        | CInt z => negb (forallb is_int64 col && in_int64 z)
        | CNaN => negb (forallb is_nan col)
        end
  end.

(** [label in df.index]. *)
Definition has_label (label : Z) (df : DataFrame) : bool :=
  existsb (Z.eqb label) (df_index df).

(** [df.drop(label)]: every row carrying the label goes; [None] stands
    for the [KeyError] pandas raises when no row carries it. *)
Definition drop (label : Z) (df : DataFrame) : option DataFrame :=
  if has_label label df
  then Some (mkFrame (df_columns df)
               (List.filter (fun p => negb (Z.eqb (fst p) label)) (df_data df)))
  else None.

(** [df.reset_index(drop=True)]. *)
Definition reset_index (df : DataFrame) : DataFrame :=
  mkFrame (df_columns df) (relabel (df_rows df)).

(** [df.tail(n)] for [n > 0]: the last [n] rows with their labels. *)
Definition tail (n : Z) (df : DataFrame) : DataFrame :=
  mkFrame (df_columns df)
    (skipn (length (df_data df) - Z.to_nat n) (df_data df)).

(** [str(v)] of a cell, as [astype(str)] applies it. *)
Definition cell_str (c : cell) : string :=
  match c with
  | CStr s => s
  | CInt z => PyStr.of_int z
  | CNaN => "nan"
  end.

(** One row of [df.astype(str)]. *)
Definition row_strs (r : HistoryEntry) : list string :=
  [cell_str (timestamp r); cell_str (operation r);
   cell_str (inputs r); cell_str (result r)].

(** [df[mask]] for a boolean mask aligned with the rows. *)
Definition getitem_mask (mask : list bool) (df : DataFrame) : DataFrame :=
  mkFrame (df_columns df)
    (map snd (List.filter (fun p => fst p) (combine mask (df_data df)))).

End Frame.

(* ===================================================================== *)
(** ** The Python runtime: values, exceptions, objects, effects *)
(* ===================================================================== *)

Module Py.
Import Frame.

(** The exception classes that occur.  The first three derive from
    [BaseException] only; every other one derives from [Exception].
    [OtherException] is any further class below [Exception] that is not
    below [TypeError]. *)
Inductive exn_class : Type :=
| SystemExit | KeyboardInterrupt | GeneratorExit
| TypeError | ValueError | KeyError | AttributeError | ImportError
| OSError | EOFError | EmptyDataError | re_error
| OtherException (name : string).

(** [isinstance(e, Exception)]. *)
Definition is_Exception (c : exn_class) : bool :=
  match c with
  | SystemExit | KeyboardInterrupt | GeneratorExit => false
  | _ => true
  end.

(** [isinstance(e, TypeError)]. *)
Definition is_TypeError (c : exn_class) : bool :=
  match c with TypeError => true | _ => false end.

Inductive value : Type :=
| VNone
| VBool (b : bool)
| VInt (z : Z)
| VStr (s : string)
| VStrList (l : list string)
| VRef (address : nat)
| VFrame (df : DataFrame)
| VEntry (r : HistoryEntry)
| VLogger (name : string).

(** An exception instance: its class and the argument it was built
    with ([VNone] when there is none). *)
Record exn : Type := mkExn { exn_cls : exn_class; exn_arg : value }.

(** Truth value testing ([if x:], [not x], [x if c else y]). *)
Definition truthy (v : value) : bool :=
  match v with
  | VNone => false
  | VBool b => b
  | VInt z => negb (z =? 0)
  | VStr s => PyStr.nonempty s
  | VStrList l => match l with [] => false | _ => true end
  | VRef _ | VFrame _ | VEntry _ | VLogger _ => true
  end.

(** The exit status the interpreter gives the process when a
    [SystemExit] reaches the top level: [None] is success, an [int] is
    the status itself, any other object is printed to standard error
    and the status is 1. *)
Definition exit_status (code : value) : Z :=
  match code with
  | VNone => 0
  | VInt z => z
  | VBool b => if b then 1 else 0
  | _ => 1
  end.

(** Private name mangling: inside the body of class [cls] an identifier
    [__x] (two leading underscores, not ending in two underscores) is
    compiled to [_cls__x].  String literals are not identifiers and are
    left alone. *)
Definition ends_with_dunder (name : string) : bool :=
  match rev (list_ascii_of_string name) with
  | "_"%char :: "_"%char :: _ => true
  | _ => false
  end.

Definition mangle (cls name : string) : string :=
  match name with
  | String "_" (String "_" _) =>
      if ends_with_dunder name then name else "_" +:+ cls +:+ name
  | _ => name
  end.

Inductive level : Type := DEBUG | INFO | WARNING | ERROR.

(** A log record: level, the text of the message with its [{...}]
    holes, and the values that fill the holes. *)
Record logrec : Type := mkLog {
  log_level : level;
  log_msg : string;
  log_args : list value
}.

(** The history file on disk. *)
Inductive file_state : Type :=
| FileAbsent
| FileContent (text : string).

(** The state of the process and of the part of the world it touches:
    the objects it has allocated (addressed by position), the attribute
    dictionary of class [HistoryManager], the history file with its
    directory, the log and standard output. *)
Record state : Type := mkState {
  heap : list (gmap string value);
  class_dict : gmap string value;
  dir_exists : bool;
  disk_writable : bool;
  disk : file_state;
  log : list logrec;
  stdout : list string
}.

(** What a computation ends in.  [Unmodelled] marks an input on which
    this embedding makes no statement about a library. *)
Inductive outcome (A : Type) : Type :=
| Return (a : A)
| Raise (e : exn)
| Unmodelled.
Arguments Return {A} a.
Arguments Raise {A} e.
Arguments Unmodelled {A}.

Definition M (A : Type) : Type := state -> outcome A * state.

Definition ret {A} (a : A) : M A := fun s => (Return a, s).
Definition bind {A B} (m : M A) (k : A -> M B) : M B :=
  fun s =>
    match m s with
    | (Return a, s') => k a s'
    | (Raise e, s') => (Raise e, s')
    | (Unmodelled, s') => (Unmodelled, s')
    end.
Definition raise {A} (e : exn) : M A := fun s => (Raise e, s).
Definition unmodelled {A} : M A := fun s => (Unmodelled, s).

(** [try: body  except C as e: handler e] where [catches] decides
    [isinstance(e, C)]. *)
Definition try_except {A} (body : M A) (catches : exn_class -> bool)
    (handler : exn -> M A) : M A :=
  fun s =>
    match body s with
    | (Raise e, s') =>
        if catches (exn_cls e) then handler e s' else (Raise e, s')
    | r => r
    end.

Definition get {A} (f : state -> A) : M A := fun s => (Return (f s), s).
Definition modify (f : state -> state) : M unit :=
  fun s => (Return tt, f s).

End Py.

Declare Scope py_scope.
Delimit Scope py_scope with py.
Notation "'let*' x ':=' m 'in' k" := (Py.bind m (fun x => k))
(at level 10, x name, m at level 100, k at level 200) : py_scope.
Notation "m ';;' k" := (Py.bind m (fun _ => k))
(at level 100, k at level 200, right associativity) : py_scope.

(* ===================================================================== *)
(** ** [re]: the patterns [Series.str.contains] compiles *)
(* ===================================================================== *)

(** [row.str.contains(term, case=False)] runs with pandas' default
  [regex=True]: it compiles [term] with [re.IGNORECASE] and tests
  [regex.search(cell)] on every cell.  The patterns covered here are
  those made of ordinary characters and the wildcard [.], and those
  [re.compile] rejects at position 0 (a leading [*], [+] or [?]:
  nothing to repeat).  Any other pattern is outside the embedding. *)
Module Re.

Definition metachars : string := ".^$*+?{}[]\|()".

Definition is_meta (c : ascii) : bool := PyStr.mem c metachars.

Inductive atom : Type :=
| Lit (c : ascii)
| AnyChar.

Inductive compiled : Type :=
| Pattern (atoms : list atom)
| Error
| Outside.

Fixpoint atoms_of (pat : string) : option (list atom) :=
  match pat with
  | EmptyString => Some []
  | String c r =>
      match atoms_of r with
      | Some l =>
          if Ascii.eqb c "." then Some (AnyChar :: l)
          else if is_meta c then None
          else Some (Lit c :: l)
      | None => None
      end
  end.

(** [re.compile(pat, re.IGNORECASE)]. *)
Definition compile (pat : string) : compiled :=
  match pat with
  | String c _ =>
      if PyStr.mem c "*+?" then Error
      else match atoms_of pat with
           | Some l => Pattern l
           | None => Outside
           end
  | EmptyString => Pattern []
  end.

(** One pattern element against one character, ignoring case; the
    wildcard matches anything but a newline. *)
Definition atom_matches (a : atom) (x : ascii) : bool :=
  match a with
  | Lit c => Ascii.eqb (PyStr.lower_char c) (PyStr.lower_char x)
  | AnyChar => negb (Ascii.eqb x "010")
  end.

(** The pattern matches a prefix of [s]. *)
Fixpoint match_here (p : list atom) (s : string) : bool :=
  match p, s with
  | [], _ => true
  | a :: p', String x s' => atom_matches a x && match_here p' s'
  | _ :: _, EmptyString => false
  end.

(** [regex.search(s) is not None]. *)
Fixpoint search (p : list atom) (s : string) : bool :=
  match_here p s
  || match s with
     | EmptyString => false
     | String _ s' => search p s'
     end.

End Re.

(* ===================================================================== *)
(** ** The CSV file: [DataFrame.to_csv] and [pandas.read_csv] *)
(* ===================================================================== *)

Module Csv.
Import Frame.

Definition comma : ascii := ","%char.
Definition dquote : ascii := "034"%char.
Definition newline : ascii := "010"%char.
Definition creturn : ascii := "013"%char.

Definition is_special (c : ascii) : bool :=
  Ascii.eqb c comma || Ascii.eqb c dquote || Ascii.eqb c newline.

(** [csv.QUOTE_MINIMAL]: a field is quoted when it holds the
    delimiter, the quote character or a character of the line
    terminator. *)
Definition needs_quote (f : string) : bool := PyStr.any_char is_special f.

Definition has_cr (f : string) : bool :=
  PyStr.any_char (fun c => Ascii.eqb c creturn) f.

(** The body of a quoted field: every quote character doubled. *)
Fixpoint escape (f : string) : string :=
  match f with
  | EmptyString => EmptyString
  | String c r =>
      if Ascii.eqb c dquote then String dquote (String dquote (escape r))
      else String c (escape r)
  end.

Definition write_field (f : string) : string :=
  if needs_quote f
  then String dquote (escape f +:+ String dquote EmptyString)
  else f.

Fixpoint write_fields (fs : list string) : string :=
  match fs with
  | [] => String newline EmptyString
  | [f] => write_field f +:+ String newline EmptyString
  | f :: r => write_field f +:+ String comma (write_fields r)
  end.

Fixpoint write_records (rs : list (list string)) : string :=
  match rs with
  | [] => EmptyString
  | r :: rs' => write_fields r +:+ write_records rs'
  end.

(** The text [to_csv] writes for a cell; a missing value is written as
    the empty field ([na_rep='']). *)
Definition cell_field (c : cell) : string :=
  match c with
  | CStr s => s
  | CInt z => PyStr.of_int z
  | CNaN => ""
  end.

Definition entry_fields (r : HistoryEntry) : list string :=
  [cell_field (timestamp r); cell_field (operation r);
   cell_field (inputs r); cell_field (result r)].

(** [df.to_csv(path, index=False)]: the header line, then one line per
    row.  A field holding a carriage return is outside the embedding
    ([None]). *)
Definition to_csv (df : DataFrame) : option string :=
  let table := df_columns df :: map entry_fields (df_rows df) in
  if existsb (existsb has_cr) table then None
  else Some (write_records table).

(** *** Reading *)

Inductive pstate : Type :=
| StartField
| InField
| InQuoted
| QuoteInQuoted.

Definition field_of (acc : list ascii) : string :=
  string_of_list_ascii (rev acc).

(** The tokenizer.  [fld] is the current field, [row] the fields of the
    current record and [recs] the records read so far, all reversed.
    [None] is returned on text outside the embedding: a carriage
    return, a blank line, a quote inside an unquoted field, text after
    a closing quote, the end of the text inside a quoted field. *)
Fixpoint tokenize (s : string) (st : pstate) (fld : list ascii)
    (row : list string) (recs : list (list string))
    : option (list (list string)) :=
  match s with
  | EmptyString =>
      match st with
      | StartField =>
          match row with
          | [] => Some (rev recs)
          | _ => Some (rev (rev (EmptyString :: row) :: recs))
          end
      | InField | QuoteInQuoted =>
          Some (rev (rev (field_of fld :: row) :: recs))
      | InQuoted => None
      end
  | String c r =>
      if Ascii.eqb c creturn then None else
      match st with
      | StartField =>
          if Ascii.eqb c dquote then tokenize r InQuoted [] row recs
          else if Ascii.eqb c comma
          then tokenize r StartField [] (EmptyString :: row) recs
          else if Ascii.eqb c newline
          then match row with
               | [] => None
               | _ => tokenize r StartField [] []
                        (rev (EmptyString :: row) :: recs)
               end
          else tokenize r InField [c] row recs
      | InField =>
          if Ascii.eqb c dquote then None
          else if Ascii.eqb c comma
          then tokenize r StartField [] (field_of fld :: row) recs
          else if Ascii.eqb c newline
          then tokenize r StartField [] []
                 (rev (field_of fld :: row) :: recs)
          else tokenize r InField (c :: fld) row recs
      | InQuoted =>
          if Ascii.eqb c dquote then tokenize r QuoteInQuoted fld row recs
          else tokenize r InQuoted (c :: fld) row recs
      | QuoteInQuoted =>
          if Ascii.eqb c dquote
          then tokenize r InQuoted (dquote :: fld) row recs
          else if Ascii.eqb c comma
          then tokenize r StartField [] (field_of fld :: row) recs
          else if Ascii.eqb c newline
          then tokenize r StartField [] []
                 (rev (field_of fld :: row) :: recs)
          else None
      end
  end.

(** The default [na_values] of [read_csv]. *)
Definition na_values : list string :=
  [""; "#N/A"; "#N/A N/A"; "#NA"; "-1.#IND"; "-1.#QNAN"; "-NaN"; "-nan";
   "1.#IND"; "1.#QNAN"; "<NA>"; "N/A"; "NA"; "NULL"; "NaN"; "None";
   "n/a"; "nan"; "null"].

Definition is_na (t : string) : bool := PyStr.elem t na_values.

(** The words [read_csv] reads as booleans. *)
Definition bool_words : list string :=
  ["True"; "TRUE"; "true"; "False"; "FALSE"; "false"].

(** Characters that can occur in a token the reader takes for a number
    (digits, sign, point, exponent, blanks, the letters of [inf],
    [infinity] and [nan]). *)
Definition numeric_chars : string :=
  String "009" (String "010" (String "011" (String "012" (String "013"
    " 0123456789+-.eEinfatyINFATY")))).

Definition is_digit (c : ascii) : bool :=
  let n := PyStr.code c in ((48 <=? n) && (n <=? 57))%nat.

Definition unsigned (t : string) : string :=
  match t with
  | String "+" r => r
  | String "-" r => r
  | _ => t
  end.

(** The words without digit that stand for a number. *)
Definition number_word (t : string) : bool :=
  PyStr.elem (PyStr.lower (unsigned (PyStr.strip t)))
    ["inf"; "infinity"; "nan"].

(** A token that can only be read as text: it is no missing-value
    marker and no boolean word, and it holds a character that occurs
    in no number, or no digit at all without being a word for a
    number. *)
Definition is_text (t : string) : bool :=
  negb (is_na t) && negb (PyStr.elem t bool_words)
  && (PyStr.any_char (fun c => negb (PyStr.mem c numeric_chars)) t
      || negb (PyStr.any_char is_digit t) && negb (number_word t)).

(** A token the reader takes for an [int64]: decimal digits after an
    optional minus sign, leading zeros included (["007"] is 7). *)
Definition parse_int64 (t : string) : option Z :=
  match NilZero.int_of_string t with
  | Some d =>
      let z := Z.of_int d in
      if (- 2 ^ 63 <=? z) && (z <? 2 ^ 63) then Some z else None
  | None => None
  end.

Fixpoint parse_ints (ts : list string) : option (list cell) :=
  match ts with
  | [] => Some []
  | t :: r =>
      match parse_int64 t, parse_ints r with
      | Some z, Some l => Some (CInt z :: l)
      | _, _ => None
      end
  end.

(** The type inference of [read_csv] on one column.  A column with at
    least one text token is an object column: its tokens stay text,
    the missing-value markers apart.  A column of [int64] renderings is
    an integer column.  Columns that would be read as floating point,
    boolean or all-missing are outside the embedding ([None]). *)
Definition infer_column (ts : list string) : option (list cell) :=
  if existsb is_text ts
  then Some (map (fun t => if is_na t then CNaN else CStr t) ts)
  else parse_ints ts.

Fixpoint column (k : nat) (recs : list (list string)) : list string :=
  match recs with
  | [] => []
  | r :: recs' => nth k r EmptyString :: column k recs'
  end.

Fixpoint zip4 (a b c d : list cell) : list HistoryEntry :=
  match a, b, c, d with
  | x :: a', y :: b', z :: c', w :: d' =>
      mkEntry x y z w :: zip4 a' b' c' d'
  | _, _, _, _ => []
  end.

(** The labels of an index column: renderings of [int64]. *)
Fixpoint parse_labels (ts : list string) : option (list Z) :=
  match ts with
  | [] => Some []
  | t :: r =>
      match parse_int64 t, parse_labels r with
      | Some z, Some l => Some (z :: l)
      | _, _ => None
      end
  end.

(** The records of a text after its header, as the tokenizer gives
    them. *)
Definition records (text : string) : list (list string) :=
  match tokenize text StartField [] [] [] with
  | Some (_ :: recs) => recs
  | _ => []
  end.

(** Every record has as many fields as there are column names: the
    reader numbers the rows itself. *)
Definition unlabelled (text : string) : bool :=
  forallb (fun r => Nat.eqb (length r) 4) (records text).

Inductive read_result : Type :=
| ReadOk (df : DataFrame)
| ReadEmptyData
| ReadOutside.

(** [pd.read_csv(path)] on the text of the file.  An empty file raises
    [EmptyDataError].  The files covered have the four history columns
    as header and either four fields in every record, or five: when
    the records have one more field than there are column names, the
    first field of a record is the label of its row.  Labels that are
    not [int64] and columns the type inference does not cover are
    outside the embedding. *)
Definition read_csv (text : string) : read_result :=
  match text with
  | EmptyString => ReadEmptyData
  | _ =>
      match tokenize text StartField [] [] [] with
      | Some (header :: recs) =>
          if bool_decide (header = row_keys)
             && forallb (fun r => Nat.eqb (length r) 4) recs
          then
            match infer_column (column 0 recs), infer_column (column 1 recs),
                  infer_column (column 2 recs), infer_column (column 3 recs)
            with
            | Some a, Some b, Some c, Some d =>
                ReadOk (mkFrame row_keys (relabel (zip4 a b c d)))
            | _, _, _, _ => ReadOutside
            end
          else if bool_decide (header = row_keys)
                  && forallb (fun r => Nat.eqb (length r) 5) recs
          then
            match parse_labels (column 0 recs),
                  infer_column (column 1 recs), infer_column (column 2 recs),
                  infer_column (column 3 recs), infer_column (column 4 recs)
            with
            | Some labels, Some a, Some b, Some c, Some d =>
                ReadOk (mkFrame row_keys (combine labels (zip4 a b c d)))
            | _, _, _, _, _ => ReadOutside
            end
          else ReadOutside
      | _ => ReadOutside
      end
  end.

End Csv.

(* ===================================================================== *)
(** ** Objects, logging and the file system *)
(* ===================================================================== *)

Module PyObj.
Import Py Frame.
Local Open Scope py_scope.

Definition set_heap (h : list (gmap string value)) (s : state) : state :=
  mkState h (class_dict s) (dir_exists s) (disk_writable s) (disk s)
    (log s) (stdout s).
Definition set_class_dict (c : gmap string value) (s : state) : state :=
  mkState (heap s) c (dir_exists s) (disk_writable s) (disk s)
    (log s) (stdout s).
Definition set_dir_exists (b : bool) (s : state) : state :=
  mkState (heap s) (class_dict s) b (disk_writable s) (disk s)
    (log s) (stdout s).
Definition set_disk (d : file_state) (s : state) : state :=
  mkState (heap s) (class_dict s) (dir_exists s) (disk_writable s) d
    (log s) (stdout s).
Definition add_log (r : logrec) (s : state) : state :=
  mkState (heap s) (class_dict s) (dir_exists s) (disk_writable s) (disk s)
    (log s ++ [r]) (stdout s).
Definition add_stdout (line : string) (s : state) : state :=
  mkState (heap s) (class_dict s) (dir_exists s) (disk_writable s) (disk s)
    (log s) (stdout s ++ [line]).

(** [object.__new__(cls)]: a fresh object with an empty [__dict__]. *)
Definition object_new : M nat :=
  fun s => (Return (length (heap s)), set_heap (heap s ++ [∅]) s).

Definition missing (name : string) : exn := mkExn AttributeError (VStr name).

(** [o.name]. *)
Definition getattr (o : nat) (name : string) : M value :=
  fun s =>
    match heap s !! o with
    | Some d =>
        match d !! name with
        | Some v => (Return v, s)
        | None => (Raise (missing name), s)
        end
    | None => (Raise (missing name), s)
    end.

(** [getattr(o, 'name', default)]: the name is a string, looked up as
    it is written. *)
Definition getattr_default (o : nat) (name : string) (default : value)
  : M value :=
  fun s =>
    match heap s !! o with
    | Some d =>
        match d !! name with
        | Some v => (Return v, s)
        | None => (Return default, s)
        end
    | None => (Return default, s)
    end.

(** [o.name = v]. *)
Definition setattr (o : nat) (name : string) (v : value) : M unit :=
  fun s =>
    match heap s !! o with
    | Some d => (Return tt, set_heap (<[o := <[name := v]> d]> (heap s)) s)
    | None => (Raise (missing name), s)
    end.

(** [cls.name] and [cls.name = v] on class [HistoryManager]. *)
Definition class_getattr (name : string) : M value :=
  fun s =>
    match class_dict s !! name with
    | Some v => (Return v, s)
    | None => (Raise (missing name), s)
    end.

Definition class_setattr (name : string) (v : value) : M unit :=
  modify (fun s => set_class_dict (<[name := v]> (class_dict s)) s).

Definition type_error {A} : M A := raise (mkExn TypeError VNone).

Definition as_ref (v : value) : M nat :=
  match v with VRef a => ret a | _ => type_error end.
Definition as_frame (v : value) : M DataFrame :=
  match v with VFrame df => ret df | _ => type_error end.
Definition as_strlist (v : value) : M (list string) :=
  match v with VStrList l => ret l | _ => type_error end.

(** [logging.info(...)] and the like, and [self.logger.info(...)] on an
    object that has its logger: one record appended to the log.  The
    logger of a [HistoryManager] is the first thing [__init__] assigns;
    a method called on an object without one is not covered. *)
Definition logging (lv : level) (msg : string) (args : list value)
  : M unit :=
  modify (add_log (mkLog lv msg args)).

(** [print(line)]. *)
Definition print (line : string) : M unit := modify (add_stdout line).

Definition os_error : exn := mkExn OSError VNone.

(** [os.makedirs(dir, exist_ok=True)] and
    [Path.mkdir(parents=True, exist_ok=True)] on the directory of the
    history file. *)
Definition makedirs : M unit :=
  fun s =>
    if dir_exists s then (Return tt, s)
    else if disk_writable s then (Return tt, set_dir_exists true s)
    else (Raise os_error, s).

(** Writing the history file. *)
Definition write_file (text : string) : M unit :=
  fun s =>
    if dir_exists s && disk_writable s
    then (Return tt, set_disk (FileContent text) s)
    else (Raise os_error, s).

(** [datetime.now()]. *)
Record datetime : Type := mkDatetime {
  year : nat; month : nat; day : nat;
  hour : nat; minute : nat; second : nat
}.

(** [dt.strftime("%Y-%m-%d %H:%M:%S")]: the year is written as it is
    (the C library does not pad [%Y]), the other fields with two
    digits. *)
Definition strftime (dt : datetime) : string :=
  PyStr.of_int (Z.of_nat (year dt)) +:+ "-" +:+ PyStr.pad2 (month dt) +:+ "-"
  +:+ PyStr.pad2 (day dt) +:+ " " +:+ PyStr.pad2 (hour dt) +:+ ":"
  +:+ PyStr.pad2 (minute dt) +:+ ":" +:+ PyStr.pad2 (second dt).

End PyObj.

(* ===================================================================== *)
(** ** [app/history/manager.py]: class [HistoryManager] *)
(* ===================================================================== *)

Module HistoryManager.
Import Py PyObj Frame.
Local Open Scope py_scope.

Definition cls_name : string := "HistoryManager".

(** An identifier [self.__x] or [cls.__x] written in the class body. *)
Definition private (name : string) : string := mangle cls_name name.

(** The class body: [__instance = None]. *)
Definition class_body : gmap string value :=
  {[ private "__instance" := VNone ]}.

(** [os.environ.get('HISTORY_FILE', 'data/calculation_history.csv')],
    with the variable unset. *)
Definition history_file_path : string := "data/calculation_history.csv".

Definition __new__ : M nat :=
  let* inst := class_getattr (private "__instance") in
  (match inst with
   | VNone =>
       let* o := object_new in
       class_setattr (private "__instance") (VRef o) ;;
       let* i := class_getattr (private "__instance") in
       let* a := as_ref i in
       setattr a (private "__initialized") (VBool false)
   | _ => ret tt
   end) ;;
  let* r := class_getattr (private "__instance") in
  as_ref r.

Definition _load_history (self : nat) : M unit :=
  try_except
    (let* path := getattr self "history_file" in
     let* d := get disk in
     match d with
     | FileContent text =>
         match Csv.read_csv text with
         | Csv.ReadOk df =>
             setattr self "df" (VFrame df) ;;
             logging INFO "History loaded from {self.history_file}" [path]
         | Csv.ReadEmptyData => raise (mkExn EmptyDataError VNone)
         | Csv.ReadOutside => unmodelled
         end
     | FileAbsent =>
         let* c := getattr self "columns" in
         let* cols := as_strlist c in
         setattr self "df" (VFrame (DataFrame_columns cols)) ;;
         logging INFO
           "History file not found, creating new file: '{self.history_file}'"
           [path]
     end)
    is_Exception
    (fun e =>
       logging ERROR "Failed to load history file: {e}" [exn_arg e] ;;
       raise e).

(** The body of [__init__] under its [if]. *)
Definition initialise (self : nat) : M unit :=
  setattr self "logger" (VLogger "app.history.manager") ;;
  logging INFO "History Manager initialised" [] ;;
  setattr self "history_file" (VStr history_file_path) ;;
  let* ex := get dir_exists in
  (if negb ex
   then try_except makedirs is_Exception
          (fun e =>
             logging WARNING "Failed to create history directory: {e}"
               [exn_arg e])
   else ret tt) ;;
  setattr self "columns" (VStrList row_keys) ;;
  try_except
    (_load_history self ;;
     logging INFO
       "History manager initialised successfully with history file: {self.history_file}"
       [])
    is_Exception
    (fun e =>
       logging WARNING "could not load history file: {e}" [exn_arg e] ;;
       let* c := getattr self "columns" in
       let* cols := as_strlist c in
       setattr self "df" (VFrame (DataFrame_columns cols))) ;;
  setattr self (private "__initialized") (VBool true).

Definition __init__ (self : nat) : M unit :=
  let* flag := getattr_default self "__initialized" (VBool false) in
  if negb (truthy flag) then initialise self else ret tt.

(** The call [HistoryManager()]: [__new__], then [__init__] on the
    object it returns. *)
Definition call : M nat :=
  let* self := __new__ in
  __init__ self ;;
  ret self.

Definition str_digits_message : string :=
  "Exceeds the limit (4300 digits) for integer string conversion; use sys.set_int_max_str_digits() to increase the limit".

Definition short_cell (c : cell) : bool :=
  match c with CInt z => PyStr.short z | _ => true end.

(** [str(inputs)] raises [ValueError] when an input has more than 4300
    digits.  A result that [pd.concat] would give another type, or
    whose type it would give to the column, and an integer result of
    more than 4300 digits are outside the embedding. *)
Definition add_calculation (self : nat) (operation : string)
    (inputs : list Z) (result : cell) (now : datetime) : M value :=
  try_except
    (if negb (forallb PyStr.short inputs)
     then raise (mkExn ValueError (VStr str_digits_message))
     else
       let new_row :=
         mkEntry (CStr (strftime now)) (CStr operation)
           (CStr (PyStr.of_int_list inputs)) result in
       let* d := getattr self "df" in
       let* df := as_frame d in
       if retyped (map Frame.result (df_rows df)) result
          || negb (short_cell result)
       then unmodelled
       else
         setattr self "df"
           (VFrame (concat_ignore_index df (DataFrame_of_row new_row))) ;;
         logging INFO "Calculation added to history: {new_row}"
           [VEntry new_row] ;;
         ret (VBool true))
    is_Exception
    (fun e =>
       logging ERROR "Failed to add calculation to history: {e}"
         [exn_arg e] ;;
       ret (VBool false)).

Definition save_history (self : nat) : M value :=
  try_except
    (let* path := getattr self "history_file" in
     makedirs ;;
     let* d := getattr self "df" in
     let* df := as_frame d in
     match Csv.to_csv df with
     | Some text =>
         write_file text ;;
         logging INFO "History saved to {self.history_file}" [path] ;;
         ret (VBool true)
     | None => unmodelled
     end)
    is_Exception
    (fun e =>
       logging ERROR "Failed to save history file: {e}" [exn_arg e] ;;
       ret (VBool false)).

(** [limit and limit > 0] for [limit : Optional[int]]. *)
Definition limit_given (limit : option Z) : bool :=
  match limit with
  | Some n => negb (n =? 0) && (0 <? n)
  | None => false
  end.

Definition get_history (self : nat) (limit : option Z) : M DataFrame :=
  try_except
    (let* d := getattr self "df" in
     let* df := as_frame d in
     if limit_given limit
     then ret (tail (default 0 limit) df)
     else ret df)
    is_Exception
    (fun e =>
       logging ERROR "Failed to get history: {e}" [exn_arg e] ;;
       ret DataFrame_empty).

(** The function has no [return] on its success path: it returns
    [None] there. *)
Definition clear_history (self : nat) : M value :=
  try_except
    (let* c := getattr self "columns" in
     let* cols := as_strlist c in
     setattr self "df" (VFrame (DataFrame_columns cols)) ;;
     logging INFO "History Cleared" [] ;;
     ret VNone)
    is_Exception
    (fun e =>
       logging ERROR "Failed to clear history: {e}" [exn_arg e] ;;
       ret (VBool false)).

(** The f-string of the warning raises [ValueError] for an index of
    more than 4300 digits.  An index in range is below the number of
    rows and is rendered as it is. *)
Definition delete_entry (self : nat) (index : Z) : M value :=
  try_except
    (let* d := getattr self "df" in
     let* df := as_frame d in
     if (0 <=? index) && (index <? len df)
     then
       match drop index df with
       | Some dropped =>
           setattr self "df" (VFrame (reset_index dropped)) ;;
           logging INFO "Entry deleted from history: {index}"
             [VInt index] ;;
           ret (VBool true)
       | None => raise (mkExn KeyError (VInt index))
       end
     else if PyStr.short index
     then
       logging WARNING "Index out of range: {index}" [VInt index] ;;
       ret (VBool false)
     else raise (mkExn ValueError (VStr str_digits_message)))
    is_Exception
    (fun e =>
       logging ERROR "Failed to delete entry from history: {e}"
         [exn_arg e] ;;
       ret (VBool false)).

(** [str_df.apply(lambda row: row.str.contains(term, case=False).any(),
    axis=1)]: on a frame without rows the function is not applied. *)
Definition contains_mask (term : string) (str_df : list (list string))
  : M (list bool) :=
  match str_df with
  | [] => ret []
  | _ =>
      match Re.compile term with
      | Re.Pattern p => ret (map (existsb (Re.search p)) str_df)
      | Re.Error => raise (mkExn re_error (VStr term))
      | Re.Outside => unmodelled
      end
  end.

Definition search_history (self : nat) (term : string) : M DataFrame :=
  try_except
    (let* d := getattr self "df" in
     let* df := as_frame d in
     let str_df := map row_strs (df_rows df) in
     let* mask := contains_mask term str_df in
     let result := getitem_mask mask df in
     logging INFO "Search history for term: {term}" [VStr term] ;;
     ret result)
    is_Exception
    (fun e =>
       logging ERROR "Failed to search history: {e}" [exn_arg e] ;;
       ret DataFrame_empty).

End HistoryManager.

(* ===================================================================== *)
(** ** [app/plugins/history]: the consumer of [clear_history] *)
(* ===================================================================== *)

Module HistoryCommand.
Import Py PyObj Frame.
Local Open Scope py_scope.

(** [HistoryCommand._clear_history], with [self.history_manager] the
    object at [hm]. *)
Definition _clear_history (hm : nat) : M unit :=
  let* cleared := HistoryManager.clear_history hm in
  if truthy cleared
  then HistoryManager.save_history hm ;;
       print "History cleared successfully."
  else print "Failed to clear history.".

End HistoryCommand.

(* ===================================================================== *)
(** ** [app/__init__.py]: class [App] *)
(* ===================================================================== *)

Module App.
Import Py PyObj Frame.
Local Open Scope py_scope.

(** A command instance: the class it was built from and what its
    [execute()] does. *)
Record Command : Type := mkCommand {
  cmd_class : string;
  execute : M unit
}.

(** Modelled from the spec: [CommandHandler.register_command] of
    [app/commands/__init__.py], which is not among the sources:
    "stores/overwrites the mapping; no error conditions". *)
Definition register_command (name : string) (c : Command)
    (commands : gmap string Command) : gmap string Command :=
  <[name := c]> commands.

(** A step of [load_plugins]: it works on the registry behind
    [self.command_handler] and on the state, and leaves both as they
    are at that point when it raises. *)
Definition Loader (A : Type) : Type :=
  gmap string Command -> state -> outcome A * gmap string Command * state.

Definition lift {A} (m : M A) : Loader A :=
  fun commands s => let (r, s') := m s in (r, commands, s').

Definition lbind {A B} (m : Loader A) (k : A -> Loader B) : Loader B :=
  fun commands s =>
    match m commands s with
    | (Return a, commands', s') => k a commands' s'
    | (Raise e, commands', s') => (Raise e, commands', s')
    | (Unmodelled, commands', s') => (Unmodelled, commands', s')
    end.

(** [self.command_handler.register_command(name, c)]. *)
Definition register (name : string) (c : Command) : Loader unit :=
  fun commands s => (Return tt, register_command name c commands, s).

(** [try: body  except C1: h1  except C2 as e: h2 e]: the first clause
    whose class matches handles the exception. *)
Definition try_except2 {A} (body : Loader A)
    (catches1 : exn_class -> bool) (handler1 : exn -> Loader A)
    (catches2 : exn_class -> bool) (handler2 : exn -> Loader A) : Loader A :=
  fun commands s =>
    match body commands s with
    | (Raise e, commands', s') =>
        if catches1 (exn_cls e) then handler1 e commands' s'
        else if catches2 (exn_cls e) then handler2 e commands' s'
        else (Raise e, commands', s')
    | r => r
    end.

(** What [getattr(plugin_module, item_name)] can be, as [load_plugins]
    tells the cases apart. *)
Inductive item : Type :=
| NotAClass
    (* [issubclass(item, Command)] raises [TypeError] *)
| OtherClass
    (* a class that is not a subclass of [Command] *)
| CommandItself
    (* the class [Command], imported by the plugin *)
| CommandClass (name : string) (takes_handler : bool)
    (construct : M Command)
    (* a subclass of [Command] whose construction does not touch the
       registry; [takes_handler] is
       ['command_handler' in inspect.signature(item.__init__).parameters];
       [construct] is the call of the class *)
| HandlerClass (name : string) (construct : Loader Command).
    (* a subclass of [Command] whose [__init__] has a parameter
       [command_handler] and uses it: [construct] is the call
       [item(self.command_handler)], which can register and remove
       commands itself, also when it ends by raising *)

(** One entry of [pkgutil.iter_modules]: the name, [is_pkg], and what
    [importlib.import_module] does for it ([dir(module)] with the
    object behind every name). *)
Record plugin : Type := mkPlugin {
  plugin_name : string;
  is_pkg : bool;
  import_module : M (list (string * item))
}.

(** The body of the inner [try] of [load_plugins] for one item, with
    its two [except] clauses. *)
Definition register_item (pname item_name : string) (it : item)
  : Loader unit :=
  try_except2
    (match it with
     | NotAClass => lift (raise (mkExn TypeError VNone))
     | OtherClass | CommandItself => lift (ret tt)
     | CommandClass cname takes_handler construct =>
         lbind
           (lift
              (logging DEBUG
                 "Found command: {item.__name__} in plugin: {plugin_name}"
                 [VStr cname; VStr pname]))
           (fun _ =>
              if takes_handler
              then
                lbind (lift construct) (fun c =>
                lbind (register pname c) (fun _ =>
                lift
                  (logging INFO
                     "Registered command: {item.__name__} in plugin: {plugin_name} with command handler"
                     [VStr cname; VStr pname])))
              else
                lbind (lift construct) (fun c =>
                lbind (register pname c) (fun _ =>
                lift
                  (logging INFO
                     "Registered command: {item.__name__} in plugin: {plugin_name}"
                     [VStr cname; VStr pname]))))
     | HandlerClass cname construct =>
         lbind
           (lift
              (logging DEBUG
                 "Found command: {item.__name__} in plugin: {plugin_name}"
                 [VStr cname; VStr pname]))
           (fun _ =>
              lbind construct (fun c =>
              lbind (register pname c) (fun _ =>
              lift
                (logging INFO
                   "Registered command: {item.__name__} in plugin: {plugin_name} with command handler"
                   [VStr cname; VStr pname]))))
     end)
    is_TypeError (fun _ => lift (ret tt))
    is_Exception
    (fun e =>
       lift
         (logging ERROR
            "Failed to register command: {item_name} in plugin: {plugin_name}"
            [VStr item_name; VStr pname] ;;
          logging ERROR "{e}" [exn_arg e])).

(** The result of a loop over plugins or items: how it ended, and the
    registry and state it left. *)
Definition loaded : Type := outcome unit * gmap string Command * state.

(** [for item_name in dir(plugin_module): ...]. *)
Fixpoint register_items (pname : string) (items : list (string * item))
    (commands : gmap string Command) (s : state) : loaded :=
  match items with
  | [] => (Return tt, commands, s)
  | (item_name, it) :: rest =>
      match register_item pname item_name it commands s with
      | (Return _, commands', s') => register_items pname rest commands' s'
      | r => r
      end
  end.

(** The body of the outer [for] of [load_plugins] for one plugin. *)
Definition load_plugin (p : plugin) (commands : gmap string Command)
    (s : state) : loaded :=
  if is_pkg p then
    match import_module p s with
    | (Return items, s1) =>
        let s2 := add_log (mkLog DEBUG "Loaded Plugin: {plugin_name}"
                             [VStr (plugin_name p)]) s1 in
        match register_items (plugin_name p) items commands s2 with
        | (Return _, commands', s3) =>
            (Return tt, commands',
             add_log (mkLog INFO "Completed loading plugins" []) s3)
        | r => r
        end
    | (Raise e, s1) =>
        if is_Exception (exn_cls e)
        then (Return tt, commands,
              add_log (mkLog ERROR "Failed to load plugin: {plugin_name}"
                         [VStr (plugin_name p)]) s1)
        else (Raise e, commands, s1)
    | (Unmodelled, s1) => (Unmodelled, commands, s1)
    end
  else (Return tt, commands, s).

Fixpoint load_plugins_from (ps : list plugin)
    (commands : gmap string Command) (s : state) : loaded :=
  match ps with
  | [] => (Return tt, commands, s)
  | p :: rest =>
      match load_plugin p commands s with
      | (Return _, commands', s') => load_plugins_from rest commands' s'
      | r => r
      end
  end.

(** [App.load_plugins], over what [pkgutil.iter_modules] yields. *)
Definition load_plugins (ps : list plugin)
    (commands : gmap string Command) (s : state) : loaded :=
  load_plugins_from ps commands
    (add_log (mkLog INFO "Loading Plugins" []) s).

(** [App.__init__]: the directories and the logging set-up, then the
    three calls of [HistoryManager()].  It returns
    [self.history_manager]; [self.command_handler] starts empty. *)
Definition __init__ (now : datetime) : M nat :=
  makedirs ;;
  logging INFO "Logging configured with level: {log_level_name}, file: {log_file}"
    [VStr "INFO"; VStr "logs/app.log"] ;;
  let* history_manager := HistoryManager.call in
  let* hm1 := HistoryManager.call in
  HistoryManager.add_calculation hm1 "add" [1; 2] (CInt 3) now ;;
  let* hm2 := HistoryManager.call in
  HistoryManager.save_history hm2 ;;
  logging INFO "History Manager initialized" [] ;;
  ret history_manager.

(** What [input(">>>")] does in one iteration of the loop. *)
Inductive input_event : Type :=
| Line (text : string)
| InputRaises (e : exn).

(** How a run of the loop over a finite script of inputs ends:
    [Reading] when the script is used up and the loop is back at
    [input], [Terminated e] when [e] leaves [start]. *)
Inductive run_end : Type :=
| Reading
| Terminated (e : exn)
| Outside.

Section Dispatch.

(** [CommandHandler.execute_command], whose source is absent: any
    behaviour on the registry, the name and the state. *)
Variable execute_command : gmap string Command -> string -> M unit.

(** The value of the variable [command] when the [except] clause
    runs: the empty string if [input] raised, else the stripped
    line. *)
Definition command_of (ev : input_event) : string :=
  match ev with
  | Line text => PyStr.strip text
  | InputRaises _ => ""
  end.

(** One iteration of [while True]. *)
Definition iteration (commands : gmap string Command)
    (ev : input_event) : M unit :=
  try_except
    (modify (add_stdout ">>>") ;;
     match ev with
     | InputRaises e => raise e
     | Line _ =>
         let command := command_of ev in
         if String.eqb (PyStr.lower command) "exit"
         then
           logging INFO "Exit command entered. Exiting the program" [] ;;
           print "Exiting the program...." ;;
           raise (mkExn SystemExit (VStr "Exiting the program"))
         else
           logging DEBUG "Executing command: {command}" [VStr command] ;;
           execute_command commands command
     end)
    is_Exception
    (fun e =>
       let command := command_of ev in
       logging ERROR
         "An error occurred while executing command '{command if command else '<unknown>'}': {e}"
         [VStr (if PyStr.nonempty command then command else "<unknown>");
          exn_arg e]).

(** The loop, over a script of inputs. *)
Fixpoint repl (commands : gmap string Command)
    (script : list input_event) (s : state) : run_end * state :=
  match script with
  | [] => (Reading, s)
  | ev :: rest =>
      match iteration commands ev s with
      | (Return _, s') => repl commands rest s'
      | (Raise e, s') => (Terminated e, s')
      | (Unmodelled, s') => (Outside, s')
      end
  end.

(** [App.start]. *)
Definition start (ps : list plugin) (commands : gmap string Command)
    (script : list input_event) (s : state)
  : run_end * gmap string Command * state :=
  match load_plugins ps commands
          (add_log (mkLog INFO "Starting Application" []) s) with
  | (Return _, commands', s1) =>
      let (r, s2) :=
        repl commands' script
          (add_stdout "Type 'Exit to quit the program" s1) in
      (r, commands', s2)
  | (Raise e, commands', s1) => (Terminated e, commands', s1)
  | (Unmodelled, commands', s1) => (Outside, commands', s1)
  end.

End Dispatch.

(** A process that has imported the modules and run nothing yet. *)
Definition boot (d : file_state) (dir writable : bool) : state :=
  mkState [] HistoryManager.class_body dir writable d [] [].

End App.

(* ===================================================================== *)
(** ** Observations on a state, and the operations of the store *)
(* ===================================================================== *)

Module Store.
Import Py PyObj Frame.
Local Open Scope py_scope.

(** The attribute [name] of the object at [self], when it has one. *)
Definition attr (s : state) (self : nat) (name : string) : option value :=
  match heap s !! self with
  | Some d => d !! name
  | None => None
  end.

(** [self.df], when the object has one. *)
Definition frame_of (s : state) (self : nat) : option DataFrame :=
  match heap s !! self with
  | Some d =>
      match d !! "df" with
      | Some (VFrame df) => Some df
      | _ => None
      end
  | None => None
  end.

(** The state after the assignment [self.name = v] on an allocated
    object. *)
Definition assign (self : nat) (name : string) (v : value) (s : state)
  : state :=
  match heap s !! self with
  | Some d => set_heap (<[self := <[name := v]> d]> (heap s)) s
  | None => s
  end.

(** The state after one more log record. *)
Definition logged (lv : level) (msg : string) (args : list value)
    (s : state) : state :=
  add_log (mkLog lv msg args) s.

(** The states [__init__] passes through: after the directory check,
    before the [try] around [_load_history], after the closing
    assignment of the flag, after the success message. *)
Definition dir_checked (s : state) : state :=
  if dir_exists s then s
  else if disk_writable s then set_dir_exists true s
  else logged WARNING "Failed to create history directory: {e}" [VNone] s.

Definition prepared (self : nat) (s : state) : state :=
  assign self "columns" (VStrList row_keys)
    (dir_checked
       (assign self "history_file" (VStr HistoryManager.history_file_path)
          (logged INFO "History Manager initialised" []
             (assign self "logger" (VLogger "app.history.manager") s)))).

Definition finished (self : nat) (s : state) : state :=
  assign self (HistoryManager.private "__initialized") (VBool true) s.

Definition succeeded (s : state) : state :=
  logged INFO
    "History manager initialised successfully with history file: {self.history_file}"
    [] s.

(** The state [__new__] leaves in a fresh process: one object, with the
    mangled flag, held by the class. *)
Definition created (s : state) : state :=
  mkState [ {[ "_HistoryManager__initialized" := VBool false ]} ]
    {[ "_HistoryManager__instance" := VRef 0 ]}
    (dir_exists s) (disk_writable s) (disk s) (log s) (stdout s).

(** A process in which no [HistoryManager] has been constructed. *)
Definition fresh (s : state) : Prop :=
  heap s = [] /\ class_dict s = HistoryManager.class_body.

(** The state [save_history] leaves when it wrote [text]. *)
Definition saved (text : string) (s : state) : state :=
  logged INFO "History saved to {self.history_file}"
    [VStr HistoryManager.history_file_path]
    (set_disk (FileContent text)
       (if dir_exists s then s else set_dir_exists true s)).

(** The row labels are [0 .. size-1], in row order. *)
Definition range_indexed (df : DataFrame) : Prop :=
  df_index df = RangeIndex (length (df_data df)).

(** The object at [self] carries what [__init__] gives it, with [df] as
    its frame. *)
Definition configured (s : state) (self : nat) : Prop :=
  attr s self "columns" = Some (VStrList row_keys)
  /\ attr s self "history_file"
     = Some (VStr HistoryManager.history_file_path).

Definition initialised (s : state) (self : nat) (df : DataFrame) : Prop :=
  attr s self "df" = Some (VFrame df) /\ configured s self.

(** The object at [self] is the instance the class holds, it is
    initialised with [df], and it has no attribute named
    [__initialized]. *)
Definition live (s : state) (self : nat) (df : DataFrame) : Prop :=
  class_dict s !! HistoryManager.private "__instance" = Some (VRef self)
  /\ initialised s self df
  /\ attr s self "__initialized" = None.

(** The frame [_load_history] assigns for a disk, when it assigns one;
    [inl false] when [read_csv] raises, [inl true] when the file is
    outside the embedding. *)
Definition loaded_frame (d : file_state) : bool + DataFrame :=
  match d with
  | FileAbsent => inr (DataFrame_columns row_keys)
  | FileContent text =>
      match Csv.read_csv text with
      | Csv.ReadOk df => inr df
      | Csv.ReadEmptyData => inl false
      | Csv.ReadOutside => inl true
      end
  end.

(** The frame [__init__] leaves for a disk: what [_load_history] assigns,
    or the empty frame when it raised. *)
Definition initial_frame (d : file_state) : option DataFrame :=
  match loaded_frame d with
  | inr df => Some df
  | inl false => Some (DataFrame_columns row_keys)
  | inl true => None
  end.

(** A call of [add_calculation] on a store with frame [df] that goes
    through: the inputs can be rendered, and the result joins the
    result column as it is. *)
Definition fits (df : DataFrame) (inputs : list Z) (result : cell) : bool :=
  forallb PyStr.short inputs
  && negb (retyped (map Frame.result (df_rows df)) result)
  && HistoryManager.short_cell result.

(** A disk whose history file, if there is one, has as many fields in
    every record as in the header. *)
Definition unlabelled_file (d : file_state) : bool :=
  match d with
  | FileAbsent => true
  | FileContent text => Csv.unlabelled text
  end.

(** One call of [add_calculation], as data. *)
Record calculation : Type := mkCalculation {
  calc_operation : string;
  calc_inputs : list Z;
  calc_result : Z;
  calc_now : datetime
}.

(** A call that [add_calculation] accepts: [str(inputs)] does not
    raise. *)
Definition accepted (c : calculation) : bool :=
  forallb PyStr.short (calc_inputs c).

Definition add_all (self : nat) (cs : list calculation) (s : state)
  : state :=
  fold_left
    (fun s c =>
       snd (HistoryManager.add_calculation self (calc_operation c)
              (calc_inputs c) (CInt (calc_result c)) (calc_now c) s))
    cs s.

(** The row [add_calculation] builds for a call. *)
Definition entry_of (c : calculation) : HistoryEntry :=
  mkEntry (CStr (strftime (calc_now c))) (CStr (calc_operation c))
    (CStr (PyStr.of_int_list (calc_inputs c))) (CInt (calc_result c)).

(** The tokenizer state at the end of a written field. *)
Definition after (f : string) : Csv.pstate :=
  if Csv.needs_quote f then Csv.QuoteInQuoted
  else match f with EmptyString => Csv.StartField | _ => Csv.InField end.

(** A record the tokenizer reads back: at least two fields, none with a
    carriage return. *)
Definition readable (r : list string) : bool :=
  (2 <=? length r)%nat && negb (existsb Csv.has_cr r).

(** Cells that survive the type inference of [read_csv] unchanged:
    text that can only be read as text, and integers in the [int64]
    range; and rows made of three such text cells and one such integer
    cell. *)
Definition text_cell (c : cell) : bool :=
  match c with
  | CStr t => Csv.is_text t && negb (Csv.has_cr t)
  | _ => false
  end.

Definition int64_cell (c : cell) : bool :=
  match c with
  | CInt z => (- 2 ^ 63 <=? z) && (z <? 2 ^ 63)
  | _ => false
  end.

Definition stable (e : HistoryEntry) : bool :=
  text_cell (timestamp e) && text_cell (operation e)
  && text_cell (inputs e) && int64_cell (result e).

(** A call of [add_calculation] whose row is stable: the operation name
    can only be read as text and has no carriage return, the result is
    an [int64]. *)
Definition well_behaved (c : calculation) : bool :=
  Csv.is_text (calc_operation c) && negb (Csv.has_cr (calc_operation c))
  && (- 2 ^ 63 <=? calc_result c) && (calc_result c <? 2 ^ 63).

(** The characters of a rendered integer. *)
Definition int_chars : string := "-0123456789".

(** The characters of a timestamp. *)
Definition stamp_chars : string := "-0123456789 :".

(** The characters of a rendered list of integers. *)
Definition list_chars : string := "-0123456789, []".

(** Case-insensitive occurrence of [term] as a literal substring of
    [s], in the words of the specification. *)
Definition occurs_ci (term s : string) : Prop :=
  exists pre suf, PyStr.lower s = pre +:+ PyStr.lower term +:+ suf.

(** A row in which [term] occurs in the rendering of some field. *)
Definition row_has (term : string) (r : HistoryEntry) : Prop :=
  exists f, In f (row_strs r) /\ occurs_ci term f.

(** A term without regular-expression metacharacters. *)
Definition plain (term : string) : bool :=
  PyStr.all_chars (fun c => negb (Re.is_meta c)) term.

(** The pattern of a plain term: its characters, as literals. *)
Fixpoint literals (term : string) : list Re.atom :=
  match term with
  | EmptyString => []
  | String c r => Re.Lit c :: literals r
  end.

(** The row test of [search_history] for a compiled pattern. *)
Definition row_matches (p : list Re.atom) (r : HistoryEntry) : bool :=
  existsb (Re.search p) (row_strs r).

End Store.

(* ===================================================================== *)
(** ** Sample runs *)
(* ===================================================================== *)

Module Sample.
Import Py PyObj Frame Store.
Local Open Scope py_scope.

Definition noon : datetime := mkDatetime 2024 3 9 12 0 0.

(** A fresh process with no history file, after [HistoryManager()]. *)
Definition constructed : state :=
  snd (HistoryManager.call (App.boot FileAbsent true true)).

(** ... after [add_calculation('add', [1, 2], 3)] and
    [add_calculation('multiply', [4, 5], 20)]. *)
Definition two_entries : state :=
  add_all 0
    [mkCalculation "add" [1; 2] 3 noon;
     mkCalculation "multiply" [4; 5] 20 noon]
    constructed.

(** The text of a history file without entries. *)
Definition header_only : string := Csv.write_records [row_keys].

Definition two_entries_frame : DataFrame :=
  mkFrame row_keys
    (relabel [entry_of (mkCalculation "add" [1; 2] 3 noon);
              entry_of (mkCalculation "multiply" [4; 5] 20 noon)]).

(** The text of a history file whose records have one field more than
    the header, the first field of a record being the label of its row,
    and the frame [read_csv] makes of it. *)
Definition labelled_file (first second : Z) : string :=
  Csv.write_records
    [row_keys;
     [PyStr.of_int first; strftime noon; "add"; "[1, 2]"; "3"];
     [PyStr.of_int second; strftime noon; "multiply"; "[4, 5]"; "20"]].

Definition entry_of_add : HistoryEntry :=
  entry_of (mkCalculation "add" [1; 2] 3 noon).

Definition labelled_frame (first second : Z) : DataFrame :=
  mkFrame row_keys
    [(first, entry_of_add);
     (second, entry_of (mkCalculation "multiply" [4; 5] 20 noon))].

(** A fresh process with such a file, after [HistoryManager()]. *)
Definition labelled (first second : Z) : state :=
  snd (HistoryManager.call
         (App.boot (FileContent (labelled_file first second)) true true)).

(** A plugin whose import fails, one that exports a command class, and
    one whose command class cannot be built without arguments. *)
Definition import_error : exn :=
  mkExn ImportError (VStr "No module named 'missing'").

Definition missing_argument : exn :=
  mkExn TypeError
    (VStr "__init__() missing 1 required positional argument: 'path'").

Definition broken_plugin : App.plugin :=
  App.mkPlugin "broken" true (raise import_error).

Definition add_command : App.Command := App.mkCommand "AddCommand" (ret tt).

Definition add_plugin : App.plugin :=
  App.mkPlugin "add" true
    (ret [("AddCommand", App.CommandClass "AddCommand" false (ret add_command));
          ("Command", App.CommandItself);
          ("logging", App.NotAClass)]).

Definition strict_plugin : App.plugin :=
  App.mkPlugin "strict" true
    (ret [("StrictCommand",
           App.CommandClass "StrictCommand" false (raise missing_argument))]).

(** A plugin whose module calls [sys.exit()] when it is imported. *)
Definition exiting_plugin : App.plugin :=
  App.mkPlugin "exiting" true (raise (mkExn SystemExit VNone)).

(** A plugin whose command class is given the handler, registers itself
    under a second name with it, and then fails. *)
Definition alias_command : App.Command :=
  App.mkCommand "AliasCommand" (ret tt).

Definition alias_plugin : App.plugin :=
  App.mkPlugin "alias" true
    (ret [("AliasCommand",
           App.HandlerClass "AliasCommand"
             (App.lbind (App.register "a" alias_command)
                (fun _ =>
                   App.lift
                     (raise (mkExn ValueError (VStr "no configuration"))))))]).

End Sample.

(* ===================================================================== *)
(** ** Library calls of the history plugin: [shlex.split], [int], [repr] *)
(* ===================================================================== *)

Module PyLib.
Import Py.

(** The whitespace of [shlex]: space, tab, carriage return, newline. *)
Definition shlex_space (c : ascii) : bool :=
  let n := PyStr.code c in
  ((n =? 32) || (n =? 9) || (n =? 13) || (n =? 10))%nat.

(** The quote and escape characters of [shlex] in POSIX mode. *)
Definition shlex_special (c : ascii) : bool :=
  let n := PyStr.code c in ((n =? 39) || (n =? 34) || (n =? 92))%nat.

Definition word_of (acc : list ascii) : string :=
  string_of_list_ascii (rev acc).

(** The words of a line: maximal runs of characters that are not
    whitespace.  [cur] is the word being read, reversed. *)
Fixpoint words (s : string) (cur : list ascii) : list string :=
  match s with
  | EmptyString => match cur with [] => [] | _ => [word_of cur] end
  | String c r =>
      if shlex_space c
      then match cur with
           | [] => words r []
           | _ => word_of cur :: words r []
           end
      else words r (c :: cur)
  end.

(** [shlex.split(s)] on a line without quotes and backslashes; a line
    with one is outside the embedding ([None]). *)
Definition shlex_split (s : string) : option (list string) :=
  if PyStr.any_char shlex_special s then None else Some (words s []).

Definition is_digit (c : ascii) : bool :=
  let n := PyStr.code c in ((48 <=? n) && (n <=? 57))%nat.

Fixpoint digits_value (s : string) (acc : Z) : Z :=
  match s with
  | EmptyString => acc
  | String c r => digits_value r (10 * acc + Z.of_nat (PyStr.code c - 48))
  end.

(** [IntTooLong n]: the [ValueError] for a literal of [n] digits, more
    than [sys.int_info.default_max_str_digits]. *)
Inductive int_result : Type :=
| IntOk (z : Z)
| IntValueError
| IntTooLong (digits : nat)
| IntOutside.

(** The whitespace [int] ignores around a literal, on code points
    below 256: that of [str.strip] without U+001C..U+001F. *)
Definition int_space (c : ascii) : bool :=
  let n := PyStr.code c in
  ((9 <=? n) && (n <=? 13) || (n =? 32) || (n =? 133) || (n =? 160))%nat.

Fixpoint int_lstrip (l : list ascii) : list ascii :=
  match l with
  | c :: r => if int_space c then int_lstrip r else l
  | [] => []
  end.

Definition int_strip (s : string) : string :=
  string_of_list_ascii
    (rev (int_lstrip (rev (int_lstrip (list_ascii_of_string s))))).

(** The number of digits a literal starts with. *)
Fixpoint digit_run (s : string) : nat :=
  match s with
  | String c r => if is_digit c then S (digit_run r) else 0
  | EmptyString => 0
  end.

Definition max_str_digits : nat := 4300.

(** The sign of a literal, and the literal without it. *)
Definition sign_split (t : string) : bool * string :=
  match t with
  | String c r =>
      if Ascii.eqb c "-" then (true, r)
      else if Ascii.eqb c "+" then (false, r)
      else (false, t)
  | EmptyString => (false, t)
  end.

(** [int(s)] for a string: surrounding whitespace is ignored, then an
    optional sign and decimal digits; more than 4300 digits are
    refused.  A literal with an underscore is outside the embedding. *)
Definition int_of_str (s : string) : int_result :=
  let t := int_strip s in
  if PyStr.mem "_" t then IntOutside
  else
    let (negative, body) := sign_split t in
    if (max_str_digits <? digit_run body)%nat
    then IntTooLong (digit_run body)
    else if PyStr.nonempty body && PyStr.all_chars is_digit body
    then IntOk (if negative then - digits_value body 0
                else digits_value body 0)
    else IntValueError.

(** [str.isprintable] on one code point below 256. *)
Definition printable (c : ascii) : bool :=
  let n := PyStr.code c in
  ((32 <=? n) && (n <=? 126) || (161 <=? n) && (n <=? 172)
   || (174 <=? n))%nat.

(** [repr(s)] for a string of printable characters without quotes and
    backslashes; any other string is outside the embedding. *)
Definition repr (s : string) : option string :=
  if PyStr.all_chars (fun c => printable c && negb (shlex_special c)) s
  then Some ("'" +:+ s +:+ "'")
  else None.

(** [str(e)] for an exception built with a message or with nothing;
    [KeyError] and other arguments are outside the embedding. *)
Definition exn_text (e : exn) : option string :=
  match exn_cls e, exn_arg e with
  | KeyError, _ => None
  | _, VStr m => Some m
  | _, VNone => Some ""
  | _, _ => None
  end.

(** [isinstance(e, ValueError)] for the classes that are named;
    [EmptyDataError] derives from [ValueError].  An [OtherException]
    may or may not: where one can reach an [except ValueError], the
    caller leaves the embedding. *)
Definition is_ValueError (c : exn_class) : bool :=
  match c with ValueError | EmptyDataError => true | _ => false end.

Definition is_other (c : exn_class) : bool :=
  match c with OtherException _ => true | _ => false end.

End PyLib.

(* ===================================================================== *)
(** ** [app/plugins/history]: class [HistoryCommand] *)
(* ===================================================================== *)

Module HistoryPlugin.
Import Py PyObj Frame PyLib.
Local Open Scope py_scope.

Definition prompt : string :=
  "Enter history subcommand (show, clear, delete, save, search) or press Enter for recent history: ".

Definition rule : string := "-------------------------------------------".

(** The line printed for one row of [iterrows()]. *)
Definition row_line (p : Z * HistoryEntry) : string :=
  PyStr.of_int (fst p) +:+ ". [" +:+ cell_str (timestamp (snd p)) +:+ "] "
  +:+ cell_str (operation (snd p)) +:+ " " +:+ cell_str (inputs (snd p))
  +:+ " = " +:+ cell_str (result (snd p)).

Definition row_cells (r : HistoryEntry) : list cell :=
  [timestamp r; operation r; inputs r; result r].

Definition holds_text (c : cell) : bool :=
  match c with CStr _ => true | _ => false end.
Definition holds_int (c : cell) : bool :=
  match c with CInt _ => true | _ => false end.
Definition holds_nan (c : cell) : bool :=
  match c with CNaN => true | _ => false end.

(** Cells among which an integer meets a missing value: pandas holds
    such integers as floats. *)
Definition mixed (cells : list cell) : bool :=
  existsb holds_int cells && existsb holds_nan cells.

(** A row without missing value. *)
Definition complete (r : HistoryEntry) : bool :=
  negb (existsb holds_nan (row_cells r)).

(** [df.iterrows()] builds every row from the values of the frame in
    their common type.  With a text cell in the frame that type is
    [object] and every cell is printed as it is.  A column in which an
    integer meets a missing value, and a frame without text in which
    one does, hold floats: they are outside the embedding. *)
Definition iterrows (df : DataFrame) : M (list (Z * HistoryEntry)) :=
  let rows := df_rows df in
  let cells := concat (map row_cells rows) in
  if existsb mixed
       [map timestamp rows; map operation rows; map inputs rows;
        map result rows]
     || negb (existsb holds_text cells) && mixed cells
  then unmodelled
  else ret (df_data df).

(** [for index, row in rows: print(...)]. *)
Fixpoint print_rows (data : list (Z * HistoryEntry)) : M unit :=
  match data with
  | [] => ret tt
  | p :: rest => print (row_line p) ;; print_rows rest
  end.

Definition _show_history (hm : nat) (limit : option Z) : M unit :=
  let* history_df := HistoryManager.get_history hm limit in
  if empty history_df
  then print "No calculation history found."
  else
    print ("Calculation History (showing "
           +:+ PyStr.of_int (len history_df) +:+ " records):") ;;
    print rule ;;
    let* rows := iterrows history_df in
    print_rows rows.

Definition _show_recent_history (hm : nat) : M unit :=
  _show_history hm (Some 10).

Definition _delete_entry (hm : nat) (index : Z) : M unit :=
  let* deleted := HistoryManager.delete_entry hm index in
  if truthy deleted
  then HistoryManager.save_history hm ;;
       print ("Deleted entry at index " +:+ PyStr.of_int index +:+ ".")
  else print ("Failed to delete entry at index " +:+ PyStr.of_int index
              +:+ ". Index may be out of range.").

Definition _save_history (hm : nat) : M unit :=
  let* saved := HistoryManager.save_history hm in
  if truthy saved
  then print "History saved successfully."
  else print "Failed to save history.".

Definition _search_history (hm : nat) (term : string) : M unit :=
  let* results_df := HistoryManager.search_history hm term in
  if empty results_df
  then print ("No matches found for '" +:+ term +:+ "'.")
  else
    print ("Search Results for '" +:+ term +:+ "' ("
           +:+ PyStr.of_int (len results_df) +:+ " matches):") ;;
    print rule ;;
    let* rows := iterrows results_df in
    print_rows rows.

(** [int(args[1])]. *)
Definition to_int (arg : string) : M Z :=
  match int_of_str arg with
  | IntOk z => ret z
  | IntValueError =>
      match repr arg with
      | Some quoted =>
          raise (mkExn ValueError
                   (VStr ("invalid literal for int() with base 10: "
                          +:+ quoted)))
      | None => unmodelled
      end
  | IntTooLong digits =>
      raise (mkExn ValueError
               (VStr ("Exceeds the limit (4300 digits) for integer string conversion: value has "
                      +:+ PyStr.of_int (Z.of_nat digits)
                      +:+ " digits; use sys.set_int_max_str_digits() to increase the limit")))
  | IntOutside => unmodelled
  end.

(** The body of the [try] of [execute] after [input] has returned
    [user_input]. *)
Definition dispatch (hm : nat) (user_input : string) : M unit :=
  if negb (PyStr.nonempty (PyStr.strip user_input))
  then _show_recent_history hm
  else
    match shlex_split user_input with
    | None => unmodelled
    | Some [] =>
        raise (mkExn (OtherException "IndexError")
                 (VStr "list index out of range"))
    | Some (first :: more) =>
        let action := PyStr.lower first in
        if String.eqb action "show" then
          match more with
          | arg :: _ => let* limit := to_int arg in
                        _show_history hm (Some limit)
          | [] => _show_history hm None
          end
        else if String.eqb action "clear" then
          HistoryCommand._clear_history hm
        else if String.eqb action "delete" then
          match more with
          | [] =>
              print "Index required for delete operation. Usage: delete [index]"
          | arg :: _ =>
              try_except
                (let* index := to_int arg in _delete_entry hm index)
                is_ValueError
                (fun _ => print "Invalid index number. Usage: delete [index]")
          end
        else if String.eqb action "save" then _save_history hm
        else if String.eqb action "search" then
          match more with
          | [] => print "Search term required. Usage: search [term]"
          | term :: _ => _search_history hm term
          end
        else
          print ("Unknown history action: " +:+ action
                 +:+ ". Available actions: show, clear, delete, save, search")
    end.

(** [HistoryCommand.execute], with [self.history_manager] the object at
    [hm] and [ev] what [input] does. *)
Definition execute (hm : nat) (ev : App.input_event) : M unit :=
  try_except
    (modify (add_stdout prompt) ;;
     match ev with
     | App.InputRaises e => raise e
     | App.Line user_input => dispatch hm user_input
     end)
    is_Exception
    (fun e =>
       logging ERROR "Error executing history command: {e}" [exn_arg e] ;;
       match exn_text e with
       | Some text => print ("An error occurred: " +:+ text)
       | None => unmodelled
       end).

End HistoryPlugin.

(* ===================================================================== *)
(** ** [app/plugins/add], [sub], [multiply]: the helper [get_float] *)
(* ===================================================================== *)

Module Arithmetic.
Import Py PyObj PyLib.

Section Floats.

(** Floating-point numbers are not modelled: [float(s)] and [str(x)] are
    taken as they are. *)
Variable F : Type.
Variable float_of_str : string -> option F.
Variable float_str : F -> string.

(** How [get_float] ends on a script of inputs: with a value and the
    inputs it did not read, with an exception that is not a
    [ValueError], still asking when the script is used up, or outside
    the embedding. *)
Inductive asked : Type :=
| Value (v : F) (rest : list App.input_event)
| Failed (e : exn) (rest : list App.input_event)
| StillAsking
| NotModelled.

Definition rejected (s : state) : state :=
  add_stdout "Invalid Value. Please Try Again."
    (add_log (mkLog WARNING "Invalid Value. Please Try Again." []) s).

Fixpoint get_float (prompt : string) (script : list App.input_event)
    (s : state) : asked * state :=
  match script with
  | [] => (StillAsking, s)
  | ev :: rest =>
      let s0 := add_stdout prompt s in
      match ev with
      | App.InputRaises e =>
          if is_other (exn_cls e) then (NotModelled, s0)
          else if is_ValueError (exn_cls e)
          then get_float prompt rest (rejected s0)
          else (Failed e rest, s0)
      | App.Line text =>
          match float_of_str text with
          | Some v =>
              (Value v rest,
               add_log (mkLog INFO "Value entered: {value}"
                          [VStr (float_str v)]) s0)
          | None => get_float prompt rest (rejected s0)
          end
      end
  end.

End Floats.

End Arithmetic.

(* ===================================================================== *)
(* ===================================================================== *)
(** ** Outcomes of a computation, repeated construction, parsed lines *)
(* ===================================================================== *)

Module Outcome.
Import Py PyObj Frame.

(** A computation that raises nothing but [Exception]s. *)
Definition tame {A} (m : M A) : Prop :=
  forall s e s', m s = (Raise e, s') -> is_Exception (exn_cls e) = true.

(** A computation that raises nothing at all. *)
Definition quiet {A} (m : M A) : Prop :=
  forall s e s', m s <> (Raise e, s').

(** The state after [n] calls of [HistoryManager()]. *)
Definition constructions (n : nat) (s : state) : state :=
  Nat.iter n (fun s => snd (HistoryManager.call s)) s.

(** The line [user_input] of the history command has [action] as its
    first word, in any case, and [more] as the words after it. *)
Definition reads (user_input action : string) (more : list string) : Prop :=
  PyStr.nonempty (PyStr.strip user_input) = true
  /\ exists first,
       PyLib.shlex_split user_input = Some (first :: more)
       /\ PyStr.lower first = action.

(** A name of a plugin module behind which there is no command class:
    a module, a function, another class, or [Command] itself. *)
Definition inert (it : App.item) : bool :=
  match it with
  | App.CommandClass _ _ _ | App.HandlerClass _ _ => false
  | _ => true
  end.

(** An object of a plugin module that leaves the command name [k] of
    the registry as it finds it: every object but a command class that
    is given the handler and binds or removes [k] itself. *)
Definition keeps (k : string) (it : App.item) : Prop :=
  match it with
  | App.HandlerClass _ construct =>
      forall commands s, snd (fst (construct commands s)) !! k = commands !! k
  | _ => True
  end.

(** An input that does not end the loop of [App.start]: a line other
    than [exit], or an [Exception] raised by [input]. *)
Definition goes_on (ev : App.input_event) : Prop :=
  match ev with
  | App.Line text => PyStr.lower (PyStr.strip text) <> "exit"
  | App.InputRaises e => is_Exception (exn_cls e) = true
  end.

(** The state after the lines have been printed. *)
Definition printed (lines : list string) (s : state) : state :=
  mkState (heap s) (class_dict s) (dir_exists s) (disk_writable s) (disk s)
    (log s) (stdout s ++ lines).

(** What a listing of the history command prints for a frame: [none]
    when the frame has no rows, else the title, the rule and one line
    for each row. *)
Definition listed (title none : string) (df : DataFrame) : list string :=
  if empty df then [none]
  else title :: HistoryPlugin.rule
       :: map HistoryPlugin.row_line (df_data df).

Definition history_title (df : DataFrame) : string :=
  "Calculation History (showing " +:+ PyStr.of_int (len df) +:+ " records):".

Definition search_title (term : string) (df : DataFrame) : string :=
  "Search Results for '" +:+ term +:+ "' ("
  +:+ PyStr.of_int (len df) +:+ " matches):".

(** The five subcommands of the history command. *)
Definition actions : list string :=
  ["show"; "clear"; "delete"; "save"; "search"].

(** A command line the history command answers with a complaint: a
    [delete] or a [search] without argument, or an unknown action. *)
Definition incomplete (action : string) (more : list string) : bool :=
  match more with
  | [] => String.eqb action "delete" || String.eqb action "search"
  | _ => false
  end
  || negb (PyStr.elem action actions).

(** An input [get_float] answers by asking again: a line [float]
    rejects, or a [ValueError] raised by [input]. *)
Definition invalid {F} (float_of_str : string -> option F)
    (ev : App.input_event) : Prop :=
  match ev with
  | App.Line text => float_of_str text = None
  | App.InputRaises e =>
      PyLib.is_other (exn_cls e) = false
      /\ PyLib.is_ValueError (exn_cls e) = true
  end.

(** The state after [get_float] has asked [n] times in vain. *)
Definition retried (prompt : string) (n : nat) (s : state) : state :=
  Nat.iter n (fun t => Arithmetic.rejected (add_stdout prompt t)) s.

(** A reading of numbers for the samples: whole numbers only. *)
Definition whole (text : string) : option Z :=
  match PyLib.int_of_str text with
  | PyLib.IntOk z => Some z
  | _ => None
  end.

(** The sample store of two entries on a disk that cannot be written. *)
Definition read_only : state :=
  Store.add_all 0
    [Store.mkCalculation "add" [1; 2] 3 Sample.noon;
     Store.mkCalculation "multiply" [4; 5] 20 Sample.noon]
    (snd (HistoryManager.call (App.boot FileAbsent true false))).

End Outcome.

(** * Properties *)
(* ===================================================================== *)

Import Py PyObj Frame Store.

(** ** Frames *)

Section FrameFacts.

Lemma map_fst_combine {A B} (l1 : list A) (l2 : list B) :
  length l1 = length l2 -> map fst (combine l1 l2) = l1.
Proof.
  revert l2. induction l1 as [|a l1 IH]; intros [|b l2] H;
    simpl in *; try congruence.
  f_equal. apply IH. congruence.
Qed.

Lemma map_snd_combine {A B} (l1 : list A) (l2 : list B) :
  length l1 = length l2 -> map snd (combine l1 l2) = l2.
Proof.
  revert l2. induction l1 as [|a l1 IH]; intros [|b l2] H;
    simpl in *; try congruence.
  f_equal. apply IH. congruence.
Qed.

Lemma RangeIndex_length n : length (RangeIndex n) = n.
Proof. unfold RangeIndex. rewrite length_seqZ. lia. Qed.

Lemma relabel_index rows :
  map fst (relabel rows) = RangeIndex (length rows).
Proof. apply map_fst_combine, RangeIndex_length. Qed.

Lemma relabel_rows rows : map snd (relabel rows) = rows.
Proof. apply map_snd_combine, RangeIndex_length. Qed.

Lemma relabel_length rows : length (relabel rows) = length rows.
Proof.
  unfold relabel. rewrite length_combine, RangeIndex_length. lia.
Qed.

Lemma relabel_range_indexed cols rows :
  range_indexed (mkFrame cols (relabel rows)).
Proof.
  unfold range_indexed, df_index. simpl.
  rewrite relabel_index, relabel_length. reflexivity.
Qed.

Lemma df_rows_relabel cols rows : df_rows (mkFrame cols (relabel rows)) = rows.
Proof. apply relabel_rows. Qed.

Lemma empty_range_indexed cols : range_indexed (DataFrame_columns cols).
Proof. reflexivity. Qed.

Lemma seqZ_labels_tail (l : Z) (r : HistoryEntry) data m :
  map fst ((l, r) :: data) = seqZ m (Z.of_nat (length ((l, r) :: data))) ->
  l = m /\ map fst data = seqZ (Z.succ m) (Z.of_nat (length data)).
Proof.
  simpl. rewrite seqZ_cons by lia. intros H. injection H as Hl Hrest.
  split; [exact Hl|]. rewrite Hrest. f_equal. lia.
Qed.

(** Rows labelled [m, m+1, ...]: a label below [m] is on no row. *)
Lemma filter_label_below (data : list (Z * HistoryEntry)) : forall m i,
  map fst data = seqZ m (Z.of_nat (length data)) ->
  i < m ->
  List.filter (fun p => negb (Z.eqb (fst p) i)) data = data.
Proof.
  induction data as [|[l r] data IH]; intros m i Hix Hi; [reflexivity|].
  apply seqZ_labels_tail in Hix as [-> Hrest].
  cbn [List.filter fst]. destruct (Z.eqb_spec m i); [lia|]. simpl.
  f_equal. apply (IH (Z.succ m)); [exact Hrest | lia].
Qed.

(** The label-based filter of [drop] removes the row at position
    [i - m], and only that one. *)
Lemma filter_label_delete (data : list (Z * HistoryEntry)) : forall m i,
  map fst data = seqZ m (Z.of_nat (length data)) ->
  m <= i < m + Z.of_nat (length data) ->
  List.filter (fun p => negb (Z.eqb (fst p) i)) data
  = delete (Z.to_nat (i - m)) data.
Proof.
  induction data as [|[l r] data IH]; intros m i Hix Hi.
  - simpl in Hi. lia.
  - apply seqZ_labels_tail in Hix as [-> Hrest].
    cbn [List.filter fst]. destruct (Z.eqb_spec m i) as [->|Hne]; simpl.
    + replace (Z.to_nat (i - i)) with 0%nat by lia. simpl.
      apply (filter_label_below data (Z.succ i)); [exact Hrest | lia].
    + replace (Z.to_nat (i - m)) with (S (Z.to_nat (i - Z.succ m))) by lia.
      simpl. f_equal. apply IH; [exact Hrest|].
      simpl length in Hi. lia.
Qed.

Lemma has_label_range df i :
  range_indexed df -> 0 <= i < len df -> has_label i df = true.
Proof.
  unfold range_indexed, has_label, len. intros -> Hi.
  apply existsb_exists. exists i. split; [|apply Z.eqb_refl].
  apply list_elem_of_In, elem_of_seqZ. lia.
Qed.

(** On a range-indexed frame, [drop(i)] removes the row at position
    [i]. *)
Lemma drop_range_indexed df i :
  range_indexed df -> 0 <= i < len df ->
  drop i df
  = Some (mkFrame (df_columns df) (delete (Z.to_nat i) (df_data df))).
Proof.
  intros Hr Hi. unfold drop. rewrite has_label_range by assumption.
  rewrite (filter_label_delete (df_data df) 0 i).
  - replace (i - 0) with i by lia. reflexivity.
  - exact Hr.
  - unfold len in Hi. lia.
Qed.

Lemma map_delete {A B} (f : A -> B) (l : list A) : forall n,
  map f (delete n l) = delete n (map f l).
Proof.
  induction l as [|a l IH]; intros [|n]; simpl; try reflexivity.
  f_equal. apply IH.
Qed.

End FrameFacts.

(** ** Attribute access on an allocated object *)

Section ObjectFacts.

Lemma frame_of_inv s self df :
  frame_of s self = Some df ->
  exists d, heap s !! self = Some d /\ d !! "df" = Some (VFrame df).
Proof.
  unfold frame_of. destruct (heap s !! self) as [d|]; [|discriminate].
  destruct (d !! "df") as [[]|] eqn:E; try discriminate.
  intros [= ->]. eauto.
Qed.

Lemma getattr_frame s self df :
  frame_of s self = Some df ->
  getattr self "df" s = (Return (VFrame df), s).
Proof.
  intros (d & Hd & Hdf)%frame_of_inv. unfold getattr. rewrite Hd, Hdf.
  reflexivity.
Qed.

Lemma getattr_attr s self name v :
  attr s self name = Some v -> getattr self name s = (Return v, s).
Proof.
  unfold attr, getattr. destruct (heap s !! self); [|discriminate].
  intros ->. reflexivity.
Qed.

Lemma setattr_assign s self name v :
  is_Some (heap s !! self) ->
  setattr self name v s = (Return tt, assign self name v s).
Proof.
  intros [d Hd]. unfold setattr, assign. rewrite Hd. reflexivity.
Qed.

Lemma frame_of_allocated s self df :
  frame_of s self = Some df -> is_Some (heap s !! self).
Proof. intros (d & Hd & _)%frame_of_inv. eauto. Qed.

Lemma frame_of_assign s self df :
  is_Some (heap s !! self) ->
  frame_of (assign self "df" (VFrame df) s) self = Some df.
Proof.
  intros [d Hd]. unfold assign, frame_of. rewrite Hd. simpl.
  rewrite list_lookup_insert_eq by (eapply lookup_lt_Some; eauto).
  rewrite lookup_insert_eq. reflexivity.
Qed.

Lemma frame_of_logged s self lv msg args :
  frame_of (logged lv msg args s) self = frame_of s self.
Proof. reflexivity. Qed.

End ObjectFacts.

(** ** [delete_entry] *)

Section DeleteFacts.

Variables (s : state) (self : nat) (df : DataFrame).
Hypothesis Hdf : frame_of s self = Some df.

Lemma delete_entry_outside i :
  ~ (0 <= i < len df) ->
  HistoryManager.delete_entry self i s
  = (Return (VBool false),
     if PyStr.short i
     then logged WARNING "Index out of range: {index}" [VInt i] s
     else logged ERROR "Failed to delete entry from history: {e}"
            [VStr HistoryManager.str_digits_message] s).
Proof.
  intros Hi. unfold HistoryManager.delete_entry, try_except, bind.
  rewrite (getattr_frame _ _ _ Hdf). cbn [as_frame ret].
  destruct (Z.leb_spec 0 i), (Z.ltb_spec i (len df)); cbn [andb];
    try lia; destruct (PyStr.short i); reflexivity.
Qed.

(** On any labels: an index in range that labels a row removes the
    rows it labels; one that labels no row makes [drop] raise
    [KeyError]. *)
Lemma delete_entry_labelled i :
  0 <= i < len df -> has_label i df = true ->
  HistoryManager.delete_entry self i s
  = (Return (VBool true),
     logged INFO "Entry deleted from history: {index}" [VInt i]
       (assign self "df"
          (VFrame
             (reset_index
                (mkFrame (df_columns df)
                   (List.filter (fun p => negb (Z.eqb (fst p) i))
                      (df_data df))))) s)).
Proof.
  intros Hi Hl. unfold HistoryManager.delete_entry, try_except, bind.
  rewrite (getattr_frame _ _ _ Hdf). cbn [as_frame ret].
  destruct (Z.leb_spec 0 i), (Z.ltb_spec i (len df)); try lia.
  cbn [andb]. unfold drop. rewrite Hl.
  rewrite setattr_assign by (eapply frame_of_allocated; eauto).
  reflexivity.
Qed.

Lemma delete_entry_unlabelled i :
  0 <= i < len df -> has_label i df = false ->
  HistoryManager.delete_entry self i s
  = (Return (VBool false),
     logged ERROR "Failed to delete entry from history: {e}" [VInt i] s).
Proof.
  intros Hi Hl. unfold HistoryManager.delete_entry, try_except, bind.
  rewrite (getattr_frame _ _ _ Hdf). cbn [as_frame ret].
  destruct (Z.leb_spec 0 i), (Z.ltb_spec i (len df)); try lia.
  cbn [andb]. unfold drop. rewrite Hl. reflexivity.
Qed.

Lemma delete_entry_inside i :
  range_indexed df -> 0 <= i < len df ->
  HistoryManager.delete_entry self i s
  = (Return (VBool true),
     logged INFO "Entry deleted from history: {index}" [VInt i]
       (assign self "df"
          (VFrame (mkFrame (df_columns df)
                     (relabel (delete (Z.to_nat i) (df_rows df))))) s)).
Proof.
  intros Hr Hi. unfold HistoryManager.delete_entry, try_except, bind.
  rewrite (getattr_frame _ _ _ Hdf). simpl.
  destruct (Z.leb_spec 0 i), (Z.ltb_spec i (len df)); try lia. simpl.
  rewrite drop_range_indexed by assumption.
  rewrite setattr_assign by (eapply frame_of_allocated; eauto).
  unfold reset_index, df_rows. simpl. rewrite map_delete. reflexivity.
Qed.

End DeleteFacts.

(** C6, as the code has it.  For every integer [i] outside [0, size),
    [delete_entry(i)] returns [False] and leaves the frame as it is.
    For [i] with [0 <= i < size] it works on the row label [i]: on a
    store whose row labels are [0 .. size-1] it returns [True] and
    leaves the frame with the same columns, the rows without the one at
    position [i] (the rows before it keep their positions, the later
    ones move down by one) and the row labels [0 .. size-2]; on other
    labels it removes the rows labelled [i] and numbers the remaining
    ones afresh, or, when no row is labelled [i], returns [False] and
    removes nothing. *)
Theorem C6_delete_entry_by_position (s : state) (self : nat)
    (df : DataFrame) (i : Z) :
  frame_of s self = Some df ->
  (~ (0 <= i < len df) ->
   fst (HistoryManager.delete_entry self i s) = Return (VBool false)
   /\ frame_of (snd (HistoryManager.delete_entry self i s)) self = Some df)
  /\ (0 <= i < len df -> range_indexed df ->
      fst (HistoryManager.delete_entry self i s) = Return (VBool true)
      /\ exists df',
          frame_of (snd (HistoryManager.delete_entry self i s)) self
          = Some df'
          /\ df_columns df' = df_columns df
          /\ range_indexed df'
          /\ len df' = len df - 1
          /\ df_rows df' = delete (Z.to_nat i) (df_rows df)
          /\ (forall j : nat, (j < Z.to_nat i)%nat ->
               df_rows df' !! j = df_rows df !! j)
          /\ (forall j : nat, (Z.to_nat i <= j)%nat ->
               df_rows df' !! j = df_rows df !! S j))
  /\ (0 <= i < len df -> has_label i df = true ->
      fst (HistoryManager.delete_entry self i s) = Return (VBool true)
      /\ exists df',
          frame_of (snd (HistoryManager.delete_entry self i s)) self
          = Some df'
          /\ df_columns df' = df_columns df
          /\ range_indexed df'
          /\ df_rows df'
             = map snd
                 (List.filter (fun p => negb (Z.eqb (fst p) i))
                    (df_data df)))
  /\ (0 <= i < len df -> has_label i df = false ->
      fst (HistoryManager.delete_entry self i s) = Return (VBool false)
      /\ frame_of (snd (HistoryManager.delete_entry self i s)) self
         = Some df).
Proof.
  intros Hdf. split; [|split; [|split]].
  - intros Hi. rewrite (delete_entry_outside s self df Hdf i Hi).
    cbn [fst snd]. split; [reflexivity|].
    destruct (PyStr.short i); rewrite frame_of_logged; exact Hdf.
  - intros Hi Hr. rewrite (delete_entry_inside s self df Hdf i Hr Hi). simpl.
    split; [reflexivity|]. eexists. split.
    + rewrite frame_of_logged. apply frame_of_assign.
      eapply frame_of_allocated; eauto.
    + split; [reflexivity|]. split; [apply relabel_range_indexed|].
      rewrite df_rows_relabel. split.
      { unfold len in *. cbn [df_data]. rewrite relabel_length.
        rewrite length_delete.
        - unfold df_rows. rewrite length_map. lia.
        - apply lookup_lt_is_Some. unfold df_rows. rewrite length_map. lia. }
      split; [reflexivity|]. split; intros j Hj.
      * apply list_lookup_delete_lt. exact Hj.
      * apply list_lookup_delete_ge. exact Hj.
  - intros Hi Hl. rewrite (delete_entry_labelled s self df Hdf i Hi Hl).
    cbn [fst snd]. split; [reflexivity|]. eexists. split.
    + rewrite frame_of_logged. apply frame_of_assign.
      eapply frame_of_allocated; eauto.
    + split; [reflexivity|]. split; [apply relabel_range_indexed|].
      unfold reset_index. apply df_rows_relabel.
  - intros Hi Hl. rewrite (delete_entry_unlabelled s self df Hdf i Hi Hl).
    cbn [fst snd]. split; [reflexivity|]. rewrite frame_of_logged. exact Hdf.
Qed.

Lemma C6_delete_entry_by_position_witness :
  (fst (HistoryManager.delete_entry 0 2 Sample.two_entries)
   = Return (VBool false)
   /\ frame_of (snd (HistoryManager.delete_entry 0 2 Sample.two_entries)) 0
      = Some Sample.two_entries_frame)
  /\ (fst (HistoryManager.delete_entry 0 0 Sample.two_entries)
      = Return (VBool true)
      /\ exists df',
          frame_of (snd (HistoryManager.delete_entry 0 0 Sample.two_entries))
            0 = Some df'
          /\ df_columns df' = df_columns Sample.two_entries_frame
          /\ range_indexed df'
          /\ len df' = len Sample.two_entries_frame - 1
          /\ df_rows df'
             = delete (Z.to_nat 0) (df_rows Sample.two_entries_frame)
          /\ (forall j : nat, (j < Z.to_nat 0)%nat ->
               df_rows df' !! j = df_rows Sample.two_entries_frame !! j)
          /\ (forall j : nat, (Z.to_nat 0 <= j)%nat ->
               df_rows df' !! j
               = df_rows Sample.two_entries_frame !! S j))
  /\ (fst (HistoryManager.delete_entry 0 0 (Sample.labelled 1 0))
      = Return (VBool true)
      /\ exists df',
          frame_of (snd (HistoryManager.delete_entry 0 0 (Sample.labelled 1 0)))
            0 = Some df'
          /\ df_columns df' = df_columns (Sample.labelled_frame 1 0)
          /\ range_indexed df'
          /\ df_rows df'
             = map snd
                 (List.filter (fun p => negb (Z.eqb (fst p) 0))
                    (df_data (Sample.labelled_frame 1 0))))
  /\ (fst (HistoryManager.delete_entry 0 0 (Sample.labelled 10 20))
      = Return (VBool false)
      /\ frame_of (snd (HistoryManager.delete_entry 0 0 (Sample.labelled 10 20)))
           0
         = Some (Sample.labelled_frame 10 20)).
Proof.
  split; [|split; [|split]].
  - destruct (C6_delete_entry_by_position Sample.two_entries 0
                Sample.two_entries_frame 2) as (H & _);
      [vm_compute; reflexivity|].
    apply H. change (len Sample.two_entries_frame) with 2. lia.
  - destruct (C6_delete_entry_by_position Sample.two_entries 0
                Sample.two_entries_frame 0) as (_ & H & _);
      [vm_compute; reflexivity|].
    apply H; [change (len Sample.two_entries_frame) with 2; lia|].
    vm_compute. reflexivity.
  - destruct (C6_delete_entry_by_position (Sample.labelled 1 0) 0
                (Sample.labelled_frame 1 0) 0) as (_ & _ & H & _);
      [vm_compute; reflexivity|].
    apply H; [change (len (Sample.labelled_frame 1 0)) with 2; lia|].
    vm_compute. reflexivity.
  - destruct (C6_delete_entry_by_position (Sample.labelled 10 20) 0
                (Sample.labelled_frame 10 20) 0) as (_ & _ & _ & H);
      [vm_compute; reflexivity|].
    apply H; [change (len (Sample.labelled_frame 10 20)) with 2; lia|].
    vm_compute. reflexivity.
Defined.

(** C6 as stated fails on a store whose rows carry other labels: a
    history file whose records have one field more than the header
    gives the rows the labels of that field, here 10 and 20; then
    [delete_entry(0)], with [0] in range, removes nothing and returns
    [False]. *)
Lemma C6_counterexample :
  let s := Sample.labelled 10 20 in
  frame_of s 0 = Some (Sample.labelled_frame 10 20)
  /\ 0 <= 0 < len (Sample.labelled_frame 10 20)
  /\ fst (HistoryManager.delete_entry 0 0 s) = Return (VBool false)
  /\ frame_of (snd (HistoryManager.delete_entry 0 0 s)) 0
     = Some (Sample.labelled_frame 10 20).
Proof.
  split; [vm_compute; reflexivity|].
  split; [change (len (Sample.labelled_frame 10 20)) with 2; lia|].
  split; vm_compute; reflexivity.
Qed.

(** ** [clear_history] *)

Section ClearFacts.

Variables (s : state) (self : nat) (df : DataFrame).
Hypothesis Hinit : initialised s self df.

Lemma initialised_frame : frame_of s self = Some df.
Proof.
  destruct Hinit as (Hdf & _). unfold attr in Hdf. unfold frame_of.
  destruct (heap s !! self); [|discriminate]. rewrite Hdf. reflexivity.
Qed.

Lemma getattr_columns :
  getattr self "columns" s = (Return (VStrList row_keys), s).
Proof.
  destruct Hinit as (_ & Hc & _). apply getattr_attr. exact Hc.
Qed.

Lemma clear_history_run :
  HistoryManager.clear_history self s
  = (Return VNone,
     logged INFO "History Cleared" []
       (assign self "df" (VFrame (DataFrame_columns row_keys)) s)).
Proof.
  unfold HistoryManager.clear_history, try_except, bind.
  rewrite getattr_columns. simpl.
  rewrite setattr_assign
    by (eapply frame_of_allocated, initialised_frame).
  reflexivity.
Qed.

(** Without [self.columns] the body raises [AttributeError], which
    the handler logs. *)
Lemma clear_history_fails :
  attr s self "columns" = None ->
  HistoryManager.clear_history self s
  = (Return (VBool false),
     logged ERROR "Failed to clear history: {e}" [VStr "columns"] s).
Proof.
  intros Hc. unfold HistoryManager.clear_history, try_except, bind.
  unfold attr in Hc. unfold getattr.
  destruct (heap s !! self) as [d|]; [rewrite Hc|]; reflexivity.
Qed.

End ClearFacts.



(** ** The row labels after every operation *)

Section LabelFacts.

Lemma read_csv_range_indexed text df :
  Csv.unlabelled text = true ->
  Csv.read_csv text = Csv.ReadOk df -> range_indexed df.
Proof.
  unfold Csv.unlabelled, Csv.records, Csv.read_csv.
  destruct text; [discriminate|].
  destruct (Csv.tokenize _ _ _ _ _) as [[|header recs]|]; try discriminate.
  intros ->. rewrite andb_true_r.
  destruct (bool_decide (header = row_keys)); [|discriminate].
  destruct (Csv.infer_column (Csv.column 0 recs)); [|discriminate].
  destruct (Csv.infer_column (Csv.column 1 recs)); [|discriminate].
  destruct (Csv.infer_column (Csv.column 2 recs)); [|discriminate].
  destruct (Csv.infer_column (Csv.column 3 recs)); [|discriminate].
  intros [= <-]. apply relabel_range_indexed.
Qed.

(** The result column of a frame read from a file holds text, or
    nothing but [int64]s: an [int64] joins it as it is. *)
Lemma column_length k recs : length (Csv.column k recs) = length recs.
Proof. induction recs as [|r recs IH]; simpl; congruence. Qed.

Lemma parse_ints_spec ts : forall col,
  Csv.parse_ints ts = Some col ->
  length col = length ts /\ forallb is_int64 col = true.
Proof.
  induction ts as [|t ts IH]; intros col; simpl.
  - intros [= <-]. split; reflexivity.
  - unfold Csv.parse_int64.
    destruct (NilZero.int_of_string t) as [d|]; [|discriminate].
    destruct ((- 2 ^ 63 <=? Z.of_int d) && (Z.of_int d <? 2 ^ 63)) eqn:E;
      [|discriminate].
    destruct (Csv.parse_ints ts) as [l|]; [|discriminate].
    intros [= <-]. destruct (IH l eq_refl) as [Hlen Hall].
    apply andb_true_iff in E as [Hlo Hhi].
    simpl. rewrite Hlen, Hall. unfold in_int64. rewrite Hlo, Hhi.
    split; reflexivity.
Qed.

Lemma parse_labels_length ts : forall labels,
  Csv.parse_labels ts = Some labels -> length labels = length ts.
Proof.
  induction ts as [|t ts IH]; intros labels; simpl.
  - intros [= <-]. reflexivity.
  - destruct (Csv.parse_int64 t); [|discriminate].
    destruct (Csv.parse_labels ts) as [l|]; [|discriminate].
    intros [= <-]. simpl. rewrite (IH l eq_refl). reflexivity.
Qed.

Lemma text_cells_hold_text ts :
  existsb Csv.is_text ts = true ->
  existsb is_str
    (map (fun t => if Csv.is_na t then CNaN else CStr t) ts) = true.
Proof.
  induction ts as [|t ts IH]; simpl; [discriminate|].
  intros [Ht|Hts]%orb_true_iff.
  - unfold Csv.is_text in Ht. apply andb_true_iff in Ht as [Ht _].
    apply andb_true_iff in Ht as [Ht _]. apply negb_true_iff in Ht.
    rewrite Ht. reflexivity.
  - rewrite (IH Hts). apply orb_true_r.
Qed.

Lemma infer_column_spec ts col :
  Csv.infer_column ts = Some col ->
  length col = length ts
  /\ (existsb is_str col = true \/ forallb is_int64 col = true).
Proof.
  unfold Csv.infer_column. destruct (existsb Csv.is_text ts) eqn:E.
  - intros [= <-]. rewrite length_map. split; [reflexivity|].
    left. apply text_cells_hold_text, E.
  - intros H. destruct (parse_ints_spec ts col H). auto.
Qed.

Lemma zip4_result : forall d a b c,
  length a = length d -> length b = length d -> length c = length d ->
  map result (Csv.zip4 a b c d) = d.
Proof.
  induction d as [|w d IH]; intros [|x a] [|y b] [|z c]; simpl;
    try discriminate; try reflexivity.
  intros [= Ha] [= Hb] [= Hc]. rewrite IH by assumption. reflexivity.
Qed.

Lemma zip4_length : forall d a b c,
  length a = length d -> length b = length d -> length c = length d ->
  length (Csv.zip4 a b c d) = length d.
Proof.
  induction d as [|w d IH]; intros [|x a] [|y b] [|z c]; simpl;
    try discriminate; try reflexivity.
  intros [= Ha] [= Hb] [= Hc]. rewrite IH by assumption. reflexivity.
Qed.

Lemma snd_combine {A B} : forall (l : list A) (l' : list B),
  length l = length l' -> map snd (combine l l') = l'.
Proof.
  induction l as [|a l IH]; intros [|b l']; simpl; try discriminate;
    try reflexivity.
  intros [= H]. rewrite IH by exact H. reflexivity.
Qed.

Lemma read_csv_result text df :
  Csv.read_csv text = Csv.ReadOk df ->
  existsb is_str (map result (df_rows df)) = true
  \/ forallb is_int64 (map result (df_rows df)) = true.
Proof.
  unfold Csv.read_csv. destruct text as [|ch rest]; [discriminate|].
  destruct (Csv.tokenize _ _ _ _ _) as [[|header recs]|]; try discriminate.
  destruct (bool_decide (header = row_keys)); [|discriminate].
  cbn [andb].
  destruct (forallb (fun r => Nat.eqb (length r) 4) recs).
  - destruct (Csv.infer_column (Csv.column 0 recs)) as [a|] eqn:Ea;
      [|discriminate].
    destruct (Csv.infer_column (Csv.column 1 recs)) as [b|] eqn:Eb;
      [|discriminate].
    destruct (Csv.infer_column (Csv.column 2 recs)) as [c|] eqn:Ec;
      [|discriminate].
    destruct (Csv.infer_column (Csv.column 3 recs)) as [d|] eqn:Ed;
      [|discriminate].
    intros [= <-].
    apply infer_column_spec in Ea as [Ha _], Eb as [Hb _], Ec as [Hc _],
      Ed as [Hd Hcol].
    rewrite column_length in Ha, Hb, Hc, Hd.
    rewrite df_rows_relabel, zip4_result by congruence. exact Hcol.
  - destruct (forallb (fun r => Nat.eqb (length r) 5) recs); [|discriminate].
    destruct (Csv.parse_labels (Csv.column 0 recs)) as [labels|] eqn:El;
      [|discriminate].
    destruct (Csv.infer_column (Csv.column 1 recs)) as [a|] eqn:Ea;
      [|discriminate].
    destruct (Csv.infer_column (Csv.column 2 recs)) as [b|] eqn:Eb;
      [|discriminate].
    destruct (Csv.infer_column (Csv.column 3 recs)) as [c|] eqn:Ec;
      [|discriminate].
    destruct (Csv.infer_column (Csv.column 4 recs)) as [d|] eqn:Ed;
      [|discriminate].
    intros [= <-].
    apply parse_labels_length in El.
    apply infer_column_spec in Ea as [Ha _], Eb as [Hb _], Ec as [Hc _],
      Ed as [Hd Hcol].
    rewrite column_length in El, Ha, Hb, Hc, Hd.
    unfold df_rows. cbn [df_data].
    rewrite snd_combine by (rewrite zip4_length; congruence).
    rewrite zip4_result by congruence. exact Hcol.
Qed.

Lemma retyped_int64 col z :
  forallb is_int64 col = true -> in_int64 z = true ->
  retyped col (CInt z) = false.
Proof.
  intros Hi Hz. unfold retyped. rewrite Hi, Hz.
  destruct col; [reflexivity|]. destruct (existsb is_str _); reflexivity.
Qed.

Lemma initial_frame_fits d df0 inputs z :
  initial_frame d = Some df0 ->
  forallb PyStr.short inputs = true ->
  in_int64 z = true -> PyStr.short z = true ->
  fits df0 inputs (CInt z) = true.
Proof.
  intros Hload Hin Hz Hshort. unfold fits. rewrite Hin. cbn [andb].
  cbn [HistoryManager.short_cell]. rewrite Hshort, andb_true_r.
  apply negb_true_iff.
  assert (Hcol : map result (df_rows df0) = []
                 \/ existsb is_str (map result (df_rows df0)) = true
                 \/ forallb is_int64 (map result (df_rows df0)) = true).
  { unfold initial_frame, loaded_frame in Hload.
    destruct d as [|text]; [injection Hload as <-; left; reflexivity|].
    destruct (Csv.read_csv text) as [df| |] eqn:Hread.
    - injection Hload as <-. right. exact (read_csv_result text df Hread).
    - injection Hload as <-. left. reflexivity.
    - discriminate. }
  destruct Hcol as [->|[Hs|Hi]]; [reflexivity| |].
  - unfold retyped. rewrite Hs.
    destruct (map result (df_rows df0)); reflexivity.
  - apply retyped_int64; assumption.
Qed.

Lemma attr_assign_eq s self name v :
  is_Some (heap s !! self) -> attr (assign self name v s) self name = Some v.
Proof.
  intros [d Hd]. unfold assign, attr. rewrite Hd. simpl.
  rewrite list_lookup_insert_eq by (eapply lookup_lt_Some; eauto).
  apply lookup_insert_eq.
Qed.

Lemma attr_assign_ne s self name name' v :
  name <> name' -> attr (assign self name v s) self name' = attr s self name'.
Proof.
  intros Hne. unfold assign, attr.
  destruct (heap s !! self) as [d|] eqn:Hd; [|rewrite Hd; reflexivity].
  simpl. rewrite list_lookup_insert_eq by (eapply lookup_lt_Some; eauto).
  apply lookup_insert_ne. exact Hne.
Qed.

Lemma initialised_allocated s self df :
  initialised s self df -> is_Some (heap s !! self).
Proof.
  intros (Hdf & _). unfold attr in Hdf.
  destruct (heap s !! self); [eauto | discriminate].
Qed.

(** Assigning [self.df] and logging keep the object initialised. *)
Lemma initialised_assign s self df df' lv msg args :
  initialised s self df ->
  initialised (logged lv msg args (assign self "df" (VFrame df') s)) self df'.
Proof.
  intros Hi. pose proof (initialised_allocated _ _ _ Hi) as Ha.
  destruct Hi as (_ & Hc & Hf). unfold initialised, configured, logged.
  change (attr (add_log ?r ?t) self ?n) with (attr t self n).
  rewrite attr_assign_eq by exact Ha.
  rewrite !attr_assign_ne by discriminate. auto.
Qed.

Lemma initialised_logged s self df lv msg args :
  initialised s self df -> initialised (logged lv msg args s) self df.
Proof. intros H. exact H. Qed.

Lemma configured_allocated s self :
  configured s self -> is_Some (heap s !! self).
Proof.
  intros (Hc & _). unfold attr in Hc.
  destruct (heap s !! self); [eauto | discriminate].
Qed.

Lemma load_history_run s self :
  configured s self ->
  HistoryManager._load_history self s
  = match disk s with
    | FileAbsent =>
        (Return tt,
         logged INFO
           "History file not found, creating new file: '{self.history_file}'"
           [VStr HistoryManager.history_file_path]
           (assign self "df" (VFrame (DataFrame_columns row_keys)) s))
    | FileContent text =>
        match Csv.read_csv text with
        | Csv.ReadOk df' =>
            (Return tt,
             logged INFO "History loaded from {self.history_file}"
               [VStr HistoryManager.history_file_path]
               (assign self "df" (VFrame df') s))
        | Csv.ReadEmptyData =>
            (Raise (mkExn EmptyDataError VNone),
             logged ERROR "Failed to load history file: {e}" [VNone] s)
        | Csv.ReadOutside => (Unmodelled, s)
        end
    end.
Proof.
  intros Hi. pose proof (configured_allocated _ _ Hi) as Ha.
  destruct Hi as (Hc & Hf).
  unfold HistoryManager._load_history, try_except, bind.
  rewrite (getattr_attr _ _ _ _ Hf). unfold get.
  destruct (disk s) as [|text].
  - rewrite (getattr_attr _ _ _ _ Hc). simpl.
    rewrite setattr_assign by exact Ha. reflexivity.
  - destruct (Csv.read_csv text); simpl; try reflexivity.
    rewrite setattr_assign by exact Ha. reflexivity.
Qed.

Lemma add_calculation_run s self df operation inputs result now :
  frame_of s self = Some df ->
  fits df inputs result = true ->
  let new_row :=
    mkEntry (CStr (strftime now)) (CStr operation)
      (CStr (PyStr.of_int_list inputs)) result in
  HistoryManager.add_calculation self operation inputs result now s
  = (Return (VBool true),
     logged INFO "Calculation added to history: {new_row}" [VEntry new_row]
       (assign self "df"
          (VFrame (concat_ignore_index df (DataFrame_of_row new_row))) s)).
Proof.
  intros Hdf Hfits new_row. unfold fits in Hfits.
  apply andb_true_iff in Hfits as [Hfits Hres].
  apply andb_true_iff in Hfits as [Hin Hty]. apply negb_true_iff in Hty.
  unfold HistoryManager.add_calculation, try_except. rewrite Hin.
  cbn [negb]. unfold bind.
  rewrite (getattr_frame _ _ _ Hdf). cbn [as_frame ret].
  rewrite Hty, Hres. cbn [negb orb].
  rewrite setattr_assign by (eapply frame_of_allocated; eauto).
  reflexivity.
Qed.

(** An input that cannot be rendered: [add_calculation] returns
    [False] and the store is as before. *)
Lemma add_calculation_long s self operation inputs result now :
  forallb PyStr.short inputs = false ->
  HistoryManager.add_calculation self operation inputs result now s
  = (Return (VBool false),
     logged ERROR "Failed to add calculation to history: {e}"
       [VStr HistoryManager.str_digits_message] s).
Proof.
  intros Hin. unfold HistoryManager.add_calculation, try_except.
  rewrite Hin. reflexivity.
Qed.

End LabelFacts.

(** ** [__init__] and the call [HistoryManager()] *)

Section InitFacts.

Lemma allocated_assign s self o n v :
  is_Some (heap s !! self) -> is_Some (heap (assign o n v s) !! self).
Proof.
  intros Hs. unfold assign. destruct (heap s !! o); [|exact Hs]. simpl.
  apply lookup_lt_is_Some. rewrite length_insert.
  apply lookup_lt_is_Some. exact Hs.
Qed.

Lemma allocated_dir_checked s self :
  is_Some (heap s !! self) -> is_Some (heap (dir_checked s) !! self).
Proof.
  unfold dir_checked. destruct (dir_exists s), (disk_writable s); auto.
Qed.

Lemma allocated_prepared s self :
  is_Some (heap s !! self) -> is_Some (heap (prepared self s) !! self).
Proof.
  intros Ha. unfold prepared.
  apply allocated_assign, allocated_dir_checked, allocated_assign.
  apply allocated_assign with (s := s). exact Ha.
Qed.

Lemma attr_dir_checked s self n : attr (dir_checked s) self n = attr s self n.
Proof.
  unfold dir_checked. destruct (dir_exists s), (disk_writable s); reflexivity.
Qed.

Lemma configured_prepared s self :
  is_Some (heap s !! self) -> configured (prepared self s) self.
Proof.
  intros Ha. unfold configured, prepared. split.
  - apply attr_assign_eq, allocated_dir_checked, allocated_assign.
    apply allocated_assign with (s := s). exact Ha.
  - rewrite attr_assign_ne by discriminate. rewrite attr_dir_checked.
    apply attr_assign_eq. apply allocated_assign with (s := s). exact Ha.
Qed.

Lemma prepare_run s self :
  is_Some (heap s !! self) ->
  HistoryManager.initialise self s
  = match
      try_except
        (bind (HistoryManager._load_history self)
           (fun _ =>
              logging INFO
                "History manager initialised successfully with history file: {self.history_file}"
                []))
        is_Exception
        (fun e =>
           bind (logging WARNING "could not load history file: {e}" [exn_arg e])
             (fun _ =>
                bind (getattr self "columns")
                  (fun c =>
                     bind (as_strlist c)
                       (fun cols =>
                          setattr self "df" (VFrame (DataFrame_columns cols))))))
        (prepared self s)
    with
    | (Return _, s') =>
        setattr self (HistoryManager.private "__initialized") (VBool true) s'
    | (Raise e, s') => (Raise e, s')
    | (Unmodelled, s') => (Unmodelled, s')
    end.
Proof.
  intros Ha. unfold HistoryManager.initialise.
  unfold bind at 1. rewrite setattr_assign by exact Ha.
  unfold bind at 1. unfold logging at 1, modify at 1.
  unfold bind at 1. rewrite setattr_assign by (apply allocated_assign; exact Ha).
  unfold bind at 1. unfold get at 1.
  unfold bind at 1.
  set (s1 := assign self "history_file" _ _).
  assert (Ha1 : is_Some (heap s1 !! self)).
  { subst s1. apply allocated_assign. apply allocated_assign with (s := s). exact Ha. }
  assert (Hdir : (if negb (dir_exists s1)
                  then try_except makedirs is_Exception
                         (fun e => logging WARNING "Failed to create history directory: {e}" [exn_arg e])
                  else ret tt) s1 = (Return tt, dir_checked s1)).
  { unfold dir_checked, try_except, makedirs, ret.
    destruct (dir_exists s1) eqn:E; simpl; [reflexivity|]. rewrite E.
    destruct (disk_writable s1); reflexivity. }
  rewrite Hdir. unfold bind at 1.
  rewrite setattr_assign by (apply allocated_dir_checked; exact Ha1).
  unfold bind at 1. reflexivity.
Qed.


Lemma disk_assign o n v s : disk (assign o n v s) = disk s.
Proof. unfold assign. destruct (heap s !! o); reflexivity. Qed.

Lemma class_dict_assign o n v s : class_dict (assign o n v s) = class_dict s.
Proof. unfold assign. destruct (heap s !! o); reflexivity. Qed.

Lemma disk_dir_checked s : disk (dir_checked s) = disk s.
Proof.
  unfold dir_checked. destruct (dir_exists s), (disk_writable s); reflexivity.
Qed.

Lemma class_dict_dir_checked s : class_dict (dir_checked s) = class_dict s.
Proof.
  unfold dir_checked. destruct (dir_exists s), (disk_writable s); reflexivity.
Qed.

Lemma disk_prepared self s : disk (prepared self s) = disk s.
Proof.
  unfold prepared. rewrite disk_assign, disk_dir_checked, disk_assign.
  unfold logged. simpl. apply disk_assign.
Qed.

Lemma class_dict_prepared self s :
  class_dict (prepared self s) = class_dict s.
Proof.
  unfold prepared.
  rewrite class_dict_assign, class_dict_dir_checked, class_dict_assign.
  unfold logged. simpl. apply class_dict_assign.
Qed.

Lemma attr_prepared self s n :
  n <> "columns" -> n <> "history_file" -> n <> "logger" ->
  attr (prepared self s) self n = attr s self n.
Proof.
  intros H1 H2 H3. unfold prepared.
  rewrite attr_assign_ne by congruence. rewrite attr_dir_checked.
  rewrite attr_assign_ne by congruence. unfold logged.
  change (attr (add_log ?r ?t) self n) with (attr t self n).
  apply attr_assign_ne. congruence.
Qed.

Lemma private_initialized :
  HistoryManager.private "__initialized" = "_HistoryManager__initialized".
Proof. reflexivity. Qed.

Lemma initialise_run s self :
  is_Some (heap s !! self) ->
  HistoryManager.initialise self s
  = match disk s with
    | FileAbsent =>
        (Return tt,
         finished self
           (succeeded
              (logged INFO
                 "History file not found, creating new file: '{self.history_file}'"
                 [VStr HistoryManager.history_file_path]
                 (assign self "df" (VFrame (DataFrame_columns row_keys))
                    (prepared self s)))))
    | FileContent text =>
        match Csv.read_csv text with
        | Csv.ReadOk df =>
            (Return tt,
             finished self
               (succeeded
                  (logged INFO "History loaded from {self.history_file}"
                     [VStr HistoryManager.history_file_path]
                     (assign self "df" (VFrame df) (prepared self s)))))
        | Csv.ReadEmptyData =>
            (Return tt,
             finished self
               (assign self "df" (VFrame (DataFrame_columns row_keys))
                  (logged WARNING "could not load history file: {e}" [VNone]
                     (logged ERROR "Failed to load history file: {e}" [VNone]
                        (prepared self s)))))
        | Csv.ReadOutside => (Unmodelled, prepared self s)
        end
    end.
Proof.
  intros Ha. rewrite (prepare_run s self Ha).
  pose proof (configured_prepared s self Ha) as Hc.
  pose proof (allocated_prepared s self Ha) as Hp.
  unfold try_except. unfold bind at 1.
  rewrite (load_history_run _ _ Hc). rewrite disk_prepared.
  destruct (disk s) as [|text] eqn:Hdisk.
  - unfold logging at 1, modify. cbv beta iota.
    rewrite setattr_assign
      by (unfold logged; apply allocated_assign with (s := prepared self s);
          exact Hp).
    unfold finished, succeeded, logged. reflexivity.
  - destruct (Csv.read_csv text) as [df| |]; cbv beta iota.
    + unfold logging at 1, modify. cbv beta iota.
      rewrite setattr_assign
        by (unfold logged; apply allocated_assign with (s := prepared self s);
            exact Hp).
      unfold finished, succeeded, logged. reflexivity.
    + change (is_Exception (exn_cls (mkExn EmptyDataError VNone))) with true.
      cbv beta iota. unfold bind, logging, modify. cbv beta iota.
      rewrite (getattr_attr _ self "columns" (VStrList row_keys))
        by (exact (proj1 Hc)).
      cbv beta iota. unfold as_strlist, ret. cbv beta iota.
      rewrite setattr_assign by exact Hp. cbv beta iota.
      rewrite setattr_assign by (apply allocated_assign; exact Hp).
      unfold finished, succeeded, logged. reflexivity.
    + reflexivity.
Qed.

End InitFacts.

Section CallFacts.

Lemma attr_finished s self n :
  n <> "_HistoryManager__initialized" ->
  attr (finished self s) self n = attr s self n.
Proof.
  intros Hn. unfold finished. rewrite private_initialized.
  apply attr_assign_ne. congruence.
Qed.

(** What [initialise] leaves when it assigned [df] on top of a prepared
    state [p] that differs from [prepared self s] in its log only. *)
Lemma initialise_ends s self df p q :
  is_Some (heap s !! self) ->
  heap p = heap (prepared self s) ->
  heap q = heap (assign self "df" (VFrame df) p) ->
  disk q = disk s -> class_dict q = class_dict s ->
  initialised (finished self q) self df
  /\ disk (finished self q) = disk s
  /\ class_dict (finished self q) = class_dict s
  /\ attr (finished self q) self "__initialized"
     = attr s self "__initialized".
Proof.
  intros Ha Hp Hq Hd Hc.
  assert (Hattr_q : forall n, attr q self n
                              = attr (assign self "df" (VFrame df) p) self n).
  { intros n. unfold attr. rewrite Hq. reflexivity. }
  assert (Hattr_p : forall n, attr p self n = attr (prepared self s) self n).
  { intros n. unfold attr. rewrite Hp. reflexivity. }
  assert (Hap : is_Some (heap p !! self)).
  { rewrite Hp. apply allocated_prepared, Ha. }
  destruct (configured_prepared s self Ha) as (Hcols & Hfile).
  unfold initialised, configured.
  rewrite !attr_finished by discriminate. rewrite !Hattr_q.
  rewrite attr_assign_eq by exact Hap.
  rewrite !attr_assign_ne by discriminate. rewrite !Hattr_p.
  rewrite Hcols, Hfile.
  rewrite attr_prepared by discriminate.
  unfold finished. rewrite disk_assign, class_dict_assign.
  repeat split; assumption.
Qed.

Lemma initialise_spec s self :
  is_Some (heap s !! self) ->
  match initial_frame (disk s) with
  | Some df =>
      fst (HistoryManager.initialise self s) = Return tt
      /\ initialised (snd (HistoryManager.initialise self s)) self df
      /\ disk (snd (HistoryManager.initialise self s)) = disk s
      /\ class_dict (snd (HistoryManager.initialise self s)) = class_dict s
      /\ attr (snd (HistoryManager.initialise self s)) self "__initialized"
         = attr s self "__initialized"
  | None => fst (HistoryManager.initialise self s) = Unmodelled
  end.
Proof.
  intros Ha. rewrite (initialise_run s self Ha).
  unfold initial_frame, loaded_frame.
  destruct (disk s) as [|text] eqn:Hdisk.
  - split; [reflexivity|]. cbn [snd]. rewrite <- Hdisk.
    eapply initialise_ends; try exact Ha; try reflexivity.
    + unfold succeeded, logged. simpl. rewrite disk_assign.
      apply disk_prepared.
    + unfold succeeded, logged. simpl. rewrite class_dict_assign.
      apply class_dict_prepared.
  - destruct (Csv.read_csv text) as [df| |].
    + split; [reflexivity|]. cbn [snd]. rewrite <- Hdisk.
      eapply initialise_ends; try exact Ha; try reflexivity.
      * unfold succeeded, logged. simpl. rewrite disk_assign.
        apply disk_prepared.
      * unfold succeeded, logged. simpl. rewrite class_dict_assign.
        apply class_dict_prepared.
    + split; [reflexivity|]. cbn [snd]. rewrite <- Hdisk.
      eapply (initialise_ends s self _
                (logged WARNING "could not load history file: {e}" [VNone]
                   (logged ERROR "Failed to load history file: {e}" [VNone]
                      (prepared self s))));
        try exact Ha; try reflexivity.
      * rewrite disk_assign. apply disk_prepared.
      * rewrite class_dict_assign. apply class_dict_prepared.
    + reflexivity.
Qed.

Lemma init_runs s self :
  attr s self "__initialized" = None ->
  HistoryManager.__init__ self s = HistoryManager.initialise self s.
Proof.
  intros Hn. unfold HistoryManager.__init__, bind, getattr_default.
  unfold attr in Hn. destruct (heap s !! self) as [d|].
  - rewrite Hn. reflexivity.
  - reflexivity.
Qed.

Lemma new_returns_instance s self :
  class_dict s !! HistoryManager.private "__instance" = Some (VRef self) ->
  HistoryManager.__new__ s = (Return self, s).
Proof.
  change (HistoryManager.private "__instance")
    with "_HistoryManager__instance".
  intros Hc. unfold HistoryManager.__new__, bind, class_getattr.
  change (HistoryManager.private "__instance")
    with "_HistoryManager__instance".
  rewrite Hc. simpl. rewrite Hc. reflexivity.
Qed.

Lemma call_live s self df :
  live s self df ->
  HistoryManager.call s
  = match HistoryManager.initialise self s with
    | (Return _, s') => (Return self, s')
    | (Raise e, s') => (Raise e, s')
    | (Unmodelled, s') => (Unmodelled, s')
    end.
Proof.
  intros (Hc & Hi & Hn). unfold HistoryManager.call.
  unfold bind at 1. rewrite (new_returns_instance s self Hc).
  unfold bind. rewrite (init_runs s self Hn).
  destruct (HistoryManager.initialise self s) as [[| |] s']; reflexivity.
Qed.

End CallFacts.

(** C1: when the instance exists and is initialised, whatever frame it
    holds in memory, [HistoryManager()] returns that same object and runs
    the initialisation again: afterwards the frame is the one loaded from
    the file (the empty frame when there is no file), and the object is
    in the same condition for the next construction. *)
Theorem C1_construction_loads_again (s : state) (self : nat)
    (df loaded : DataFrame) :
  live s self df ->
  initial_frame (disk s) = Some loaded ->
  fst (HistoryManager.call s) = Return self
  /\ frame_of (snd (HistoryManager.call s)) self = Some loaded
  /\ live (snd (HistoryManager.call s)) self loaded.
Proof.
  intros Hl Hload. rewrite (call_live s self df Hl).
  destruct Hl as (Hc & Hi & Hn).
  pose proof (initialise_spec s self (initialised_allocated _ _ _ Hi)) as Hs.
  rewrite Hload in Hs.
  destruct (HistoryManager.initialise self s) as [r s'].
  destruct Hs as (Hr & Hi' & Hd & Hcd & Ha). simpl in Hr. subst r.
  simpl in *. split; [reflexivity|]. split.
  - apply (initialised_frame _ _ _ Hi').
  - split; [rewrite Hcd; exact Hc|]. split; [exact Hi'|].
    rewrite Ha. exact Hn.
Qed.

Lemma C1_construction_loads_again_witness :
  fst (HistoryManager.call Sample.two_entries) = Return 0%nat
  /\ frame_of (snd (HistoryManager.call Sample.two_entries)) 0
     = Some (DataFrame_columns row_keys)
  /\ live (snd (HistoryManager.call Sample.two_entries)) 0
       (DataFrame_columns row_keys).
Proof.
  apply (C1_construction_loads_again Sample.two_entries 0
           Sample.two_entries_frame (DataFrame_columns row_keys)).
  - split; [vm_compute; reflexivity|]. split.
    + split; [|split]; vm_compute; reflexivity.
    + vm_compute. reflexivity.
  - vm_compute. reflexivity.
Defined.

(** ** The first construction in a process *)

Section BootFacts.

Variable s : state.
Hypothesis Hfresh : fresh s.

Lemma new_fresh : HistoryManager.__new__ s = (Return 0%nat, created s).
Proof.
  destruct Hfresh as (Hh & Hc). destruct s as [h c dir w d l o].
  simpl in Hh, Hc. subst h c. vm_compute. reflexivity.
Qed.

Lemma call_fresh :
  HistoryManager.call s
  = match HistoryManager.initialise 0 (created s) with
    | (Return _, s') => (Return 0%nat, s')
    | (Raise e, s') => (Raise e, s')
    | (Unmodelled, s') => (Unmodelled, s')
    end.
Proof.
  unfold HistoryManager.call. unfold bind at 1. rewrite new_fresh.
  unfold bind. rewrite init_runs by (vm_compute; reflexivity).
  destruct (HistoryManager.initialise 0 (created s)) as [[| |] s'];
    reflexivity.
Qed.

Lemma call_fresh_live df :
  initial_frame (disk s) = Some df ->
  fst (HistoryManager.call s) = Return 0%nat
  /\ live (snd (HistoryManager.call s)) 0 df
  /\ disk (snd (HistoryManager.call s)) = disk s.
Proof.
  intros Hload. rewrite call_fresh.
  assert (Ha : is_Some (heap (created s) !! 0%nat)) by (eexists; reflexivity).
  pose proof (initialise_spec (created s) 0 Ha) as Hs.
  change (disk (created s)) with (disk s) in Hs. rewrite Hload in Hs.
  destruct (HistoryManager.initialise 0 (created s)) as [r s'].
  destruct Hs as (Hr & Hi & Hd & Hcd & Hn). simpl in Hr. subst r.
  simpl in *. split; [reflexivity|]. split; [|exact Hd]. split; [|split].
  - rewrite Hcd. vm_compute. reflexivity.
  - exact Hi.
  - rewrite Hn. vm_compute. reflexivity.
Qed.

End BootFacts.




(** ** [save_history] and the start of the application *)

Section SaveFacts.

Lemma class_dict_logged lv msg args s :
  class_dict (logged lv msg args s) = class_dict s.
Proof. reflexivity. Qed.

Lemma disk_logged lv msg args s : disk (logged lv msg args s) = disk s.
Proof. reflexivity. Qed.

Lemma writable_logged lv msg args s :
  disk_writable (logged lv msg args s) = disk_writable s.
Proof. reflexivity. Qed.

Lemma attr_logged lv msg args s self n :
  attr (logged lv msg args s) self n = attr s self n.
Proof. reflexivity. Qed.

Lemma writable_assign o n v s :
  disk_writable (assign o n v s) = disk_writable s.
Proof. unfold assign. destruct (heap s !! o); reflexivity. Qed.

Lemma writable_dir_checked s :
  disk_writable (dir_checked s) = disk_writable s.
Proof.
  unfold dir_checked. destruct (dir_exists s); [reflexivity|].
  destruct (disk_writable s) eqn:E; exact E.
Qed.

Lemma writable_prepared self s :
  disk_writable (prepared self s) = disk_writable s.
Proof.
  unfold prepared. rewrite writable_assign, writable_dir_checked.
  rewrite writable_assign. unfold logged. simpl. apply writable_assign.
Qed.

Lemma initialise_writable s self :
  is_Some (heap s !! self) ->
  disk_writable (snd (HistoryManager.initialise self s)) = disk_writable s.
Proof.
  intros Ha. rewrite (initialise_run s self Ha).
  destruct (disk s) as [|text]; [|destruct (Csv.read_csv text)]; simpl;
    unfold finished, succeeded, logged; simpl;
    rewrite ?writable_assign; simpl; rewrite ?writable_assign;
    apply writable_prepared.
Qed.

(** A construction when the instance exists: the same object, the frame
    read from the disk, the disk as it was. *)
Lemma call_again s self df loaded :
  live s self df ->
  initial_frame (disk s) = Some loaded ->
  fst (HistoryManager.call s) = Return self
  /\ live (snd (HistoryManager.call s)) self loaded
  /\ disk (snd (HistoryManager.call s)) = disk s
  /\ disk_writable (snd (HistoryManager.call s)) = disk_writable s.
Proof.
  intros Hl Hload. rewrite (call_live s self df Hl).
  destruct Hl as (Hc & Hi & Hn).
  pose proof (initialised_allocated _ _ _ Hi) as Ha.
  pose proof (initialise_spec s self Ha) as Hs.
  pose proof (initialise_writable s self Ha) as Hw.
  rewrite Hload in Hs.
  destruct (HistoryManager.initialise self s) as [r s'].
  destruct Hs as (Hr & Hi' & Hd & Hcd & Hat). simpl in Hr. subst r.
  simpl in *. split; [reflexivity|]. split; [|split; assumption].
  split; [rewrite Hcd; exact Hc|]. split; [exact Hi'|].
  rewrite Hat. exact Hn.
Qed.

Lemma call_first s df :
  fresh s ->
  initial_frame (disk s) = Some df ->
  fst (HistoryManager.call s) = Return 0%nat
  /\ live (snd (HistoryManager.call s)) 0 df
  /\ disk (snd (HistoryManager.call s)) = disk s
  /\ disk_writable (snd (HistoryManager.call s)) = disk_writable s.
Proof.
  intros Hf Hload.
  destruct (call_fresh_live s Hf df Hload) as (Hr & Hl & Hd).
  split; [exact Hr|]. split; [exact Hl|]. split; [exact Hd|].
  rewrite (call_fresh s Hf).
  pose proof (initialise_writable (created s) 0) as Hw.
  destruct (HistoryManager.initialise 0 (created s)) as [[| |] s'];
    simpl in *; apply Hw; eexists; reflexivity.
Qed.

Lemma live_add s self df operation inputs result now :
  live s self df ->
  fits df inputs result = true ->
  let s' :=
    snd (HistoryManager.add_calculation self operation inputs result now s) in
  (exists df', live s' self df')
  /\ disk s' = disk s /\ disk_writable s' = disk_writable s.
Proof.
  intros (Hc & Hi & Hn) Hfits s'. subst s'.
  rewrite (add_calculation_run s self df _ _ _ _
             (initialised_frame _ _ _ Hi) Hfits).
  cbn [snd]. split; [|split].
  - eexists. split; [|split].
    + rewrite class_dict_logged, class_dict_assign. exact Hc.
    + eapply initialised_assign. exact Hi.
    + rewrite attr_logged.
      rewrite attr_assign_ne by discriminate. exact Hn.
  - rewrite disk_logged. apply disk_assign.
  - rewrite writable_logged. apply writable_assign.
Qed.

Lemma save_history_run s self df text :
  initialised s self df ->
  disk_writable s = true ->
  Csv.to_csv df = Some text ->
  HistoryManager.save_history self s = (Return (VBool true), saved text s).
Proof.
  intros Hi Hw Hcsv. destruct Hi as (Hdf & Hcols & Hfile).
  unfold HistoryManager.save_history, try_except, bind.
  rewrite (getattr_attr _ _ _ _ Hfile). cbv beta iota.
  unfold saved, makedirs, write_file. rewrite Hw.
  destruct (dir_exists s) eqn:Hdir.
  - rewrite (getattr_attr _ _ _ _ Hdf). simpl. rewrite Hcsv.
    rewrite Hdir, Hw. reflexivity.
  - rewrite (getattr_attr (set_dir_exists true s) _ _ _ Hdf). simpl.
    rewrite Hcsv. simpl. rewrite Hw. reflexivity.
Qed.

End SaveFacts.

Section StartFacts.

Lemma app_init_run d dir now df0 text :
  initial_frame d = Some df0 ->
  Csv.to_csv df0 = Some text ->
  exists s',
    App.__init__ now (App.boot d dir true) = (Return 0%nat, s')
    /\ disk s' = FileContent text
    /\ frame_of s' 0 = Some df0.
Proof.
  intros Hload Hcsv. unfold App.__init__.
  unfold bind at 1.
  assert (Hmk : exists s0, makedirs (App.boot d dir true) = (Return tt, s0)
                           /\ fresh s0 /\ disk s0 = d
                           /\ disk_writable s0 = true).
  { unfold makedirs. destruct dir; simpl; eexists; split; try reflexivity;
      repeat split. }
  destruct Hmk as (s0 & -> & Hf0 & Hd0 & Hw0).
  unfold bind at 1. unfold logging at 1, modify.
  set (sa := add_log _ s0).
  assert (Hfa : fresh sa) by exact Hf0.
  unfold bind at 1.
  destruct (call_first sa df0 Hfa) as (Hr1 & Hl1 & Hd1 & Hw1).
  { change (disk sa) with (disk s0). rewrite Hd0. exact Hload. }
  destruct (HistoryManager.call sa) as [r1 s1]. simpl in Hr1, Hl1, Hd1, Hw1.
  subst r1. unfold bind at 1.
  destruct (call_again s1 0 df0 df0 Hl1) as (Hr2 & Hl2 & Hd2 & Hw2).
  { rewrite Hd1. change (disk sa) with (disk s0). rewrite Hd0. exact Hload. }
  destruct (HistoryManager.call s1) as [r2 s2]. simpl in Hr2, Hl2, Hd2, Hw2.
  subst r2. unfold bind at 1.
  assert (Hfits : fits df0 [1; 2] (CInt 3) = true)
    by (apply (initial_frame_fits d); [exact Hload | reflexivity ..]).
  pose proof (live_add s2 0 df0 "add" [1; 2] (CInt 3) now Hl2 Hfits) as Hadd.
  pose proof (add_calculation_run s2 0 df0 "add" [1; 2] (CInt 3) now
                (initialised_frame _ _ _ (proj1 (proj2 Hl2))) Hfits) as Hrun.
  destruct (HistoryManager.add_calculation 0 "add" [1; 2] (CInt 3) now s2)
    as [r3 s3].
  simpl in Hadd. destruct Hadd as ((df3 & Hl3) & Hd3 & Hw3).
  injection Hrun as -> _.
  unfold bind at 1.
  destruct (call_again s3 0 df3 df0 Hl3) as (Hr4 & Hl4 & Hd4 & Hw4).
  { rewrite Hd3, Hd2, Hd1. change (disk sa) with (disk s0). rewrite Hd0.
    exact Hload. }
  destruct (HistoryManager.call s3) as [r4 s4]. simpl in Hr4, Hl4, Hd4, Hw4.
  subst r4. unfold bind at 1.
  rewrite (save_history_run s4 0 df0 text (proj1 (proj2 Hl4))); [|congruence|exact Hcsv].
  simpl. eexists. split; [reflexivity|]. split; [reflexivity|].
  unfold saved. destruct Hl4 as (_ & Hi4 & _).
  pose proof (initialised_frame _ _ _ Hi4) as Hfr.
  destruct (dir_exists s4); exact Hfr.
Qed.
End StartFacts.

(** C4: [App.__init__] in a fresh process with a writable directory, on
    any history file the reader accepts: the entry [add_calculation]
    appends is dropped by the following [HistoryManager()], which loads
    the file again, so [save_history] writes back what the file already
    held; after start-up the file is the serialisation of the frame read
    from it, and so is the frame in memory. *)
Theorem C4_startup_entry_is_discarded (d : file_state) (dir : bool)
    (now : datetime) (df0 : DataFrame) (text : string) :
  initial_frame d = Some df0 ->
  Csv.to_csv df0 = Some text ->
  fst (App.__init__ now (App.boot d dir true)) = Return 0%nat
  /\ disk (snd (App.__init__ now (App.boot d dir true))) = FileContent text
  /\ frame_of (snd (App.__init__ now (App.boot d dir true))) 0 = Some df0.
Proof.
  intros Hload Hcsv.
  destruct (app_init_run d dir now df0 text Hload Hcsv)
    as (s' & -> & Hd & Hf).
  simpl. auto.
Qed.

Lemma C4_startup_entry_is_discarded_witness :
  fst (App.__init__ Sample.noon
         (App.boot (FileContent Sample.header_only) true true))
  = Return 0%nat
  /\ disk (snd (App.__init__ Sample.noon
                  (App.boot (FileContent Sample.header_only) true true)))
     = FileContent Sample.header_only
  /\ frame_of (snd (App.__init__ Sample.noon
                      (App.boot (FileContent Sample.header_only) true true)))
       0
     = Some (DataFrame_columns row_keys).
Proof.
  apply (C4_startup_entry_is_discarded (FileContent Sample.header_only) true
           Sample.noon (DataFrame_columns row_keys) Sample.header_only).
  - vm_compute. reflexivity.
  - vm_compute. reflexivity.
Defined.

(** The first start-up, with no history file: the file is created with
    the header line alone. *)
Example startup_without_file :
  disk (snd (App.__init__ Sample.noon (App.boot FileAbsent false true)))
  = FileContent Sample.header_only.
Proof. vm_compute. reflexivity. Qed.

(** ** The dispatch loop *)

Section ReplFacts.

Variable execute_command : gmap string App.Command -> string -> M unit.
Variable commands : gmap string App.Command.

Lemma iteration_exit text s :
  PyStr.lower (PyStr.strip text) = "exit" ->
  App.iteration execute_command commands (App.Line text) s
  = (Raise (mkExn SystemExit (VStr "Exiting the program")),
     add_stdout "Exiting the program...."
       (logged INFO "Exit command entered. Exiting the program" []
          (add_stdout ">>>" s))).
Proof.
  intros Hexit. unfold App.iteration, try_except, bind, modify, logging,
    print, raise, modify. simpl. rewrite Hexit. reflexivity.
Qed.

Lemma iteration_command text s :
  PyStr.lower (PyStr.strip text) <> "exit" ->
  App.iteration execute_command commands (App.Line text) s
  = match
      execute_command commands (PyStr.strip text)
        (logged DEBUG "Executing command: {command}"
           [VStr (PyStr.strip text)] (add_stdout ">>>" s))
    with
    | (Raise e, s1) =>
        if is_Exception (exn_cls e)
        then (Return tt,
              logged ERROR
                "An error occurred while executing command '{command if command else '<unknown>'}': {e}"
                [VStr (if PyStr.nonempty (PyStr.strip text)
                       then PyStr.strip text else "<unknown>");
                 exn_arg e] s1)
        else (Raise e, s1)
    | r => r
    end.
Proof.
  intros Hne. unfold App.iteration, try_except, bind, modify, logging,
    modify. simpl.
  destruct (String.eqb_spec (PyStr.lower (PyStr.strip text)) "exit")
    as [Heq|_]; [contradiction|].
  unfold logged.
  destruct (execute_command commands (PyStr.strip text) _) as [[| |] s1];
    reflexivity.
Qed.

Lemma iteration_input_raises e s :
  App.iteration execute_command commands (App.InputRaises e) s
  = if is_Exception (exn_cls e)
    then (Return tt,
          logged ERROR
            "An error occurred while executing command '{command if command else '<unknown>'}': {e}"
            [VStr "<unknown>"; exn_arg e] (add_stdout ">>>" s))
    else (Raise e, add_stdout ">>>" s).
Proof.
  unfold App.iteration, try_except, bind, modify, logging, raise, modify.
  simpl. destruct (is_Exception (exn_cls e)); reflexivity.
Qed.

End ReplFacts.

(** C3: for every input line whose stripped, lower-cased form is
    ["exit"], the loop prints the farewell message and leaves [start]
    with [SystemExit("Exiting the program")]: the exception is not an
    [Exception], so the [except] clause lets it through, whatever script
    follows.  Its argument is a string, so the exit status of the
    process is 1, not 0. *)
Theorem C3_exit_status_is_one
    (execute_command : gmap string App.Command -> string -> M unit)
    (commands : gmap string App.Command) (text : string)
    (rest : list App.input_event) (s : state) :
  PyStr.lower (PyStr.strip text) = "exit" ->
  let leaving := mkExn SystemExit (VStr "Exiting the program") in
  fst (App.repl execute_command commands (App.Line text :: rest) s)
  = App.Terminated leaving
  /\ stdout (snd (App.repl execute_command commands
                    (App.Line text :: rest) s))
     = stdout s ++ [">>>"; "Exiting the program...."]
  /\ is_Exception (exn_cls leaving) = false
  /\ exit_status (exn_arg leaving) = 1.
Proof.
  intros Hexit leaving. cbn [App.repl].
  rewrite (iteration_exit execute_command commands text s Hexit).
  cbn [fst snd]. split; [reflexivity|]. split; [|split; reflexivity].
  simpl. rewrite <- app_assoc. reflexivity.
Qed.

Lemma C3_exit_status_is_one_witness :
  let leaving := mkExn SystemExit (VStr "Exiting the program") in
  fst (App.repl (fun _ _ => ret tt) ∅
         [App.Line "  Exit "; App.Line "add"] (App.boot FileAbsent true true))
  = App.Terminated leaving
  /\ stdout (snd (App.repl (fun _ _ => ret tt) ∅
                    [App.Line "  Exit "; App.Line "add"]
                    (App.boot FileAbsent true true)))
     = stdout (App.boot FileAbsent true true)
       ++ [">>>"; "Exiting the program...."]
  /\ is_Exception (exn_cls leaving) = false
  /\ exit_status (exn_arg leaving) = 1.
Proof.
  apply (C3_exit_status_is_one (fun _ _ => ret tt) ∅ "  Exit "
           [App.Line "add"] (App.boot FileAbsent true true)).
  vm_compute. reflexivity.
Defined.

(** C7, as the code has it: for every input line that is not the exit
    command, an exception raised by [execute_command] that is an
    [Exception] is caught, one ERROR record is logged with the stripped
    input text (or ["<unknown>"] when that text is empty), and the loop
    goes on with the next input; the same holds when [input] itself
    raises that exception, with the placeholder. *)
Theorem C7_exceptions_are_contained
    (execute_command : gmap string App.Command -> string -> M unit)
    (commands : gmap string App.Command) (text : string)
    (rest : list App.input_event) (s s1 : state) (e : exn) :
  PyStr.lower (PyStr.strip text) <> "exit" ->
  execute_command commands (PyStr.strip text)
    (logged DEBUG "Executing command: {command}" [VStr (PyStr.strip text)]
       (add_stdout ">>>" s))
  = (Raise e, s1) ->
  is_Exception (exn_cls e) = true ->
  App.repl execute_command commands (App.Line text :: rest) s
  = App.repl execute_command commands rest
      (logged ERROR
         "An error occurred while executing command '{command if command else '<unknown>'}': {e}"
         [VStr (if PyStr.nonempty (PyStr.strip text)
                then PyStr.strip text else "<unknown>");
          exn_arg e] s1)
  /\ App.repl execute_command commands (App.InputRaises e :: rest) s
     = App.repl execute_command commands rest
         (logged ERROR
            "An error occurred while executing command '{command if command else '<unknown>'}': {e}"
            [VStr "<unknown>"; exn_arg e] (add_stdout ">>>" s)).
Proof.
  intros Hne Hraise Hcls. split; cbn [App.repl].
  - rewrite (iteration_command execute_command commands text s Hne).
    rewrite Hraise, Hcls. reflexivity.
  - rewrite iteration_input_raises, Hcls. reflexivity.
Qed.

Lemma C7_exceptions_are_contained_witness :
  let boom := mkExn ValueError (VStr "boom") in
  let failing : gmap string App.Command -> string -> M unit :=
    fun _ _ => raise boom in
  let s := App.boot FileAbsent true true in
  App.repl failing ∅ [App.Line " add "; App.Line "menu"] s
  = App.repl failing ∅ [App.Line "menu"]
      (logged ERROR
         "An error occurred while executing command '{command if command else '<unknown>'}': {e}"
         [VStr (if PyStr.nonempty (PyStr.strip " add ")
                then PyStr.strip " add " else "<unknown>");
          exn_arg boom]
         (logged DEBUG "Executing command: {command}"
            [VStr (PyStr.strip " add ")] (add_stdout ">>>" s)))
  /\ App.repl failing ∅ [App.InputRaises boom; App.Line "menu"] s
     = App.repl failing ∅ [App.Line "menu"]
         (logged ERROR
            "An error occurred while executing command '{command if command else '<unknown>'}': {e}"
            [VStr "<unknown>"; exn_arg boom] (add_stdout ">>>" s)).
Proof.
  intros boom failing s.
  apply (C7_exceptions_are_contained failing ∅ " add " [App.Line "menu"] s
           (logged DEBUG "Executing command: {command}"
              [VStr (PyStr.strip " add ")] (add_stdout ">>>" s)) boom).
  - vm_compute. discriminate.
  - reflexivity.
  - reflexivity.
Defined.

(** C7 as stated fails: a command whose [execute] raises
    [KeyboardInterrupt] (the user interrupts its prompt), on the
    non-exit input ["add"], ends the loop; nothing is logged at ERROR
    level and the next input is not read. *)
Lemma C7_counterexample :
  let interrupted : gmap string App.Command -> string -> M unit :=
    fun _ _ => raise (mkExn KeyboardInterrupt VNone) in
  let run :=
    App.repl interrupted ∅ [App.Line "add"; App.Line "menu"]
      (App.boot FileAbsent true true) in
  PyStr.lower (PyStr.strip "add") <> "exit"
  /\ fst run = App.Terminated (mkExn KeyboardInterrupt VNone)
  /\ log (snd run)
     = [mkLog DEBUG "Executing command: {command}" [VStr "add"]]
  /\ stdout (snd run) = [">>>"].
Proof.
  split; [vm_compute; discriminate|]. repeat split; vm_compute; reflexivity.
Qed.

(** ** Loading plugins *)

Section PluginFacts.

(** An import that raises: an [Exception] is logged and the plugin is
    passed over; anything else leaves [load_plugins]. *)
Lemma load_plugin_import_raises p commands s e s1 :
  App.is_pkg p = true ->
  App.import_module p s = (Raise e, s1) ->
  App.load_plugin p commands s
  = if is_Exception (exn_cls e)
    then (Return tt, commands,
          logged ERROR "Failed to load plugin: {plugin_name}"
            [VStr (App.plugin_name p)] s1)
    else (Raise e, commands, s1).
Proof.
  intros Hpkg Himp. unfold App.load_plugin. rewrite Hpkg, Himp. reflexivity.
Qed.

(** A constructor that raises, for the two kinds of command class. *)
Lemma register_item_fails pname item_name cname takes construct
    commands s e s1 :
  construct
    (logged DEBUG "Found command: {item.__name__} in plugin: {plugin_name}"
       [VStr cname; VStr pname] s)
  = (Raise e, s1) ->
  App.register_item pname item_name
    (App.CommandClass cname takes construct) commands s
  = if is_TypeError (exn_cls e) then (Return tt, commands, s1)
    else if is_Exception (exn_cls e)
    then (Return tt, commands,
          logged ERROR "{e}" [exn_arg e]
            (logged ERROR
               "Failed to register command: {item_name} in plugin: {plugin_name}"
               [VStr item_name; VStr pname] s1))
    else (Raise e, commands, s1).
Proof.
  intros Hc.
  unfold App.register_item, App.try_except2, App.lbind, App.lift, bind,
    logging, modify, logged in *.
  destruct takes; rewrite Hc;
    destruct (is_TypeError (exn_cls e)), (is_Exception (exn_cls e));
    reflexivity.
Qed.

Lemma register_handler_fails pname item_name cname construct
    commands s e c1 s1 :
  construct commands
    (logged DEBUG "Found command: {item.__name__} in plugin: {plugin_name}"
       [VStr cname; VStr pname] s)
  = (Raise e, c1, s1) ->
  App.register_item pname item_name (App.HandlerClass cname construct)
    commands s
  = if is_TypeError (exn_cls e) then (Return tt, c1, s1)
    else if is_Exception (exn_cls e)
    then (Return tt, c1,
          logged ERROR "{e}" [exn_arg e]
            (logged ERROR
               "Failed to register command: {item_name} in plugin: {plugin_name}"
               [VStr item_name; VStr pname] s1))
    else (Raise e, c1, s1).
Proof.
  intros Hc.
  unfold App.register_item, App.try_except2, App.lbind, App.lift, bind,
    logging, modify, logged in *.
  rewrite Hc.
  destruct (is_TypeError (exn_cls e)), (is_Exception (exn_cls e));
    reflexivity.
Qed.

End PluginFacts.

(** C9, as the code has it.  An import that raises an [Exception] is
    caught and logged at ERROR level, and the remaining plugins are
    loaded as if the broken one were not there; an import that raises
    anything else ([SystemExit], [KeyboardInterrupt]) is not caught and
    ends [load_plugins], the remaining plugins unloaded.  A command
    class whose construction raises an [Exception] is caught and the
    remaining names of the module are processed, with the registry as
    the constructor left it: as it was, unless the constructor was
    given the handler and changed the registry itself.  The failure is
    logged at ERROR level unless it is a [TypeError], which the
    [except TypeError: continue] clause drops without a record.  A
    construction that raises anything but an [Exception] ends the
    loop. *)
Theorem C9_plugin_failures_are_contained
    (p : App.plugin) (ps : list App.plugin)
    (commands : gmap string App.Command) (s s1 : state) (e : exn)
    (pname item_name cname : string) (takes : bool)
    (construct : M App.Command) (items : list (string * App.item))
    (t t1 : state) (e1 : exn)
    (construct_with : App.Loader App.Command)
    (c2 : gmap string App.Command) (t2 : state) (e2 : exn) :
  App.is_pkg p = true ->
  App.import_module p s = (Raise e, s1) ->
  construct
    (logged DEBUG "Found command: {item.__name__} in plugin: {plugin_name}"
       [VStr cname; VStr pname] t)
  = (Raise e1, t1) ->
  construct_with commands
    (logged DEBUG "Found command: {item.__name__} in plugin: {plugin_name}"
       [VStr cname; VStr pname] t)
  = (Raise e2, c2, t2) ->
  App.load_plugins_from (p :: ps) commands s
  = (if is_Exception (exn_cls e)
     then App.load_plugins_from ps commands
            (logged ERROR "Failed to load plugin: {plugin_name}"
               [VStr (App.plugin_name p)] s1)
     else (Raise e, commands, s1))
  /\ App.register_items pname
       ((item_name, App.CommandClass cname takes construct) :: items)
       commands t
     = (if is_TypeError (exn_cls e1)
        then App.register_items pname items commands t1
        else if is_Exception (exn_cls e1)
        then App.register_items pname items commands
               (logged ERROR "{e}" [exn_arg e1]
                  (logged ERROR
                     "Failed to register command: {item_name} in plugin: {plugin_name}"
                     [VStr item_name; VStr pname] t1))
        else (Raise e1, commands, t1))
  /\ App.register_items pname
       ((item_name, App.HandlerClass cname construct_with) :: items)
       commands t
     = (if is_TypeError (exn_cls e2)
        then App.register_items pname items c2 t2
        else if is_Exception (exn_cls e2)
        then App.register_items pname items c2
               (logged ERROR "{e}" [exn_arg e2]
                  (logged ERROR
                     "Failed to register command: {item_name} in plugin: {plugin_name}"
                     [VStr item_name; VStr pname] t2))
        else (Raise e2, c2, t2)).
Proof.
  intros Hpkg Himp Hctor Hwith. split; [|split].
  - cbn [App.load_plugins_from].
    rewrite (load_plugin_import_raises p commands s e s1 Hpkg Himp).
    destruct (is_Exception (exn_cls e)); reflexivity.
  - cbn [App.register_items].
    rewrite (register_item_fails pname item_name cname takes construct
               commands t e1 t1 Hctor).
    destruct (is_TypeError (exn_cls e1)), (is_Exception (exn_cls e1));
      reflexivity.
  - cbn [App.register_items].
    rewrite (register_handler_fails pname item_name cname construct_with
               commands t e2 c2 t2 Hwith).
    destruct (is_TypeError (exn_cls e2)), (is_Exception (exn_cls e2));
      reflexivity.
Qed.

Lemma C9_plugin_failures_are_contained_witness :
  let s := App.boot FileAbsent true true in
  let boom := mkExn ValueError (VStr "boom") in
  let t1 :=
    logged DEBUG "Found command: {item.__name__} in plugin: {plugin_name}"
      [VStr "Failing"; VStr "failing"] s in
  let registering :=
    App.lbind (App.register "f" Sample.alias_command)
      (fun _ => App.lift (raise boom)) in
  let add_item :=
    ("AddCommand",
     App.CommandClass "AddCommand" false (ret Sample.add_command)) in
  App.load_plugins_from [Sample.broken_plugin; Sample.add_plugin] ∅ s
  = (if is_Exception (exn_cls Sample.import_error)
     then App.load_plugins_from [Sample.add_plugin] ∅
            (logged ERROR "Failed to load plugin: {plugin_name}"
               [VStr (App.plugin_name Sample.broken_plugin)] s)
     else (Raise Sample.import_error, ∅, s))
  /\ App.register_items "failing"
       [("Failing", App.CommandClass "Failing" false (raise boom)); add_item]
       ∅ s
     = (if is_TypeError (exn_cls boom)
        then App.register_items "failing" [add_item] ∅ t1
        else if is_Exception (exn_cls boom)
        then App.register_items "failing" [add_item] ∅
               (logged ERROR "{e}" [exn_arg boom]
                  (logged ERROR
                     "Failed to register command: {item_name} in plugin: {plugin_name}"
                     [VStr "Failing"; VStr "failing"] t1))
        else (Raise boom, ∅, t1))
  /\ App.register_items "failing"
       [("Failing", App.HandlerClass "Failing" registering); add_item] ∅ s
     = (if is_TypeError (exn_cls boom)
        then App.register_items "failing" [add_item]
               (<["f" := Sample.alias_command]> ∅) t1
        else if is_Exception (exn_cls boom)
        then App.register_items "failing" [add_item]
               (<["f" := Sample.alias_command]> ∅)
               (logged ERROR "{e}" [exn_arg boom]
                  (logged ERROR
                     "Failed to register command: {item_name} in plugin: {plugin_name}"
                     [VStr "Failing"; VStr "failing"] t1))
        else (Raise boom, <["f" := Sample.alias_command]> ∅, t1)).
Proof.
  intros s boom t1 registering add_item.
  apply (C9_plugin_failures_are_contained Sample.broken_plugin
           [Sample.add_plugin] ∅ s s Sample.import_error
           "failing" "Failing" "Failing" false (raise boom) [add_item]
           s t1 boom registering (<["f" := Sample.alias_command]> ∅) t1 boom);
    reflexivity.
Defined.

(** C9 as stated fails in two ways.  The command class of
    [strict_plugin] cannot be built (its constructor raises
    [TypeError]); the failure is caught and nothing is registered, but
    no record of it is logged: the log holds no ERROR record.  And a
    broken plugin can prevent the others from being registered: the
    import of [exiting_plugin] raises [SystemExit], which is no
    [Exception]; it leaves [load_plugins], and the plugin [add] that
    comes after it is not registered. *)
Lemma C9_counterexample :
  let s := App.boot FileAbsent true true in
  let silent := App.load_plugins [Sample.strict_plugin] ∅ s in
  let stopped :=
    App.load_plugins [Sample.exiting_plugin; Sample.add_plugin] ∅ s in
  (fst (fst silent) = Return tt
   /\ snd (fst silent) = ∅
   /\ log (snd silent)
      = [mkLog INFO "Loading Plugins" [];
         mkLog DEBUG "Loaded Plugin: {plugin_name}" [VStr "strict"];
         mkLog DEBUG "Found command: {item.__name__} in plugin: {plugin_name}"
           [VStr "StrictCommand"; VStr "strict"];
         mkLog INFO "Completed loading plugins" []])
  /\ (fst (fst stopped) = Raise (mkExn SystemExit VNone)
      /\ snd (fst stopped) !! "add" = None
      /\ snd (fst (App.load_plugins [Sample.add_plugin] ∅ s)) !! "add"
         = Some Sample.add_command).
Proof. repeat split; vm_compute; reflexivity. Qed.

(** The plugins after a broken one are registered. *)
Example broken_plugin_does_not_block :
  snd (fst (App.load_plugins [Sample.broken_plugin; Sample.add_plugin] ∅
              (App.boot FileAbsent true true)))
  !! "add" = Some Sample.add_command.
Proof. vm_compute. reflexivity. Qed.

(** What a constructor registered through the handler before it failed
    stays registered; the plugin itself is not. *)
Example failed_constructor_leaves_its_registration :
  let commands :=
    snd (fst (App.load_plugins [Sample.alias_plugin] ∅
                (App.boot FileAbsent true true))) in
  commands !! "a" = Some Sample.alias_command /\ commands !! "alias" = None.
Proof. split; vm_compute; reflexivity. Qed.

(** ** Searching *)

Section SearchFacts.

Lemma atoms_of_plain term :
  plain term = true -> Re.atoms_of term = Some (literals term).
Proof.
  induction term as [|c r IH]; [reflexivity|].
  unfold plain. simpl. intros [Hc Hr]%andb_true_iff.
  rewrite (IH Hr). apply negb_true_iff in Hc.
  destruct (Ascii.eqb_spec c "."%char) as [->|_]; [discriminate Hc|].
  rewrite Hc. reflexivity.
Qed.

Lemma compile_plain term :
  plain term = true -> Re.compile term = Re.Pattern (literals term).
Proof.
  intros Hp. destruct term as [|c r]; [reflexivity|].
  unfold Re.compile. rewrite (atoms_of_plain _ Hp).
  unfold plain in Hp. simpl in Hp. apply andb_true_iff in Hp as [Hc _].
  apply negb_true_iff in Hc.
  assert (Hq : PyStr.mem c "*+?" = false).
  { unfold Re.is_meta, Re.metachars in Hc. simpl in Hc. simpl.
    destruct (Ascii.eqb c "."); [discriminate|].
    destruct (Ascii.eqb c "^"); [discriminate|].
    destruct (Ascii.eqb c "$"); [discriminate|].
    destruct (Ascii.eqb c "*"); [discriminate|].
    destruct (Ascii.eqb c "+"); [discriminate|].
    destruct (Ascii.eqb c "?"); [discriminate|]. reflexivity. }
  rewrite Hq. reflexivity.
Qed.

(** A literal pattern matches at the start of [s] exactly when the
    lower-cased term is a prefix of the lower-cased [s]. *)
Lemma match_here_prefix term : forall s,
  Re.match_here (literals term) s = true
  <-> exists suf, PyStr.lower s = PyStr.lower term +:+ suf.
Proof.
  induction term as [|c r IH]; intros s; simpl.
  - split; [intros _; exists (PyStr.lower s); reflexivity | reflexivity].
  - destruct s as [|x s']; simpl.
    + split; [discriminate | intros [suf H]; discriminate H].
    + rewrite andb_true_iff, IH. split.
      * intros [Hc [suf Hs]]. apply Ascii.eqb_eq in Hc.
        exists suf. rewrite Hs, Hc. reflexivity.
      * intros [suf H]. injection H as Hc Hs. split.
        -- apply Ascii.eqb_eq. congruence.
        -- exists suf. exact Hs.
Qed.

Lemma search_occurs term : forall s,
  Re.search (literals term) s = true <-> occurs_ci term s.
Proof.
  unfold occurs_ci. induction s as [|x s' IH]; simpl.
  - rewrite orb_false_r, match_here_prefix. split.
    + intros [suf H]. exists EmptyString, suf. exact H.
    + intros [pre [suf H]]. destruct pre as [|p pre]; [|discriminate H].
      exists suf. exact H.
  - rewrite orb_true_iff, IH, match_here_prefix. simpl. split.
    + intros [[suf H]|[pre [suf H]]].
      * exists EmptyString, suf. exact H.
      * exists (String (PyStr.lower_char x) pre), suf. simpl.
        rewrite H. reflexivity.
    + intros [pre [suf H]]. destruct pre as [|p pre].
      * left. exists suf. exact H.
      * right. simpl in H. injection H as _ H. exists pre, suf. exact H.
Qed.

Lemma row_matches_has term r :
  row_matches (literals term) r = true <-> row_has term r.
Proof.
  unfold row_matches, row_has. rewrite existsb_exists.
  split; intros [f [Hin Hf]]; exists f; (split; [exact Hin|]);
    apply search_occurs; exact Hf.
Qed.

Lemma select_by_mask (data : list (Z * HistoryEntry))
    (h : HistoryEntry -> bool) :
  map snd
    (List.filter (fun p => fst p) (combine (map h (map snd data)) data))
  = List.filter (fun p => h (snd p)) data.
Proof.
  induction data as [|[l r] data IH]; [reflexivity|]. simpl.
  destruct (h r); simpl; rewrite IH; reflexivity.
Qed.

Lemma search_history_run s self df term p :
  frame_of s self = Some df ->
  Re.compile term = Re.Pattern p ->
  HistoryManager.search_history self term s
  = (Return
       (mkFrame (df_columns df)
          (List.filter (fun q => row_matches p (snd q)) (df_data df))),
     logged INFO "Search history for term: {term}" [VStr term] s).
Proof.
  intros Hdf Hp. unfold HistoryManager.search_history, try_except, bind.
  rewrite (getattr_frame _ _ _ Hdf). cbn [as_frame ret].
  unfold HistoryManager.contains_mask, getitem_mask, df_rows.
  destruct (df_data df) as [|q data]; [reflexivity|].
  cbn [map]. rewrite Hp. cbv beta iota.
  unfold ret, logging, modify. cbv beta iota. unfold logged.
  f_equal. f_equal. f_equal.
  rewrite <- (select_by_mask (q :: data) (row_matches p)).
  cbn [map]. rewrite map_map. reflexivity.
Qed.

Lemma search_history_fails s self df term :
  frame_of s self = Some df ->
  df_data df <> [] ->
  Re.compile term = Re.Error ->
  HistoryManager.search_history self term s
  = (Return DataFrame_empty,
     logged ERROR "Failed to search history: {e}" [VStr term] s).
Proof.
  intros Hdf Hne Hp. unfold HistoryManager.search_history, try_except, bind.
  rewrite (getattr_frame _ _ _ Hdf). cbn [as_frame ret].
  unfold HistoryManager.contains_mask, df_rows.
  destruct (df_data df) as [|q data]; [contradiction|].
  cbn [map]. rewrite Hp. reflexivity.
Qed.

End SearchFacts.




(** A term [re.compile] rejects: the search fails internally and the
    empty frame is returned, whatever the store holds. *)
Example search_for_a_star :
  fst (HistoryManager.search_history 0 "*" Sample.two_entries)
  = Return DataFrame_empty.
Proof. vm_compute. reflexivity. Qed.

Example search_scenario :
  df_rows
    <$> match fst (HistoryManager.search_history 0 "multiply"
                     Sample.two_entries) with
        | Return df => Some df
        | _ => None
        end
  = Some [entry_of (mkCalculation "multiply" [4; 5] 20 Sample.noon)].
Proof. vm_compute. reflexivity. Qed.

(** ** The CSV file read back *)

Section CsvFacts.

Import Csv.

Lemma append_cons c (a b : string) : String c a +:+ b = String c (a +:+ b).
Proof. reflexivity. Qed.

Lemma append_nil (b : string) : "" +:+ b = b.
Proof. reflexivity. Qed.

Lemma append_assoc (a b c : string) : (a +:+ b) +:+ c = a +:+ (b +:+ c).
Proof.
  induction a as [|x a IH]; [reflexivity|].
  rewrite !append_cons, IH. reflexivity.
Qed.

Lemma any_char_cons p c r :
  PyStr.any_char p (String c r) = p c || PyStr.any_char p r.
Proof.
  unfold PyStr.any_char. simpl. rewrite negb_andb, negb_involutive.
  reflexivity.
Qed.

Lemma field_of_chars f : field_of (rev (list_ascii_of_string f)) = f.
Proof.
  unfold field_of. rewrite rev_involutive.
  apply string_of_list_ascii_of_string.
Qed.

(** What the tests on one character of an unquoted field give. *)
Lemma ordinary_char c r :
  needs_quote (String c r) = false -> has_cr (String c r) = false ->
  Ascii.eqb c creturn = false /\ Ascii.eqb c dquote = false
  /\ Ascii.eqb c comma = false /\ Ascii.eqb c newline = false
  /\ needs_quote r = false /\ has_cr r = false.
Proof.
  unfold needs_quote, has_cr. rewrite !any_char_cons.
  intros [Hc Hq]%orb_false_iff [Hr Hcr]%orb_false_iff.
  unfold is_special in Hc.
  apply orb_false_iff in Hc as [Hc Hnl].
  apply orb_false_iff in Hc as [Hco Hdq]. auto 10.
Qed.

(** Characters of a field written without quotes. *)
Lemma infield_run f : forall acc k row recs,
  needs_quote f = false -> has_cr f = false ->
  tokenize (f +:+ k) InField acc row recs
  = tokenize k InField (rev (list_ascii_of_string f) ++ acc) row recs.
Proof.
  induction f as [|c f IH]; intros acc k row recs Hq Hcr; [reflexivity|].
  destruct (ordinary_char c f Hq Hcr) as (Hr & Hdq & Hco & Hnl & Hq' & Hcr').
  rewrite append_cons. cbn [tokenize]. rewrite Hr, Hdq, Hco, Hnl.
  rewrite (IH (c :: acc) k row recs Hq' Hcr').
  cbn [list_ascii_of_string rev]. rewrite <- app_assoc. reflexivity.
Qed.

(** The body of a quoted field, up to its closing quote. *)
Lemma inquoted_run f : forall acc k row recs,
  has_cr f = false ->
  tokenize (escape f +:+ String dquote k) InQuoted acc row recs
  = tokenize k QuoteInQuoted (rev (list_ascii_of_string f) ++ acc) row recs.
Proof.
  induction f as [|c f IH]; intros acc k row recs Hcr; [reflexivity|].
  unfold has_cr in Hcr. rewrite any_char_cons in Hcr.
  apply orb_false_iff in Hcr as [Hr Hcr].
  cbn [escape list_ascii_of_string rev].
  destruct (Ascii.eqb_spec c dquote) as [->|Hne].
  - rewrite !append_cons. cbn [tokenize].
    change (Ascii.eqb dquote creturn) with false.
    change (Ascii.eqb dquote dquote) with true. cbv beta iota.
    rewrite (IH (dquote :: acc) k row recs Hcr).
    rewrite <- app_assoc. reflexivity.
  - rewrite append_cons. cbn [tokenize]. rewrite Hr.
    destruct (Ascii.eqb_spec c dquote) as [|_]; [contradiction|].
    rewrite (IH (c :: acc) k row recs Hcr).
    rewrite <- app_assoc. reflexivity.
Qed.

Lemma field_run f k row recs :
  has_cr f = false ->
  tokenize (write_field f +:+ k) StartField [] row recs
  = tokenize k (after f) (rev (list_ascii_of_string f)) row recs.
Proof.
  intros Hcr. unfold write_field, after.
  destruct (needs_quote f) eqn:Hq.
  - rewrite append_cons, append_assoc, append_cons, append_nil.
    cbn [tokenize]. change (Ascii.eqb dquote creturn) with false.
    change (Ascii.eqb dquote dquote) with true. cbv beta iota.
    rewrite (inquoted_run f [] k row recs Hcr). rewrite app_nil_r.
    reflexivity.
  - destruct f as [|c f]; [reflexivity|].
    destruct (ordinary_char c f Hq Hcr) as (Hr & Hdq & Hco & Hnl & Hq' & Hcr').
    rewrite append_cons. cbn [tokenize]. rewrite Hr, Hdq, Hco, Hnl.
    rewrite (infield_run f [c] k row recs Hq' Hcr'). reflexivity.
Qed.

Lemma field_then_comma f k row recs :
  has_cr f = false ->
  tokenize (write_field f +:+ String comma k) StartField [] row recs
  = tokenize k StartField [] (f :: row) recs.
Proof.
  intros Hcr. rewrite (field_run f _ row recs Hcr). unfold after.
  destruct (needs_quote f).
  - cbn [tokenize]. change (Ascii.eqb comma creturn) with false.
    change (Ascii.eqb comma dquote) with false.
    change (Ascii.eqb comma comma) with true. cbv beta iota.
    rewrite field_of_chars. reflexivity.
  - destruct f as [|c f]; [reflexivity|].
    cbn [tokenize]. change (Ascii.eqb comma creturn) with false.
    change (Ascii.eqb comma dquote) with false.
    change (Ascii.eqb comma comma) with true. cbv beta iota.
    rewrite field_of_chars. reflexivity.
Qed.

Lemma field_then_newline f k row recs :
  has_cr f = false ->
  row <> [] ->
  tokenize (write_field f +:+ String newline k) StartField [] row recs
  = tokenize k StartField [] [] (rev (f :: row) :: recs).
Proof.
  intros Hcr Hrow. rewrite (field_run f _ row recs Hcr). unfold after.
  destruct (needs_quote f).
  - cbn [tokenize]. change (Ascii.eqb newline creturn) with false.
    change (Ascii.eqb newline dquote) with false.
    change (Ascii.eqb newline comma) with false.
    change (Ascii.eqb newline newline) with true. cbv beta iota.
    rewrite field_of_chars. reflexivity.
  - destruct f as [|c f].
    + destruct row; [contradiction|]. reflexivity.
    + cbn [tokenize]. change (Ascii.eqb newline creturn) with false.
      change (Ascii.eqb newline dquote) with false.
      change (Ascii.eqb newline comma) with false.
      change (Ascii.eqb newline newline) with true. cbv beta iota.
      rewrite field_of_chars. reflexivity.
Qed.


Lemma record_run r : forall row recs k,
  r <> [] ->
  row <> [] \/ (2 <= length r)%nat ->
  existsb has_cr r = false ->
  tokenize (write_fields r +:+ k) StartField [] row recs
  = tokenize k StartField [] [] ((rev row ++ r) :: recs).
Proof.
  induction r as [|f r IH]; intros row recs k Hne Hrow Hcr; [contradiction|].
  cbn [existsb] in Hcr. apply orb_false_iff in Hcr as [Hf Hcr].
  destruct r as [|g r].
  - cbn [write_fields]. rewrite append_assoc, append_cons, append_nil.
    rewrite field_then_newline; [reflexivity | exact Hf |].
    destruct Hrow as [Hrow|Hlen]; [exact Hrow | simpl in Hlen; lia].
  - change (write_fields (f :: g :: r))
      with (write_field f +:+ String comma (write_fields (g :: r))).
    rewrite append_assoc, append_cons.
    rewrite (field_then_comma f _ row recs Hf).
    rewrite (IH (f :: row) recs k); [| discriminate | left; discriminate
                                     | exact Hcr].
    cbn [rev]. rewrite <- app_assoc. reflexivity.
Qed.

Lemma table_run rs : forall recs,
  forallb readable rs = true ->
  tokenize (write_records rs) StartField [] [] recs = Some (rev recs ++ rs).
Proof.
  induction rs as [|r rs IH]; intros recs Hall.
  - cbn [write_records tokenize]. rewrite app_nil_r. reflexivity.
  - cbn [forallb] in Hall. apply andb_true_iff in Hall as [Hr Hall].
    unfold readable in Hr. apply andb_true_iff in Hr as [Hlen Hcr].
    apply Nat.leb_le in Hlen. apply negb_true_iff in Hcr.
    cbn [write_records].
    rewrite (record_run r [] recs); [| | right; exact Hlen | exact Hcr].
    + cbn [rev app]. rewrite (IH (r :: recs) Hall). cbn [rev].
      rewrite <- app_assoc. reflexivity.
    + intros ->. simpl in Hlen. lia.
Qed.

End CsvFacts.

Section RenderingFacts.

Import Csv.

Lemma all_chars_impl (p q : ascii -> bool) s :
  (forall c, p c = true -> q c = true) ->
  PyStr.all_chars p s = true -> PyStr.all_chars q s = true.
Proof.
  intros Hpq. induction s as [|c s IH]; [reflexivity|]. simpl.
  intros [Hc Hs]%andb_true_iff. rewrite (Hpq c Hc), (IH Hs). reflexivity.
Qed.

Lemma all_chars_app p a b :
  PyStr.all_chars p (a +:+ b) = PyStr.all_chars p a && PyStr.all_chars p b.
Proof.
  induction a as [|c a IH]; [reflexivity|].
  rewrite append_cons. simpl. rewrite IH, andb_assoc. reflexivity.
Qed.

Lemma any_char_none p s :
  PyStr.all_chars (fun c => negb (p c)) s = true -> PyStr.any_char p s = false.
Proof. unfold PyStr.any_char. intros ->. reflexivity. Qed.

Lemma mem_cases c s :
  PyStr.mem c s = true -> In c (list_ascii_of_string s).
Proof.
  induction s as [|d s IH]; [discriminate|]. simpl.
  destruct (Ascii.eqb_spec c d) as [->|_]; [left; reflexivity|].
  intros H. right. apply IH, H.
Qed.

Lemma uint_chars d :
  PyStr.all_chars (fun c => PyStr.mem c int_chars)
    (NilEmpty.string_of_uint d) = true.
Proof.
  induction d; cbn [NilEmpty.string_of_uint PyStr.all_chars];
    try rewrite IHd; reflexivity.
Qed.

Lemma of_int_chars z :
  PyStr.all_chars (fun c => PyStr.mem c int_chars) (PyStr.of_int z) = true.
Proof.
  unfold PyStr.of_int, NilZero.string_of_int, NilZero.string_of_uint.
  destruct (Z.to_int z) as [d|d]; destruct d;
    cbn [NilEmpty.string_of_uint PyStr.all_chars];
    try rewrite uint_chars; reflexivity.
Qed.

Lemma int_char_numeric c :
  PyStr.mem c int_chars = true -> PyStr.mem c numeric_chars = true.
Proof.
  intros H. apply mem_cases in H. simpl in H.
  repeat (destruct H as [<-|H]; [reflexivity|]). destruct H.
Qed.

Lemma int_char_not_cr c :
  PyStr.mem c int_chars = true -> negb (Ascii.eqb c creturn) = true.
Proof.
  intros H. apply mem_cases in H. simpl in H.
  repeat (destruct H as [<-|H]; [reflexivity|]). destruct H.
Qed.

Lemma uint_has_digit d :
  d <> Decimal.Nil ->
  PyStr.any_char is_digit (NilEmpty.string_of_uint d) = true.
Proof. destruct d; intros H; [contradiction|..]; reflexivity. Qed.

Lemma of_int_has_digit z : PyStr.any_char is_digit (PyStr.of_int z) = true.
Proof.
  unfold PyStr.of_int. destruct z as [|p|p]; [reflexivity|..];
    cbn [Z.to_int NilZero.string_of_int]; unfold NilZero.string_of_uint;
    pose proof (DecimalPos.Unsigned.to_uint_nonnil p) as Hnil;
    pose proof (uint_has_digit (Pos.to_uint p) Hnil) as Hd;
    destruct (Pos.to_uint p); try contradiction;
    try exact Hd; unfold PyStr.any_char in *; cbn [PyStr.all_chars];
    try exact Hd.
Qed.

Lemma of_int_not_text z : is_text (PyStr.of_int z) = false.
Proof.
  unfold is_text. rewrite (any_char_none _ (PyStr.of_int z)).
  - rewrite of_int_has_digit. cbn [negb andb orb]. apply andb_false_r.
  - eapply all_chars_impl; [|apply of_int_chars].
    intros c Hc. cbv beta. rewrite (int_char_numeric c Hc). reflexivity.
Qed.

Lemma of_int_no_cr z : has_cr (PyStr.of_int z) = false.
Proof.
  unfold has_cr. apply any_char_none.
  eapply all_chars_impl; [|apply of_int_chars].
  intros c Hc. apply int_char_not_cr, Hc.
Qed.

Lemma to_int_not_nil z :
  Z.to_int z <> Decimal.Pos Decimal.Nil /\ Z.to_int z <> Decimal.Neg Decimal.Nil.
Proof.
  destruct z as [|p|p]; simpl; split; try discriminate;
    intros [= H]; apply (DecimalPos.Unsigned.to_uint_nonnil p H).
Qed.

Lemma parse_of_int z :
  - 2 ^ 63 <= z < 2 ^ 63 -> parse_int64 (PyStr.of_int z) = Some z.
Proof.
  intros Hz. unfold parse_int64, PyStr.of_int.
  destruct (to_int_not_nil z) as [Hp Hn].
  rewrite (NilZero.isi _ Hp Hn). rewrite DecimalZ.of_to.
  destruct (Z.leb_spec (- 2 ^ 63) z), (Z.ltb_spec z (2 ^ 63)); try lia.
  reflexivity.
Qed.


Lemma any_char_app p a b :
  PyStr.any_char p (a +:+ b) = PyStr.any_char p a || PyStr.any_char p b.
Proof.
  unfold PyStr.any_char. rewrite all_chars_app, negb_andb. reflexivity.
Qed.

Lemma length_append (a b : string) :
  String.length (a +:+ b) = (String.length a + String.length b)%nat.
Proof.
  induction a as [|c a IH]; [reflexivity|].
  rewrite append_cons. simpl. rewrite IH. reflexivity.
Qed.

Lemma eqb_length (s u : string) :
  String.length s <> String.length u -> String.eqb s u = false.
Proof.
  intros Hlen. destruct (String.eqb_spec s u) as [->|_];
    [contradiction | reflexivity].
Qed.

Lemma elem_length t l :
  forallb (fun u => negb (Nat.eqb (String.length t) (String.length u))) l
  = true ->
  PyStr.elem t l = false.
Proof.
  unfold PyStr.elem. induction l as [|u l IH]; [reflexivity|].
  cbn [forallb existsb]. intros [Hu Hl]%andb_true_iff.
  rewrite (IH Hl), orb_false_r. apply eqb_length.
  apply negb_true_iff, Nat.eqb_neq in Hu. exact Hu.
Qed.

Lemma digit_int_char n : PyStr.mem (PyStr.digit n) int_chars = true.
Proof.
  unfold PyStr.digit.
  assert (Hlt : (n mod 10 < 10)%nat) by (apply Nat.mod_upper_bound; lia).
  destruct (n mod 10)%nat as [|[|[|[|[|[|[|[|[|[|k]]]]]]]]]];
    try reflexivity; lia.
Qed.

Lemma int_char_stamp c :
  PyStr.mem c int_chars = true -> PyStr.mem c stamp_chars = true.
Proof.
  intros H. apply mem_cases in H. simpl in H.
  repeat (destruct H as [<-|H]; [reflexivity|]). destruct H.
Qed.

Lemma stamp_char_not_cr c :
  PyStr.mem c stamp_chars = true -> negb (Ascii.eqb c creturn) = true.
Proof.
  intros H. apply mem_cases in H. simpl in H.
  repeat (destruct H as [<-|H]; [reflexivity|]). destruct H.
Qed.

Lemma pad2_chars n :
  PyStr.all_chars (fun c => PyStr.mem c stamp_chars) (PyStr.pad2 n) = true.
Proof.
  unfold PyStr.pad2. cbn [PyStr.all_chars].
  rewrite !(int_char_stamp _ (digit_int_char _)). reflexivity.
Qed.

Lemma strftime_chars now :
  PyStr.all_chars (fun c => PyStr.mem c stamp_chars) (strftime now) = true.
Proof.
  unfold strftime. rewrite !all_chars_app, !pad2_chars.
  rewrite (all_chars_impl _ _ _ int_char_stamp (of_int_chars _)).
  reflexivity.
Qed.

Lemma strftime_no_cr now : has_cr (strftime now) = false.
Proof.
  unfold has_cr. apply any_char_none.
  eapply all_chars_impl; [|apply strftime_chars].
  intros c Hc. apply stamp_char_not_cr, Hc.
Qed.

Lemma mem_app c (a b : string) :
  PyStr.mem c (a +:+ b) = PyStr.mem c a || PyStr.mem c b.
Proof.
  induction a as [|d a IH]; [reflexivity|].
  rewrite append_cons. cbn [PyStr.mem]. destruct (Ascii.eqb c d);
    [reflexivity | exact IH].
Qed.

Lemma mem_false_neq c (t u : string) :
  PyStr.mem c t = true -> PyStr.mem c u = false -> String.eqb t u = false.
Proof.
  intros Ht Hu. destruct (String.eqb_spec t u) as [->|_]; [|reflexivity].
  rewrite Ht in Hu. discriminate Hu.
Qed.

(** A token that holds a character none of the words holds is none of
    the words. *)
Lemma elem_without c t l :
  PyStr.mem c t = true ->
  forallb (fun u => negb (PyStr.mem c u)) l = true ->
  PyStr.elem t l = false.
Proof.
  intros Ht. unfold PyStr.elem.
  induction l as [|u l IH]; cbn [forallb existsb]; intros H; [reflexivity|].
  apply andb_true_iff in H as [Hu Hl]. apply negb_true_iff in Hu.
  rewrite (mem_false_neq c t u Ht Hu). exact (IH Hl).
Qed.

Lemma strftime_has_colon now : PyStr.mem ":" (strftime now) = true.
Proof.
  unfold strftime. rewrite !mem_app.
  change (PyStr.mem ":" ":") with true. rewrite !orb_true_r. reflexivity.
Qed.

Lemma strftime_is_text now : is_text (strftime now) = true.
Proof.
  unfold is_text, is_na.
  rewrite !(elem_without ":" _ _ (strftime_has_colon now)) by reflexivity.
  unfold strftime. rewrite !any_char_app.
  change (PyStr.any_char (fun c => negb (PyStr.mem c numeric_chars)) ":")
    with true.
  rewrite !orb_true_r. reflexivity.
Qed.

Lemma int_char_list c :
  PyStr.mem c int_chars = true -> PyStr.mem c list_chars = true.
Proof.
  intros H. apply mem_cases in H. simpl in H.
  repeat (destruct H as [<-|H]; [reflexivity|]). destruct H.
Qed.

Lemma list_char_not_cr c :
  PyStr.mem c list_chars = true -> negb (Ascii.eqb c creturn) = true.
Proof.
  intros H. apply mem_cases in H. simpl in H.
  repeat (destruct H as [<-|H]; [reflexivity|]). destruct H.
Qed.

Lemma join_chars xs :
  PyStr.all_chars (fun c => PyStr.mem c list_chars)
    (PyStr.join ", " (map PyStr.of_int xs)) = true.
Proof.
  assert (Hone : forall z,
            PyStr.all_chars (fun c => PyStr.mem c list_chars) (PyStr.of_int z)
            = true).
  { intros z. eapply all_chars_impl; [|apply of_int_chars].
    intros c. apply int_char_list. }
  induction xs as [|x xs IH]; [reflexivity|].
  destruct xs as [|y xs]; [apply Hone|].
  change (PyStr.join ", " (map PyStr.of_int (x :: y :: xs)))
    with (PyStr.of_int x +:+ ", "
          +:+ PyStr.join ", " (map PyStr.of_int (y :: xs))).
  rewrite !all_chars_app, Hone, IH. reflexivity.
Qed.

Lemma of_int_list_no_cr xs : has_cr (PyStr.of_int_list xs) = false.
Proof.
  unfold has_cr. apply any_char_none.
  apply (all_chars_impl (fun c => PyStr.mem c list_chars));
    [intros c; apply list_char_not_cr|].
  unfold PyStr.of_int_list. rewrite !all_chars_app, join_chars. reflexivity.
Qed.

Lemma of_int_list_is_text xs : is_text (PyStr.of_int_list xs) = true.
Proof.
  unfold PyStr.of_int_list. rewrite append_cons, append_nil.
  unfold is_text, is_na. rewrite any_char_cons. reflexivity.
Qed.

Lemma well_behaved_stable c :
  well_behaved c = true -> stable (entry_of c) = true.
Proof.
  unfold well_behaved, stable, entry_of, text_cell, int64_cell.
  cbn [timestamp operation inputs result].
  intros H. apply andb_true_iff in H as [H Hhi].
  apply andb_true_iff in H as [H Hlo]. 
  rewrite strftime_is_text, strftime_no_cr, of_int_list_is_text,
    of_int_list_no_cr, H, Hlo, Hhi. reflexivity.
Qed.

End RenderingFacts.

Section RoundTrip.

Import Csv.

Lemma is_text_not_na t : is_text t = true -> is_na t = false.
Proof.
  unfold is_text. intros [[H _]%andb_true_iff _]%andb_true_iff.
  apply negb_true_iff, H.
Qed.

Lemma text_column_kept cells :
  forallb text_cell cells = true ->
  map (fun t => if is_na t then CNaN else CStr t) (map cell_field cells)
  = cells.
Proof.
  induction cells as [|c cells IH]; [reflexivity|]. cbn [forallb map].
  intros [Hc Hall]%andb_true_iff. rewrite (IH Hall).
  destruct c as [t| |]; try discriminate. cbn [text_cell cell_field] in *.
  apply andb_true_iff in Hc as [Ht _]. rewrite (is_text_not_na t Ht).
  reflexivity.
Qed.

Lemma infer_text_column cells :
  forallb text_cell cells = true ->
  infer_column (map cell_field cells) = Some cells.
Proof.
  intros Hall. unfold infer_column. destruct cells as [|c cells].
  - reflexivity.
  - assert (Hex : existsb is_text (map cell_field (c :: cells)) = true).
    { cbn [forallb] in Hall. apply andb_true_iff in Hall as [Hc _].
      destruct c as [t| |]; try discriminate.
      cbn [text_cell] in Hc. apply andb_true_iff in Hc as [Ht _].
      cbn [map existsb cell_field]. rewrite Ht. reflexivity. }
    rewrite Hex, (text_column_kept _ Hall). reflexivity.
Qed.

Lemma infer_int_column cells :
  forallb int64_cell cells = true ->
  infer_column (map cell_field cells) = Some cells.
Proof.
  intros Hall. unfold infer_column.
  assert (Hex : existsb is_text (map cell_field cells) = false
                /\ parse_ints (map cell_field cells) = Some cells).
  { induction cells as [|c cells IH]; [split; reflexivity|].
    cbn [forallb] in Hall. apply andb_true_iff in Hall as [Hc Hall].
    destruct (IH Hall) as [Hno Hparse].
    destruct c as [|z|]; try discriminate. cbn [int64_cell] in Hc.
    apply andb_true_iff in Hc as [Hlo Hhi].
    apply Z.leb_le in Hlo. apply Z.ltb_lt in Hhi.
    cbn [map existsb cell_field parse_ints].
    rewrite of_int_not_text, Hno, parse_of_int, Hparse by lia.
    split; reflexivity. }
  destruct Hex as [-> ->]. reflexivity.
Qed.

Lemma stable_cells e :
  stable e = true ->
  text_cell (timestamp e) = true /\ text_cell (operation e) = true
  /\ text_cell (inputs e) = true /\ int64_cell (result e) = true.
Proof.
  unfold stable. intros [[[H1 H2]%andb_true_iff H3]%andb_true_iff H4]%andb_true_iff.
  auto.
Qed.

Lemma stable_column (f : HistoryEntry -> cell) (p : cell -> bool) rows :
  (forall e, stable e = true -> p (f e) = true) ->
  forallb stable rows = true -> forallb p (map f rows) = true.
Proof.
  intros Hf. induction rows as [|e rows IH]; [reflexivity|].
  cbn [forallb map]. intros [He Hall]%andb_true_iff.
  rewrite (Hf e He), (IH Hall). reflexivity.
Qed.

Lemma column_fields k (f : HistoryEntry -> cell) rows :
  (forall e, nth k (entry_fields e) EmptyString = cell_field (f e)) ->
  column k (map entry_fields rows) = map cell_field (map f rows).
Proof.
  intros Hk. induction rows as [|e rows IH]; [reflexivity|].
  cbn [map column]. rewrite Hk, IH. reflexivity.
Qed.

Lemma zip4_columns rows :
  zip4 (map timestamp rows) (map operation rows) (map inputs rows)
    (map result rows) = rows.
Proof.
  induction rows as [|[t o i r] rows IH]; [reflexivity|].
  cbn [map zip4 timestamp operation inputs result]. rewrite IH. reflexivity.
Qed.

Lemma text_cell_no_cr c : text_cell c = true -> has_cr (cell_field c) = false.
Proof.
  destruct c as [t| |]; try discriminate. cbn [text_cell cell_field].
  intros [_ H]%andb_true_iff. apply negb_true_iff, H.
Qed.

Lemma int64_cell_no_cr c : int64_cell c = true -> has_cr (cell_field c) = false.
Proof.
  destruct c as [|z|]; try discriminate. intros _. apply of_int_no_cr.
Qed.

Lemma stable_no_cr e :
  stable e = true -> existsb has_cr (entry_fields e) = false.
Proof.
  intros (H1 & H2 & H3 & H4)%stable_cells.
  unfold entry_fields. cbn [existsb].
  rewrite (text_cell_no_cr _ H1), (text_cell_no_cr _ H2),
    (text_cell_no_cr _ H3), (int64_cell_no_cr _ H4). reflexivity.
Qed.

Lemma stable_table rows :
  forallb stable rows = true ->
  existsb (existsb has_cr) (map entry_fields rows) = false
  /\ forallb readable (map entry_fields rows) = true
  /\ forallb (fun r => Nat.eqb (length r) 4) (map entry_fields rows) = true.
Proof.
  induction rows as [|e rows IH]; [repeat split; reflexivity|].
  cbn [forallb map existsb]. intros [He Hall]%andb_true_iff.
  destruct (IH Hall) as (H1 & H2 & H3).
  rewrite H1, H2, H3, (stable_no_cr e He).
  unfold readable. rewrite (stable_no_cr e He). repeat split; reflexivity.
Qed.

(** A frame with the history columns and stable rows is written, and
    what is written is read back as the same rows, labelled afresh. *)
Lemma csv_round_trip df :
  df_columns df = row_keys ->
  forallb stable (df_rows df) = true ->
  exists text,
    to_csv df = Some text
    /\ read_csv text = ReadOk (mkFrame row_keys (relabel (df_rows df))).
Proof.
  intros Hcols Hst. destruct (stable_table _ Hst) as (Hcr & Hread & Hlen).
  exists (write_records (row_keys :: map entry_fields (df_rows df))).
  split.
  - unfold to_csv. rewrite Hcols. cbn [existsb]. rewrite Hcr. reflexivity.
  - unfold read_csv.
    assert (Htok : tokenize
                     (write_records (row_keys :: map entry_fields (df_rows df)))
                     StartField [] [] []
                   = Some (row_keys :: map entry_fields (df_rows df))).
    { rewrite table_run; [reflexivity|]. cbn [forallb]. rewrite Hread.
      reflexivity. }
    rewrite Htok.
    destruct (write_records (row_keys :: map entry_fields (df_rows df)))
      eqn:Htext; [discriminate Htext|].
    rewrite bool_decide_eq_true_2 by reflexivity. rewrite Hlen.
    cbn [andb].
    rewrite (column_fields 0 timestamp), (column_fields 1 operation),
      (column_fields 2 inputs), (column_fields 3 result)
      by (intros e; reflexivity).
    assert (Hcol : forall (f : HistoryEntry -> cell) (p : cell -> bool),
              (forall e, stable e = true -> p (f e) = true) ->
              forallb p (map f (df_rows df)) = true).
    { intros f p Hf. eapply stable_column; [exact Hf | exact Hst]. }
    rewrite (infer_text_column (map timestamp (df_rows df)))
      by (apply Hcol; intros e He; apply (stable_cells e He)).
    rewrite (infer_text_column (map operation (df_rows df)))
      by (apply Hcol; intros e He; apply (stable_cells e He)).
    rewrite (infer_text_column (map inputs (df_rows df)))
      by (apply Hcol; intros e He; apply (stable_cells e He)).
    rewrite (infer_int_column (map result (df_rows df)))
      by (apply Hcol; intros e He; apply (stable_cells e He)).
    rewrite zip4_columns. reflexivity.
Qed.

End RoundTrip.

Section SaveLoad.

Lemma concat_row_columns df r :
  df_columns df = row_keys ->
  concat_ignore_index df (DataFrame_of_row r)
  = mkFrame row_keys (relabel (df_rows df ++ [r])).
Proof.
  intros Hc. unfold concat_ignore_index. rewrite Hc. reflexivity.
Qed.

Lemma add_all_cons self c cs s :
  add_all self (c :: cs) s
  = add_all self cs
      (snd (HistoryManager.add_calculation self (calc_operation c)
              (calc_inputs c) (CInt (calc_result c)) (calc_now c) s)).
Proof. reflexivity. Qed.

(** The decimal rendering of a positive number with [n] digits stands
    for a number of at least [10 ^ (n - 1)]: an [int64] has at most 19
    digits. *)
Lemma of_uint_acc_bound d : forall acc,
  Z.pos acc * 10 ^ Z.of_nat (String.length (NilEmpty.string_of_uint d))
  <= Z.pos (Pos.of_uint_acc d acc).
Proof.
  induction d; intros acc;
    cbn [NilEmpty.string_of_uint String.length Pos.of_uint_acc];
    [rewrite Z.pow_0_r; lia|..];
    rewrite Nat2Z.inj_succ, Z.pow_succ_r by lia;
    (etransitivity; [|apply IHd]);
    assert (0 < 10 ^ Z.of_nat (String.length (NilEmpty.string_of_uint d)))
      by (apply Z.pow_pos_nonneg; lia);
    nia.
Qed.

Lemma nzhead_head d d' : Decimal.nzhead d <> Decimal.D0 d'.
Proof. induction d; cbn [Decimal.nzhead]; try discriminate. exact IHd. Qed.

Lemma to_uint_bound p :
  10 ^ (Z.of_nat (String.length (NilEmpty.string_of_uint (Pos.to_uint p))) - 1)
  <= Z.pos p.
Proof.
  pose proof (Unsigned.of_to p) as Hof.
  pose proof (Unsigned.to_of (Pos.to_uint p)) as Hto.
  rewrite Hof in Hto. cbn [N.to_uint] in Hto.
  pose proof (Unsigned.to_uint_nonzero p) as Hnz.
  destruct (Pos.to_uint p) as [|d|d|d|d|d|d|d|d|d|d] eqn:E;
    cbn [NilEmpty.string_of_uint String.length];
    rewrite ?Nat2Z.inj_succ;
    try (replace (Z.succ (Z.of_nat (String.length (NilEmpty.string_of_uint d)))
                  - 1)
           with (Z.of_nat (String.length (NilEmpty.string_of_uint d))) by lia;
         cbn [Pos.of_uint] in Hof; injection Hof as <-;
         etransitivity; [|apply of_uint_acc_bound]; lia).
  - cbn. lia.
  - exfalso. unfold Decimal.unorm in Hto. cbn [Decimal.nzhead] in Hto.
    destruct (Decimal.nzhead d) eqn:En;
      try (rewrite <- En in Hto; symmetry in Hto;
           exact (nzhead_head _ _ Hto)).
    apply Hnz. exact Hto.
Qed.

Lemma rendered_length z (k : nat) :
  0 <= z < 10 ^ Z.of_nat k -> (0 < k)%nat ->
  (String.length (PyStr.of_int z) <= k)%nat.
Proof.
  intros Hz Hk. unfold PyStr.of_int.
  destruct z as [|p|p]; [cbn; lia| |lia].
  cbn [Z.to_int NilZero.string_of_int].
  assert (Hs : NilZero.string_of_uint (Pos.to_uint p)
               = NilEmpty.string_of_uint (Pos.to_uint p)).
  { unfold NilZero.string_of_uint.
    pose proof (Unsigned.to_uint_nonnil p) as Hn.
    destruct (Pos.to_uint p); [contradiction|reflexivity..]. }
  rewrite Hs. pose proof (to_uint_bound p) as Hb.
  set (n := String.length (NilEmpty.string_of_uint (Pos.to_uint p))) in *.
  destruct (Nat.le_gt_cases n k) as [H|H]; [exact H|exfalso].
  assert (Hpow : 10 ^ Z.of_nat k <= 10 ^ (Z.of_nat n - 1))
    by (apply Z.pow_le_mono_r; lia).
  lia.
Qed.

Lemma int64_short z : in_int64 z = true -> PyStr.short z = true.
Proof.
  intros [Hlo Hhi]%andb_true_iff.
  apply Z.leb_le in Hlo. apply Z.ltb_lt in Hhi.
  unfold PyStr.short. apply Nat.leb_le.
  transitivity 19%nat; [|lia].
  apply rendered_length; [|lia].
  assert (2 ^ 63 < 10 ^ Z.of_nat 19) by reflexivity. lia.
Qed.

(** On a store with stable rows, a call with an [int64] result goes
    through when its inputs can be rendered. *)
Lemma stable_fits df inputs z :
  forallb stable (df_rows df) = true ->
  forallb PyStr.short inputs = true ->
  in_int64 z = true ->
  fits df inputs (CInt z) = true.
Proof.
  intros Hst Hin Hz. unfold fits. rewrite Hin. cbn [andb].
  cbn [HistoryManager.short_cell]. rewrite (int64_short z Hz), andb_true_r.
  apply negb_true_iff, retyped_int64; [|exact Hz].
  apply (stable_column result is_int64); [|exact Hst].
  intros e He. destruct (stable_cells e He) as (_ & _ & _ & Hr).
  destruct (result e); try discriminate Hr. exact Hr.
Qed.

Lemma add_all_frame self cs : forall s df,
  initialised s self df ->
  df_columns df = row_keys ->
  forallb stable (df_rows df) = true ->
  forallb well_behaved cs = true ->
  exists df',
    initialised (add_all self cs s) self df'
    /\ df_columns df' = row_keys
    /\ df_rows df' = df_rows df ++ map entry_of (List.filter accepted cs)
    /\ disk_writable (add_all self cs s) = disk_writable s.
Proof.
  induction cs as [|c cs IH]; intros s df Hi Hc Hst Hwb.
  - exists df. cbn [List.filter map]. rewrite app_nil_r. auto.
  - cbn [forallb] in Hwb. apply andb_true_iff in Hwb as [Hwc Hwb].
    rewrite add_all_cons. cbn [List.filter].
    destruct (accepted c) eqn:Hacc.
    + assert (Hz : in_int64 (calc_result c) = true).
      { unfold well_behaved in Hwc.
        apply andb_true_iff in Hwc as [Hwc Hhi].
        apply andb_true_iff in Hwc as [_ Hlo].
        unfold in_int64. rewrite Hlo, Hhi. reflexivity. }
      rewrite (add_calculation_run s self df _ _ _ _
                 (initialised_frame _ _ _ Hi)
                 (stable_fits df _ _ Hst Hacc Hz)).
      cbn [snd]. rewrite (concat_row_columns df _ Hc).
      fold (entry_of c).
      edestruct (IH (logged INFO "Calculation added to history: {new_row}"
                       [VEntry (entry_of c)]
                       (assign self "df"
                          (VFrame (mkFrame row_keys
                                     (relabel (df_rows df ++ [entry_of c]))))
                          s)))
        as (df' & Hi' & Hc' & Hr' & Hw').
      * eapply initialised_assign. exact Hi.
      * reflexivity.
      * rewrite df_rows_relabel, forallb_app, Hst. cbn [forallb andb].
        rewrite (well_behaved_stable c Hwc). reflexivity.
      * exact Hwb.
      * exists df'. split; [exact Hi'|]. split; [exact Hc'|]. split.
        -- rewrite Hr', df_rows_relabel, <- app_assoc. reflexivity.
        -- rewrite Hw', writable_logged. apply writable_assign.
    + rewrite add_calculation_long
        by (unfold accepted in Hacc; exact Hacc).
      cbn [snd].
      destruct (IH (logged ERROR "Failed to add calculation to history: {e}"
                      [VStr HistoryManager.str_digits_message] s) df)
        as (df' & Hi' & Hc' & Hr' & Hw'); try assumption.
      exists df'. auto.
Qed.

Lemma well_behaved_rows cs :
  forallb well_behaved cs = true -> forallb stable (map entry_of cs) = true.
Proof.
  induction cs as [|c cs IH]; [reflexivity|]. cbn [forallb map].
  intros [Hc Hall]%andb_true_iff.
  rewrite (well_behaved_stable c Hc), (IH Hall). reflexivity.
Qed.

Lemma configured_saved text s self :
  configured s self -> configured (saved text s) self.
Proof.
  unfold configured, saved, attr. destruct (dir_exists s); intros H; exact H.
Qed.

End SaveLoad.




(** ** The methods of the store raise nothing *)

Import Outcome.

Lemma tame_ret {A} (a : A) : tame (ret a).
Proof. intros s e s' H. discriminate H. Qed.

Lemma tame_bind {A B} (m : M A) (k : A -> M B) :
  tame m -> (forall a, tame (k a)) -> tame (bind m k).
Proof.
  intros Hm Hk s e s'. unfold bind.
  destruct (m s) as [[a|e0|] s0] eqn:E.
  - apply Hk.
  - intros [= <- <-]. eapply Hm, E.
  - discriminate.
Qed.

Lemma tame_raise {A} e : is_Exception (exn_cls e) = true -> tame (@raise A e).
Proof. intros He s e' s' [= <- <-]. exact He. Qed.

Lemma tame_unmodelled {A} : tame (@unmodelled A).
Proof. intros s e s' H. discriminate H. Qed.

Lemma tame_getattr o n : tame (getattr o n).
Proof.
  intros s e s'. unfold getattr.
  destruct (heap s !! o) as [d|]; [destruct (d !! n)|];
    intros [= <- <-]; reflexivity.
Qed.

Lemma tame_setattr o n v : tame (setattr o n v).
Proof.
  intros s e s'. unfold setattr.
  destruct (heap s !! o) as [d|]; intros [= <- <-]; reflexivity.
Qed.

Lemma tame_as_frame v : tame (as_frame v).
Proof. intros s e s'; destruct v; intros [= <- <-]; reflexivity. Qed.

Lemma tame_as_strlist v : tame (as_strlist v).
Proof. intros s e s'; destruct v; intros [= <- <-]; reflexivity. Qed.

Lemma tame_logging lv msg args : tame (logging lv msg args).
Proof. intros s e s' H. discriminate H. Qed.

Lemma tame_makedirs : tame makedirs.
Proof.
  intros s e s'. unfold makedirs.
  destruct (dir_exists s); [discriminate|].
  destruct (disk_writable s); [discriminate|].
  intros [= <- <-]. reflexivity.
Qed.

Lemma tame_write_file text : tame (write_file text).
Proof.
  intros s e s'. unfold write_file.
  destruct (dir_exists s && disk_writable s); [discriminate|].
  intros [= <- <-]. reflexivity.
Qed.

(** [try: body except Exception as e: handler] raises nothing when the
    body is tame and the handler is quiet. *)
Lemma quiet_try {A} (body : M A) (handler : exn -> M A) :
  tame body -> (forall e, quiet (handler e)) ->
  quiet (try_except body is_Exception handler).
Proof.
  intros Hb Hh s e s'. unfold try_except.
  destruct (body s) as [[a|e0|] s0] eqn:E; try discriminate.
  rewrite (Hb _ _ _ E). apply Hh.
Qed.

Lemma quiet_log_then_ret {A} lv msg args (a : A) :
  quiet (bind (logging lv msg args) (fun _ => ret a)).
Proof. intros s e s' H. discriminate H. Qed.

Create HintDb tame.
#[local] Hint Resolve tame_ret tame_getattr tame_setattr tame_as_frame
  tame_as_strlist tame_logging tame_makedirs tame_write_file tame_unmodelled
  tame_bind : tame.
#[local] Hint Extern 1 (tame (raise _)) =>
  (apply tame_raise; reflexivity) : tame.
#[local] Hint Extern 1 (tame type_error) =>
  (apply tame_raise; reflexivity) : tame.
#[local] Hint Extern 2 (tame (match ?x with _ => _ end)) =>
  destruct x : tame.

Lemma quiet_add_calculation self operation inputs result now :
  quiet (HistoryManager.add_calculation self operation inputs result now).
Proof.
  apply quiet_try; [auto 20 with tame | intros e; apply quiet_log_then_ret].
Qed.

Lemma quiet_save_history self : quiet (HistoryManager.save_history self).
Proof.
  apply quiet_try; [auto 30 with tame | intros e; apply quiet_log_then_ret].
Qed.

Lemma quiet_get_history self limit :
  quiet (HistoryManager.get_history self limit).
Proof.
  apply quiet_try; [auto 30 with tame | intros e; apply quiet_log_then_ret].
Qed.

Lemma quiet_clear_history self : quiet (HistoryManager.clear_history self).
Proof.
  apply quiet_try; [auto 20 with tame | intros e; apply quiet_log_then_ret].
Qed.

Lemma quiet_delete_entry self index :
  quiet (HistoryManager.delete_entry self index).
Proof.
  apply quiet_try; [auto 30 with tame | intros e; apply quiet_log_then_ret].
Qed.

Lemma tame_contains_mask term str_df :
  tame (HistoryManager.contains_mask term str_df).
Proof.
  unfold HistoryManager.contains_mask. auto 30 with tame.
Qed.

Lemma quiet_search_history self term :
  quiet (HistoryManager.search_history self term).
Proof.
  apply quiet_try; [|intros e; apply quiet_log_then_ret].
  pose proof tame_contains_mask. auto 30 with tame.
Qed.


Lemma quiet_fst {A} (m : M A) s e : quiet m -> fst (m s) <> Raise e.
Proof.
  intros Hq H. destruct (m s) as [o s'] eqn:E. simpl in H. subst o.
  exact (Hq _ _ _ E).
Qed.



(** ** [get_history] and the labels it shows *)

Lemma get_history_run s self df limit :
  frame_of s self = Some df ->
  HistoryManager.get_history self limit s
  = (Return (if HistoryManager.limit_given limit
             then tail (default 0 limit) df else df), s).
Proof.
  intros Hdf. unfold HistoryManager.get_history, try_except, bind.
  rewrite (getattr_frame _ _ _ Hdf). cbn [as_frame ret].
  destruct (HistoryManager.limit_given limit); reflexivity.
Qed.

Lemma In_skipn {A} (x : A) k l : In x (skipn k l) -> In x l.
Proof.
  intros H. rewrite <- (firstn_skipn k l). apply in_or_app. right. exact H.
Qed.

(** In a frame whose labels run from [m], a row labelled [i] sits at
    position [i - m]. *)
Lemma label_locates (data : list (Z * HistoryEntry)) : forall m i r,
  map fst data = seqZ m (Z.of_nat (length data)) ->
  In (i, r) data ->
  m <= i < m + Z.of_nat (length data)
  /\ map snd data !! Z.to_nat (i - m) = Some r.
Proof.
  induction data as [|[l r0] data IH]; intros m i r Hl Hin.
  - destruct Hin.
  - apply seqZ_labels_tail in Hl as [-> Hl]. destruct Hin as [[= <- <-]|Hin].
    + split; [cbn [length]; lia|]. replace (m - m) with 0 by lia. reflexivity.
    + destruct (IH _ _ _ Hl Hin) as [Hr Hlk]. split; [cbn [length]; lia|].
      replace (Z.to_nat (i - m)) with (S (Z.to_nat (i - Z.succ m))) by lia.
      exact Hlk.
Qed.

Lemma range_label_locates df i r :
  range_indexed df -> In (i, r) (df_data df) ->
  0 <= i < len df /\ df_rows df !! Z.to_nat i = Some r.
Proof.
  intros Hr Hin. destruct (label_locates (df_data df) 0 i r Hr Hin) as [H1 H2].
  replace (i - 0) with i in H2 by lia. split; [exact H1 | exact H2].
Qed.

(** X2.  [get_history] changes nothing.  Without a limit, and with a
    limit that is zero or negative, it returns the whole frame; with a
    positive limit [n] it returns the last [min n size] rows, in order,
    each under the label it has in the store. *)
Theorem get_history_limit (s : state) (self : nat) (df : DataFrame)
    (limit : option Z) :
  frame_of s self = Some df ->
  exists shown,
    HistoryManager.get_history self limit s = (Return shown, s)
    /\ df_columns shown = df_columns df
    /\ (match limit with Some n => n <= 0 | None => True end -> shown = df)
    /\ (forall n, limit = Some n -> 0 < n ->
          len shown = Z.min n (len df)
          /\ exists older, df_data df = older ++ df_data shown).
Proof.
  intros Hdf. eexists. split; [apply (get_history_run _ _ _ _ Hdf)|].
  destruct limit as [n|]; cbn [HistoryManager.limit_given default].
  - destruct (Z.eqb_spec n 0) as [->|Hn]; cbn [negb andb].
    + split; [reflexivity|]. split; [reflexivity|]. intros n [= <-]. lia.
    + destruct (Z.ltb_spec 0 n) as [Hp|Hp].
      * split; [reflexivity|]. split; [intros Hle; cbn in Hle; lia|].
        intros n' [= <-] _.
        unfold tail, len. cbn [df_data]. split.
        -- rewrite length_skipn. unfold id. lia.
        -- eexists. symmetry. apply firstn_skipn.
      * split; [reflexivity|]. split; [reflexivity|]. intros n' [= <-]. lia.
  - split; [reflexivity|]. split; [reflexivity|]. intros n [=].
Qed.

Lemma get_history_limit_witness :
  exists shown,
    HistoryManager.get_history 0 (Some 1) Sample.two_entries
    = (Return shown, Sample.two_entries)
    /\ df_columns shown = df_columns Sample.two_entries_frame
    /\ (match Some 1 with Some n => n <= 0 | None => True end ->
        shown = Sample.two_entries_frame)
    /\ (forall n, Some 1 = Some n -> 0 < n ->
          len shown = Z.min n (len Sample.two_entries_frame)
          /\ exists older,
               df_data Sample.two_entries_frame = older ++ df_data shown).
Proof. apply (get_history_limit Sample.two_entries 0). reflexivity. Defined.

Lemma In_selected {A} (x : A) (mask : list bool) (data : list A) :
  In x (map snd (List.filter (fun p => fst p) (combine mask data))) ->
  In x data.
Proof.
  intros H. apply in_map_iff in H as [[b y] [<- H]].
  apply filter_In in H as [H _]. apply in_combine_r in H. exact H.
Qed.

Lemma search_history_selects s self df term found :
  frame_of s self = Some df ->
  fst (HistoryManager.search_history self term s) = Return found ->
  forall x, In x (df_data found) -> In x (df_data df).
Proof.
  intros Hdf. unfold HistoryManager.search_history, try_except, bind.
  rewrite (getattr_frame _ _ _ Hdf). cbn [as_frame ret].
  unfold HistoryManager.contains_mask.
  destruct (map row_strs (df_rows df)) as [|x0 strs] eqn:Es.
  - cbn. intros [= <-] x Hx. destruct Hx.
  - destruct (Re.compile term) as [p| |]; cbn.
    + intros [= <-] x Hx. apply In_selected in Hx. exact Hx.
    + intros [= <-] x Hx. destruct Hx.
    + discriminate.
Qed.

Lemma get_history_selects s self df limit shown :
  frame_of s self = Some df ->
  fst (HistoryManager.get_history self limit s) = Return shown ->
  forall x, In x (df_data shown) -> In x (df_data df).
Proof.
  intros Hdf. rewrite (get_history_run _ _ _ _ Hdf). cbn [fst].
  destruct (HistoryManager.limit_given limit); intros [= <-] x Hx.
  - apply In_skipn in Hx. exact Hx.
  - exact Hx.
Qed.

(** X3.  The number printed in front of a row by the listing and the
    search of the history command is a position in the store: in a
    store whose labels are the positions, every label that
    [get_history] or [search_history] returns carries the row that sits
    at that position, and [delete_entry] on that number removes exactly
    that row. *)
Theorem listed_labels_address_rows (s : state) (self : nat)
    (df listed : DataFrame) (i : Z) (r : HistoryEntry) :
  frame_of s self = Some df ->
  range_indexed df ->
  (exists limit,
     fst (HistoryManager.get_history self limit s) = Return listed)
  \/ (exists term,
        fst (HistoryManager.search_history self term s) = Return listed) ->
  In (i, r) (df_data listed) ->
  0 <= i < len df
  /\ df_rows df !! Z.to_nat i = Some r
  /\ fst (HistoryManager.delete_entry self i s) = Return (VBool true)
  /\ exists df',
       frame_of (snd (HistoryManager.delete_entry self i s)) self = Some df'
       /\ df_rows df' = delete (Z.to_nat i) (df_rows df).
Proof.
  intros Hdf Hr Hlisted Hin.
  assert (Hin' : In (i, r) (df_data df)).
  { destruct Hlisted as [[limit H]|[term H]].
    - exact (get_history_selects _ _ _ _ _ Hdf H _ Hin).
    - exact (search_history_selects _ _ _ _ _ Hdf H _ Hin). }
  destruct (range_label_locates _ _ _ Hr Hin') as [Hi Hrow].
  split; [exact Hi|]. split; [exact Hrow|].
  rewrite (delete_entry_inside _ _ _ Hdf _ Hr Hi). cbn [fst snd].
  split; [reflexivity|]. eexists. split.
  - rewrite frame_of_logged. apply frame_of_assign.
    exact (frame_of_allocated _ _ _ Hdf).
  - apply df_rows_relabel.
Qed.

Lemma listed_labels_address_rows_witness :
  0 <= 1 < len Sample.two_entries_frame
  /\ df_rows Sample.two_entries_frame !! Z.to_nat 1
     = Some (entry_of (mkCalculation "multiply" [4; 5] 20 Sample.noon))
  /\ fst (HistoryManager.delete_entry 0 1 Sample.two_entries)
     = Return (VBool true)
  /\ exists df',
       frame_of (snd (HistoryManager.delete_entry 0 1 Sample.two_entries)) 0
       = Some df'
       /\ df_rows df' = delete (Z.to_nat 1) (df_rows Sample.two_entries_frame).
Proof.
  apply (listed_labels_address_rows Sample.two_entries 0
           Sample.two_entries_frame
           (mkFrame row_keys
              [(1, entry_of (mkCalculation "multiply" [4; 5] 20 Sample.noon))])).
  - reflexivity.
  - reflexivity.
  - right. exists "multiply". vm_compute. reflexivity.
  - left. reflexivity.
Defined.

(** ** [add_calculation] *)

Lemma seqZ_snoc m (n : nat) :
  seqZ m (Z.of_nat (S n)) = seqZ m (Z.of_nat n) ++ [m + Z.of_nat n].
Proof.
  replace (Z.of_nat (S n)) with (Z.of_nat n + 1) by lia.
  rewrite seqZ_app by lia. reflexivity.
Qed.

Lemma combine_snoc {A B} (l : list A) (k : list B) a b :
  length l = length k ->
  combine (l ++ [a]) (k ++ [b]) = combine l k ++ [(a, b)].
Proof.
  revert k. induction l as [|x l IH]; intros [|y k] Hlen;
    try discriminate Hlen; [reflexivity|].
  cbn. f_equal. apply IH. cbn in Hlen. lia.
Qed.

Lemma relabel_snoc rows r :
  relabel (rows ++ [r]) = relabel rows ++ [(Z.of_nat (length rows), r)].
Proof.
  unfold relabel, RangeIndex. rewrite length_app. cbn [length].
  replace (length rows + 1)%nat with (S (length rows)) by lia.
  rewrite seqZ_snoc. rewrite combine_snoc.
  - reflexivity.
  - rewrite length_seqZ. lia.
Qed.

(** X4.  [add_calculation] on a store with a frame, with inputs that
    Python can render (integers of at most 4300 digits) and a result
    that joins the result column as it is, returns [True] and puts
    exactly one row at the end: the rows before it are the old ones in
    their order, the new row holds the time, the operation, the
    rendered inputs and the result, its label is the old size, and the
    labels are the positions.  The history file is not touched: saving
    is a separate call. *)
Theorem add_calculation_appends (s : state) (self : nat) (df : DataFrame)
    (operation : string) (inputs : list Z) (result : cell) (now : datetime) :
  frame_of s self = Some df ->
  fits df inputs result = true ->
  let new_row :=
    mkEntry (CStr (strftime now)) (CStr operation)
      (CStr (PyStr.of_int_list inputs)) result in
  let s' :=
    snd (HistoryManager.add_calculation self operation inputs result now s) in
  fst (HistoryManager.add_calculation self operation inputs result now s)
  = Return (VBool true)
  /\ disk s' = disk s
  /\ exists df',
       frame_of s' self = Some df'
       /\ df_rows df' = df_rows df ++ [new_row]
       /\ last (df_data df') = Some (len df, new_row)
       /\ range_indexed df'
       /\ (df_columns df = row_keys -> df_columns df' = row_keys).
Proof.
  intros Hdf Hfits new_row s'. subst s'.
  rewrite (add_calculation_run _ _ _ operation inputs result now Hdf Hfits).
  cbn [fst snd]. split; [reflexivity|]. split.
  { rewrite disk_logged. apply disk_assign. }
  eexists. split.
  { rewrite frame_of_logged. apply frame_of_assign.
    exact (frame_of_allocated _ _ _ Hdf). }
  unfold concat_ignore_index, DataFrame_of_row.
  cbn [df_columns df_data df_rows map].
  split; [apply relabel_rows|]. split.
  { fold (df_rows df). rewrite relabel_snoc. rewrite last_snoc.
    unfold len, df_rows. rewrite length_map. reflexivity. }
  split; [apply relabel_range_indexed|].
  intros ->. reflexivity.
Qed.

Lemma add_calculation_appends_witness :
  let new_row :=
    mkEntry (CStr (strftime Sample.noon)) (CStr "sub")
      (CStr (PyStr.of_int_list [9; 4])) (CInt 5) in
  let s' :=
    snd (HistoryManager.add_calculation 0 "sub" [9; 4] (CInt 5) Sample.noon
           Sample.two_entries) in
  fst (HistoryManager.add_calculation 0 "sub" [9; 4] (CInt 5) Sample.noon
         Sample.two_entries)
  = Return (VBool true)
  /\ disk s' = disk Sample.two_entries
  /\ exists df',
       frame_of s' 0 = Some df'
       /\ df_rows df' = df_rows Sample.two_entries_frame ++ [new_row]
       /\ last (df_data df') = Some (len Sample.two_entries_frame, new_row)
       /\ range_indexed df'
       /\ (df_columns Sample.two_entries_frame = row_keys ->
           df_columns df' = row_keys).
Proof.
  apply (add_calculation_appends Sample.two_entries 0
           Sample.two_entries_frame).
  - reflexivity.
  - vm_compute. reflexivity.
Defined.

(** ** [save_history] when the file cannot be written *)

Lemma save_history_unwritable s self df :
  initialised s self df ->
  disk_writable s = false ->
  dir_exists s = false \/ Csv.to_csv df <> None ->
  HistoryManager.save_history self s
  = (Return (VBool false),
     logged ERROR "Failed to save history file: {e}" [VNone] s).
Proof.
  intros Hinit Hw Hcase.
  pose proof (initialised_frame _ _ _ Hinit) as Hdf.
  destruct Hinit as [_ [_ Hfile]].
  unfold HistoryManager.save_history, try_except, bind.
  rewrite (getattr_attr _ _ _ _ Hfile). unfold makedirs.
  destruct (dir_exists s) eqn:Ed.
  - rewrite (getattr_frame _ _ _ Hdf). cbn [as_frame ret].
    destruct Hcase as [Hd|Hcsv]; [discriminate Hd|].
    destruct (Csv.to_csv df) as [text|]; [|contradiction].
    unfold write_file. rewrite Ed, Hw. reflexivity.
  - rewrite Hw. reflexivity.
Qed.

(** X5.  When the history file cannot be written, [save_history]
    returns [False], the file on disk and the frame in memory stay as
    they were, and one ERROR record is logged. *)
Theorem save_history_reports_failure (s : state) (self : nat)
    (df : DataFrame) (text : string) :
  initialised s self df ->
  disk_writable s = false ->
  Csv.to_csv df = Some text ->
  let s' := snd (HistoryManager.save_history self s) in
  fst (HistoryManager.save_history self s) = Return (VBool false)
  /\ disk s' = disk s
  /\ frame_of s' self = Some df
  /\ log s' = log s ++ [mkLog ERROR "Failed to save history file: {e}" [VNone]].
Proof.
  intros Hinit Hw Hcsv s'. subst s'.
  rewrite (save_history_unwritable _ _ _ Hinit Hw)
    by (right; rewrite Hcsv; discriminate).
  cbn [fst snd]. split; [reflexivity|]. split; [reflexivity|].
  split; [|reflexivity].
  rewrite frame_of_logged. exact (initialised_frame _ _ _ Hinit).
Qed.

Lemma save_history_reports_failure_witness :
  let s' := snd (HistoryManager.save_history 0 read_only) in
  fst (HistoryManager.save_history 0 read_only) = Return (VBool false)
  /\ disk s' = disk read_only
  /\ frame_of s' 0 = Some Sample.two_entries_frame
  /\ log s'
     = log read_only
       ++ [mkLog ERROR "Failed to save history file: {e}" [VNone]].
Proof.
  apply (save_history_reports_failure read_only 0 Sample.two_entries_frame
           (Csv.write_records
              (row_keys
               :: map row_strs (df_rows Sample.two_entries_frame)))).
  - split; [|split]; vm_compute; reflexivity.
  - vm_compute. reflexivity.
  - vm_compute. reflexivity.
Defined.

(** ** Construction: an empty file, and one instance *)

Lemma log_assign o n v s : log (assign o n v s) = log s.
Proof. unfold assign. destruct (heap s !! o); reflexivity. Qed.

Lemma log_finished self s : log (finished self s) = log s.
Proof. apply log_assign. Qed.

Lemma heap_length_assign o n v s :
  length (heap (assign o n v s)) = length (heap s).
Proof.
  unfold assign. destruct (heap s !! o); [|reflexivity].
  cbn. apply length_insert.
Qed.

Lemma heap_dir_checked s : heap (dir_checked s) = heap s.
Proof.
  unfold dir_checked. destruct (dir_exists s); [reflexivity|].
  destruct (disk_writable s); reflexivity.
Qed.

Lemma heap_length_prepared self s :
  length (heap (prepared self s)) = length (heap s).
Proof.
  unfold prepared. rewrite heap_length_assign, heap_dir_checked.
  rewrite heap_length_assign. cbn [logged add_log heap].
  apply heap_length_assign.
Qed.

Lemma heap_length_initialise s self :
  is_Some (heap s !! self) ->
  length (heap (snd (HistoryManager.initialise self s))) = length (heap s).
Proof.
  intros Ha. rewrite (initialise_run s self Ha).
  destruct (disk s) as [|text];
    [|destruct (Csv.read_csv text)]; cbn [snd];
    unfold finished, succeeded;
    rewrite ?heap_length_assign; cbn [logged add_log heap];
    rewrite ?heap_length_assign; cbn [logged add_log heap];
    apply heap_length_prepared.
Qed.

Lemma heap_length_call_live s self df :
  live s self df ->
  length (heap (snd (HistoryManager.call s))) = length (heap s).
Proof.
  intros Hl. rewrite (call_live s self df Hl).
  destruct Hl as (_ & Hi & _).
  pose proof (heap_length_initialise s self (initialised_allocated _ _ _ Hi))
    as Hlen.
  destruct (HistoryManager.initialise self s) as [[| |] s']; exact Hlen.
Qed.

Lemma heap_length_call_fresh s :
  fresh s -> length (heap (snd (HistoryManager.call s))) = 1%nat.
Proof.
  intros Hf. rewrite (call_fresh s Hf).
  assert (Ha : is_Some (heap (created s) !! 0%nat)) by (eexists; reflexivity).
  pose proof (heap_length_initialise (created s) 0 Ha) as Hlen.
  destruct (HistoryManager.initialise 0 (created s)) as [[| |] s']; exact Hlen.
Qed.

(** X6.  An empty history file does not stop the construction: in a
    fresh process [HistoryManager()] returns the instance with an
    empty frame of the four columns, leaves the file as it is, and the
    failure is on record as an ERROR of [_load_history] followed by a
    WARNING of [__init__]. *)
Theorem empty_file_gives_empty_store (s : state) :
  fresh s ->
  disk s = FileContent "" ->
  let s' := snd (HistoryManager.call s) in
  fst (HistoryManager.call s) = Return 0%nat
  /\ frame_of s' 0 = Some (DataFrame_columns row_keys)
  /\ disk s' = disk s
  /\ exists before,
       log s'
       = before
         ++ [mkLog ERROR "Failed to load history file: {e}" [VNone];
             mkLog WARNING "could not load history file: {e}" [VNone]].
Proof.
  intros Hf Hd s'. subst s'.
  assert (Hload : initial_frame (disk s) = Some (DataFrame_columns row_keys))
    by (rewrite Hd; reflexivity).
  destruct (call_fresh_live s Hf _ Hload) as (Hr & (_ & Hi & _) & Hdisk).
  split; [exact Hr|]. split; [exact (initialised_frame _ _ _ Hi)|].
  split; [exact Hdisk|].
  rewrite (call_fresh s Hf).
  rewrite (initialise_run (created s) 0) by (eexists; reflexivity).
  change (disk (created s)) with (disk s). rewrite Hd.
  cbn [Csv.read_csv snd]. rewrite log_finished, log_assign.
  exists (log (prepared 0 (created s))).
  cbn [logged add_log log]. rewrite <- app_assoc. reflexivity.
Qed.

Lemma empty_file_gives_empty_store_witness :
  let s := App.boot (FileContent "") true true in
  let s' := snd (HistoryManager.call s) in
  fst (HistoryManager.call s) = Return 0%nat
  /\ frame_of s' 0 = Some (DataFrame_columns row_keys)
  /\ disk s' = disk s
  /\ exists before,
       log s'
       = before
         ++ [mkLog ERROR "Failed to load history file: {e}" [VNone];
             mkLog WARNING "could not load history file: {e}" [VNone]].
Proof.
  apply (empty_file_gives_empty_store (App.boot (FileContent "") true true)).
  - split; reflexivity.
  - reflexivity.
Defined.

(** X7.  However often [HistoryManager()] is called, there is one
    object: in a process that starts fresh every call returns the
    object at address 0, the heap holds that object and no other, and
    after every call its frame is the one the disk gives, which no
    call changes. *)
Theorem one_instance_for_all_constructions (s : state) (df : DataFrame)
    (n : nat) :
  fresh s ->
  initial_frame (disk s) = Some df ->
  fst (HistoryManager.call (constructions n s)) = Return 0%nat
  /\ length (heap (constructions (S n) s)) = 1%nat
  /\ frame_of (constructions (S n) s) 0 = Some df
  /\ disk (constructions (S n) s) = disk s.
Proof.
  intros Hf Hload.
  assert (Inv :
    fst (HistoryManager.call (constructions n s)) = Return 0%nat
    /\ live (constructions (S n) s) 0 df
    /\ disk (constructions (S n) s) = disk s
    /\ length (heap (constructions (S n) s)) = 1%nat).
  { induction n as [|n IH].
    - destruct (call_first s df Hf Hload) as (Hr & Hl & Hd & _).
      split; [exact Hr|]. split; [exact Hl|]. split; [exact Hd|].
      exact (heap_length_call_fresh s Hf).
    - destruct IH as (_ & Hl & Hd & Hlen).
      assert (Hload' : initial_frame (disk (constructions (S n) s)) = Some df)
        by (rewrite Hd; exact Hload).
      destruct (call_again _ _ _ _ Hl Hload') as (Hr & Hl' & Hd' & _).
      split; [exact Hr|]. split; [exact Hl'|]. split.
      + change (constructions (S (S n)) s)
          with (snd (HistoryManager.call (constructions (S n) s))).
        rewrite Hd'. exact Hd.
      + change (constructions (S (S n)) s)
          with (snd (HistoryManager.call (constructions (S n) s))).
        rewrite (heap_length_call_live _ _ _ Hl). exact Hlen. }
  destruct Inv as (Hr & (_ & Hi & _) & Hd & Hlen).
  split; [exact Hr|]. split; [exact Hlen|].
  split; [exact (initialised_frame _ _ _ Hi) | exact Hd].
Qed.

Lemma one_instance_for_all_constructions_witness :
  let s := App.boot (FileContent Sample.header_only) true true in
  fst (HistoryManager.call (constructions 2 s)) = Return 0%nat
  /\ length (heap (constructions 3 s)) = 1%nat
  /\ frame_of (constructions 3 s) 0 = Some (DataFrame_columns row_keys)
  /\ disk (constructions 3 s) = disk s.
Proof.
  apply (one_instance_for_all_constructions
           (App.boot (FileContent Sample.header_only) true true)
           (DataFrame_columns row_keys) 2).
  - split; reflexivity.
  - vm_compute. reflexivity.
Defined.

(** ** Loading plugins *)

Lemma register_item_inert pname item_name it commands s :
  inert it = true ->
  App.register_item pname item_name it commands s = (Return tt, commands, s).
Proof. destruct it; intros H; try discriminate H; reflexivity. Qed.

Lemma register_items_inert pname items commands s :
  forallb (fun p => inert (snd p)) items = true ->
  App.register_items pname items commands s = (Return tt, commands, s).
Proof.
  induction items as [|[n it] items IH]; intros H; [reflexivity|].
  cbn [forallb snd] in H. apply andb_prop in H as [Hit Hrest].
  cbn [App.register_items]. rewrite (register_item_inert _ _ _ _ _ Hit).
  apply IH, Hrest.
Qed.

(** X8.  A plugin package whose module exports no command class (only
    modules, functions, other classes, or [Command] itself) registers
    nothing: the registry is unchanged and the only records are
    'Loaded Plugin' and 'Completed loading plugins'. *)
Theorem plugin_without_command_registers_nothing (p : App.plugin)
    (commands : gmap string App.Command) (s s1 : state)
    (items : list (string * App.item)) :
  App.is_pkg p = true ->
  App.import_module p s = (Return items, s1) ->
  forallb (fun q => inert (snd q)) items = true ->
  App.load_plugin p commands s
  = (Return tt, commands,
     logged INFO "Completed loading plugins" []
       (logged DEBUG "Loaded Plugin: {plugin_name}"
          [VStr (App.plugin_name p)] s1)).
Proof.
  intros Hpkg Himp Hinert. unfold App.load_plugin. rewrite Hpkg, Himp.
  rewrite (register_items_inert _ _ _ _ Hinert). reflexivity.
Qed.

Lemma plugin_without_command_registers_nothing_witness :
  let p :=
    App.mkPlugin "helpers" true
      (ret [("Command", App.CommandItself); ("HistoryManager", App.OtherClass);
            ("logging", App.NotAClass)]) in
  let s := App.boot FileAbsent true true in
  App.load_plugin p ∅ s
  = (Return tt, ∅,
     logged INFO "Completed loading plugins" []
       (logged DEBUG "Loaded Plugin: {plugin_name}"
          [VStr (App.plugin_name p)] s)).
Proof.
  apply (plugin_without_command_registers_nothing
           (App.mkPlugin "helpers" true
              (ret [("Command", App.CommandItself);
                    ("HistoryManager", App.OtherClass);
                    ("logging", App.NotAClass)]))
           ∅ (App.boot FileAbsent true true) (App.boot FileAbsent true true)
           [("Command", App.CommandItself); ("HistoryManager", App.OtherClass);
            ("logging", App.NotAClass)]);
    reflexivity.
Defined.

Lemma register_item_elsewhere pname item_name it commands s k :
  k <> pname ->
  keeps k it ->
  snd (fst (App.register_item pname item_name it commands s)) !! k
  = commands !! k.
Proof.
  intros Hk Hkeeps. destruct it as [| | |cname takes construct|cname construct];
    try reflexivity.
  - unfold App.register_item, App.try_except2, App.lbind, App.lift,
      App.register, bind, logging, modify, ret.
    destruct takes;
      destruct (construct _) as [[c|e|] s0];
      try destruct (is_TypeError (exn_cls e));
      try destruct (is_Exception (exn_cls e));
      cbn [fst snd]; try reflexivity;
      unfold App.register_command; apply lookup_insert_ne; congruence.
  - cbn [keeps] in Hkeeps.
    unfold App.register_item, App.try_except2, App.lbind, App.lift,
      App.register, bind, logging, modify, ret.
    match goal with
    | |- context [construct commands ?t] =>
        pose proof (Hkeeps commands t) as H;
        destruct (construct commands t) as [[[c|e|] c1] s0]
    end; cbn [fst snd] in H |- *.
    + unfold App.register_command. rewrite lookup_insert_ne by congruence.
      exact H.
    + destruct (is_TypeError (exn_cls e)); [exact H|].
      destruct (is_Exception (exn_cls e)); exact H.
    + exact H.
Qed.

Lemma register_items_elsewhere pname k : forall items commands s,
  k <> pname ->
  Forall (fun q => keeps k (snd q)) items ->
  snd (fst (App.register_items pname items commands s)) !! k = commands !! k.
Proof.
  induction items as [|[n it] items IH]; intros commands s Hk Hall;
    [reflexivity|].
  apply Forall_cons in Hall as [Hit Hall]. cbn [snd] in Hit.
  cbn [App.register_items].
  pose proof (register_item_elsewhere pname n it commands s k Hk Hit) as H.
  destruct (App.register_item pname n it commands s) as [[[u|e|] c'] s'];
    cbn [fst snd] in H |- *; [|exact H|exact H].
  rewrite (IH c' s' Hk Hall). exact H.
Qed.

Lemma load_plugin_elsewhere p commands s k :
  (App.is_pkg p = true -> App.plugin_name p <> k) ->
  (forall items s1,
     App.import_module p s = (Return items, s1) ->
     Forall (fun q => keeps k (snd q)) items) ->
  snd (fst (App.load_plugin p commands s)) !! k = commands !! k.
Proof.
  intros Hk Hkeeps. unfold App.load_plugin.
  destruct (App.is_pkg p); [|reflexivity].
  assert (Hne : k <> App.plugin_name p) by (intros ->; exact (Hk eq_refl eq_refl)).
  destruct (App.import_module p s) as [[items|e|] s1]; [| |reflexivity].
  - pose proof (register_items_elsewhere (App.plugin_name p) k items commands
                  (add_log (mkLog DEBUG "Loaded Plugin: {plugin_name}"
                              [VStr (App.plugin_name p)]) s1) Hne
                  (Hkeeps items s1 eq_refl)) as H.
    destruct (App.register_items _ _ _ _) as [[[r|e|] c'] s3]; exact H.
  - destruct (is_Exception (exn_cls e)); reflexivity.
Qed.

Lemma load_plugins_from_elsewhere k : forall ps commands s,
  (forall p, In p ps -> App.is_pkg p = true -> App.plugin_name p <> k) ->
  (forall p s0 items s1,
     In p ps -> App.import_module p s0 = (Return items, s1) ->
     Forall (fun q => keeps k (snd q)) items) ->
  snd (fst (App.load_plugins_from ps commands s)) !! k = commands !! k.
Proof.
  induction ps as [|p ps IH]; intros commands s Hk Hkeeps; [reflexivity|].
  cbn [App.load_plugins_from].
  pose proof (load_plugin_elsewhere p commands s k (Hk p (or_introl eq_refl))
                (fun items s1 => Hkeeps p s items s1 (or_introl eq_refl)))
    as Hp.
  destruct (App.load_plugin p commands s) as [[[r|e|] c'] s'];
    [|exact Hp|exact Hp].
  rewrite IH; [exact Hp| |].
  - intros q Hq. apply Hk. right. exact Hq.
  - intros q s0 items s1 Hq. apply Hkeeps. right. exact Hq.
Qed.

(** X9.  [load_plugins] itself binds nothing but the names of the
    plugin packages: when no command class that is given the handler
    binds or removes the name [k] through it, and [k] is not the name
    of a package among the plugins, then, however the loading ends,
    [k] is bound after it to what it was bound before, or to nothing
    if it was not bound.  Modules that are not packages are never
    imported for it. *)
Theorem load_plugins_binds_package_names_only (ps : list App.plugin)
    (commands : gmap string App.Command) (s : state) (k : string) :
  (forall p, In p ps -> App.is_pkg p = true -> App.plugin_name p <> k) ->
  (forall p s0 items s1,
     In p ps -> App.import_module p s0 = (Return items, s1) ->
     Forall (fun q => keeps k (snd q)) items) ->
  snd (fst (App.load_plugins ps commands s)) !! k = commands !! k.
Proof. intros Hk Hkeeps. apply load_plugins_from_elsewhere; assumption. Qed.

Lemma load_plugins_binds_package_names_only_witness :
  let quiet_plugin :=
    App.mkPlugin "alias" true
      (ret [("AliasCommand",
             App.HandlerClass "AliasCommand"
               (App.lbind (App.register "a" Sample.alias_command)
                  (fun _ => App.lift (ret Sample.alias_command))))]) in
  snd (fst (App.load_plugins
              [Sample.add_plugin; quiet_plugin;
               App.mkPlugin "menu" false (ret [])] ∅
              (App.boot FileAbsent true true)))
  !! "menu" = (∅ : gmap string App.Command) !! "menu".
Proof.
  intros quiet_plugin.
  apply (load_plugins_binds_package_names_only
           [Sample.add_plugin; quiet_plugin;
            App.mkPlugin "menu" false (ret [])]).
  - intros p [<-|[<-|[<-|[]]]] Hpkg;
      [discriminate | discriminate | discriminate Hpkg].
  - intros p s0 items s1 [<-|[<-|[<-|[]]]] [= <- _];
      repeat constructor.
    intros commands s. cbn. apply lookup_insert_ne. discriminate.
Defined.

(** A command class that is given the handler can bind other names:
    the constructor of [alias_plugin] binds [a]. *)
Example handler_constructor_binds_other_names :
  snd (fst (App.load_plugins [Sample.alias_plugin] ∅
              (App.boot FileAbsent true true)))
  !! "a" = Some Sample.alias_command.
Proof. vm_compute. reflexivity. Qed.

Lemma register_items_app pname pre : forall rest commands s,
  App.register_items pname (pre ++ rest) commands s
  = match App.register_items pname pre commands s with
    | (Return _, c1, s1) => App.register_items pname rest c1 s1
    | r => r
    end.
Proof.
  induction pre as [|[n it] pre IH]; intros rest commands s; [reflexivity|].
  cbn [app App.register_items].
  destruct (App.register_item pname n it commands s) as [[[u|e|] c'] s'];
    [apply IH|reflexivity|reflexivity].
Qed.

(** X10.  A plugin has one slot in the registry, its own name: when a
    module exports several command classes, the one that comes last in
    [dir(module)] and can be built is the command registered, whatever
    was registered for the names before it, and the names after it that
    are no command classes do not change that. *)
Theorem last_command_class_wins (pname item_name cname : string)
    (takes : bool) (construct : M App.Command) (cmd : App.Command)
    (before after : list (string * App.item))
    (commands c1 : gmap string App.Command) (s s1 s2 : state) :
  App.register_items pname before commands s = (Return tt, c1, s1) ->
  construct
    (logged DEBUG "Found command: {item.__name__} in plugin: {plugin_name}"
       [VStr cname; VStr pname] s1)
  = (Return cmd, s2) ->
  forallb (fun q => inert (snd q)) after = true ->
  fst (App.register_items pname
         (before ++ (item_name, App.CommandClass cname takes construct)
                    :: after)
         commands s)
  = (Return tt, <[pname := cmd]> c1).
Proof.
  intros Hbefore Hc Hafter. rewrite register_items_app, Hbefore.
  cbn [App.register_items].
  assert (Hitem : exists s3,
    App.register_item pname item_name
      (App.CommandClass cname takes construct) c1 s1
    = (Return tt, <[pname := cmd]> c1, s3)).
  { unfold App.register_item, App.try_except2, App.lbind, App.lift,
      App.register, bind, logging, modify, logged in *.
    destruct takes; rewrite Hc; eexists; reflexivity. }
  destruct Hitem as [s3 ->].
  rewrite (register_items_inert _ _ _ _ Hafter). reflexivity.
Qed.

Lemma last_command_class_wins_witness :
  let sub := App.mkCommand "SubCommand" (ret tt) in
  fst (App.register_items "add"
         ([("AddCommand",
            App.CommandClass "AddCommand" false (ret Sample.add_command))]
          ++ ("SubCommand", App.CommandClass "SubCommand" false (ret sub))
             :: [("logging", App.NotAClass)])
         ∅ (App.boot FileAbsent true true))
  = (Return tt,
     <["add" := sub]> (<["add" := Sample.add_command]> ∅)).
Proof.
  eapply (last_command_class_wins "add" "SubCommand" "SubCommand" false
            (ret (App.mkCommand "SubCommand" (ret tt)))
            (App.mkCommand "SubCommand" (ret tt))
            [("AddCommand",
              App.CommandClass "AddCommand" false (ret Sample.add_command))]
            [("logging", App.NotAClass)] ∅);
    reflexivity.
Defined.

(** ** The loop of [App.start] *)

(** X11.  The loop does not end by itself: when no line of the script
    is [exit], [input] raises nothing but [Exception]s, and the
    commands raise nothing but [Exception]s, the loop handles every
    input of the script and is back at [input], having printed one
    prompt for each. *)
Theorem repl_keeps_reading
    (execute_command : gmap string App.Command -> string -> M unit)
    (commands : gmap string App.Command)
    (script : list App.input_event) (s : state) :
  (forall name t, exists o t',
     execute_command commands name t = (o, t')
     /\ o <> Unmodelled
     /\ (forall e, o = Raise e -> is_Exception (exn_cls e) = true)
     /\ stdout t' = stdout t) ->
  Forall goes_on script ->
  fst (App.repl execute_command commands script s) = App.Reading
  /\ stdout (snd (App.repl execute_command commands script s))
     = stdout s ++ repeat ">>>" (length script).
Proof.
  intros Hexec Hscript. revert s.
  induction Hscript as [|ev script Hev _ IH]; intros s.
  - cbn. rewrite app_nil_r. split; reflexivity.
  - cbn [App.repl length repeat].
    assert (Hstep : exists s',
      App.iteration execute_command commands ev s = (Return tt, s')
      /\ stdout s' = stdout s ++ [">>>"]).
    { destruct ev as [text|e]; cbn [goes_on] in Hev.
      - rewrite (iteration_command _ _ _ _ Hev).
        destruct (Hexec (PyStr.strip text)
                    (logged DEBUG "Executing command: {command}"
                       [VStr (PyStr.strip text)] (add_stdout ">>>" s)))
          as (o & t' & -> & Hmod & Hexn & Hout).
        destruct o as [[]|e|]; [| |contradiction].
        + eexists. split; [reflexivity|]. exact Hout.
        + rewrite (Hexn e eq_refl). eexists. split; [reflexivity|].
          exact Hout.
      - rewrite iteration_input_raises, Hev. eexists.
        split; reflexivity. }
    destruct Hstep as (s' & -> & Hout).
    destruct (IH s') as [Hr Hs]. split; [exact Hr|].
    rewrite Hs, Hout, <- app_assoc. reflexivity.
Qed.

Lemma repl_keeps_reading_witness :
  let failing : gmap string App.Command -> string -> M unit :=
    fun _ _ => raise (mkExn ValueError (VStr "boom")) in
  let script :=
    [App.Line "add"; App.InputRaises (mkExn EOFError VNone); App.Line ""] in
  let s := App.boot FileAbsent true true in
  fst (App.repl failing ∅ script s) = App.Reading
  /\ stdout (snd (App.repl failing ∅ script s))
     = stdout s ++ repeat ">>>" (length script).
Proof.
  apply (repl_keeps_reading
           (fun _ _ => raise (mkExn ValueError (VStr "boom"))) ∅
           [App.Line "add"; App.InputRaises (mkExn EOFError VNone);
            App.Line ""]
           (App.boot FileAbsent true true)).
  - intros name t. eexists. eexists. split; [reflexivity|].
    split; [discriminate|]. split; [|reflexivity].
    intros e [= <-]. reflexivity.
  - repeat constructor; cbn; discriminate.
Defined.

(** ** The history command *)

Lemma tame_modify f : tame (modify f).
Proof. intros s e s' H. discriminate H. Qed.

Lemma tame_print line : tame (print line).
Proof. apply tame_modify. Qed.

Lemma quiet_tame {A} (m : M A) : quiet m -> tame m.
Proof. intros Hq s e s' H. destruct (Hq _ _ _ H). Qed.

Lemma tame_try {A} (body : M A) catches (handler : exn -> M A) :
  tame body -> (forall e, tame (handler e)) ->
  tame (try_except body catches handler).
Proof.
  intros Hb Hh s e s'. unfold try_except.
  destruct (body s) as [[a|e0|] s0] eqn:E; try discriminate.
  destruct (catches (exn_cls e0)).
  - apply Hh.
  - intros [= <- <-]. exact (Hb _ _ _ E).
Qed.

Lemma tame_print_rows data : tame (HistoryPlugin.print_rows data).
Proof.
  induction data as [|p data IH]; cbn [HistoryPlugin.print_rows].
  - apply tame_ret.
  - apply tame_bind; [apply tame_print | intros _; exact IH].
Qed.

Lemma tame_iterrows df : tame (HistoryPlugin.iterrows df).
Proof.
  unfold HistoryPlugin.iterrows. cbv zeta.
  destruct (_ || _); [apply tame_unmodelled | apply tame_ret].
Qed.

#[local] Hint Resolve tame_modify tame_print tame_print_rows tame_iterrows
  tame_try : tame.
#[local] Hint Extern 1 (tame (HistoryManager.get_history _ _)) =>
  (apply quiet_tame, quiet_get_history) : tame.
#[local] Hint Extern 1 (tame (HistoryManager.delete_entry _ _)) =>
  (apply quiet_tame, quiet_delete_entry) : tame.
#[local] Hint Extern 1 (tame (HistoryManager.save_history _)) =>
  (apply quiet_tame, quiet_save_history) : tame.
#[local] Hint Extern 1 (tame (HistoryManager.clear_history _)) =>
  (apply quiet_tame, quiet_clear_history) : tame.
#[local] Hint Extern 1 (tame (HistoryManager.search_history _ _)) =>
  (apply quiet_tame, quiet_search_history) : tame.

Lemma tame_to_int arg : tame (HistoryPlugin.to_int arg).
Proof. unfold HistoryPlugin.to_int. auto 10 with tame. Qed.

Lemma tame_show_history hm limit : tame (HistoryPlugin._show_history hm limit).
Proof. unfold HistoryPlugin._show_history. auto 20 with tame. Qed.

Lemma tame_delete hm index : tame (HistoryPlugin._delete_entry hm index).
Proof. unfold HistoryPlugin._delete_entry. auto 20 with tame. Qed.

Lemma tame_save hm : tame (HistoryPlugin._save_history hm).
Proof. unfold HistoryPlugin._save_history. auto 20 with tame. Qed.

Lemma tame_search hm term : tame (HistoryPlugin._search_history hm term).
Proof. unfold HistoryPlugin._search_history. auto 20 with tame. Qed.

Lemma tame_clear hm : tame (HistoryCommand._clear_history hm).
Proof. unfold HistoryCommand._clear_history. auto 20 with tame. Qed.

Lemma tame_dispatch hm user_input :
  tame (HistoryPlugin.dispatch hm user_input).
Proof.
  pose proof tame_to_int. pose proof tame_show_history.
  pose proof tame_delete. pose proof tame_save. pose proof tame_search.
  pose proof tame_clear.
  unfold HistoryPlugin.dispatch, HistoryPlugin._show_recent_history.
  destruct (negb _); [auto|].
  destruct (PyLib.shlex_split user_input) as [[|first more]|];
    [auto with tame| |auto with tame].
  repeat (destruct (String.eqb _ _); [destruct more; auto 10 with tame|]).
  auto with tame.
Qed.



Lemma printed_cons line lines s :
  printed (line :: lines) s = printed lines (add_stdout line s).
Proof.
  unfold printed, add_stdout. cbn. rewrite <- app_assoc. reflexivity.
Qed.

Lemma printed_one line s : printed [line] s = add_stdout line s.
Proof. reflexivity. Qed.

Lemma print_rows_run data : forall s,
  HistoryPlugin.print_rows data s
  = (Return tt, printed (map HistoryPlugin.row_line data) s).
Proof.
  induction data as [|p data IH]; intros s.
  - cbn. unfold printed. rewrite app_nil_r. destruct s; reflexivity.
  - cbn [HistoryPlugin.print_rows map]. unfold bind, print, modify.
    rewrite IH, printed_cons. reflexivity.
Qed.

Lemma complete_cells r :
  HistoryPlugin.complete r = true ->
  HistoryPlugin.holds_nan (timestamp r) = false
  /\ HistoryPlugin.holds_nan (operation r) = false
  /\ HistoryPlugin.holds_nan (inputs r) = false
  /\ HistoryPlugin.holds_nan (result r) = false.
Proof.
  unfold HistoryPlugin.complete, HistoryPlugin.row_cells. cbn [existsb].
  destruct (HistoryPlugin.holds_nan (timestamp r)),
    (HistoryPlugin.holds_nan (operation r)),
    (HistoryPlugin.holds_nan (inputs r)),
    (HistoryPlugin.holds_nan (result r)); cbn; intros H;
    try discriminate H; repeat split.
Qed.

Lemma complete_columns rows :
  forallb HistoryPlugin.complete rows = true ->
  existsb HistoryPlugin.holds_nan (map timestamp rows) = false
  /\ existsb HistoryPlugin.holds_nan (map operation rows) = false
  /\ existsb HistoryPlugin.holds_nan (map inputs rows) = false
  /\ existsb HistoryPlugin.holds_nan (map result rows) = false
  /\ existsb HistoryPlugin.holds_nan
       (concat (map HistoryPlugin.row_cells rows)) = false.
Proof.
  induction rows as [|r rows IH]; intros H; [repeat split|].
  cbn [forallb] in H. apply andb_prop in H as [Hr Hrows].
  destruct (IH Hrows) as (H1 & H2 & H3 & H4 & H5).
  destruct (complete_cells r Hr) as (C1 & C2 & C3 & C4).
  cbn [map existsb concat HistoryPlugin.row_cells app].
  rewrite H1, H2, H3, H4, H5, C1, C2, C3, C4. repeat split.
Qed.

Lemma iterrows_complete df s :
  forallb HistoryPlugin.complete (df_rows df) = true ->
  HistoryPlugin.iterrows df s = (Return (df_data df), s).
Proof.
  intros H. destruct (complete_columns _ H) as (H1 & H2 & H3 & H4 & H5).
  unfold HistoryPlugin.iterrows, HistoryPlugin.mixed. cbv zeta.
  cbn [existsb]. rewrite H1, H2, H3, H4, H5, !andb_false_r. reflexivity.
Qed.

Lemma forallb_sub {A} (p : A -> bool) (l k : list A) :
  (forall x, In x k -> In x l) ->
  forallb p l = true -> forallb p k = true.
Proof.
  intros Hsub Hl. apply forallb_forall. intros x Hx.
  exact (proj1 (forallb_forall p l) Hl x (Hsub x Hx)).
Qed.

Lemma rows_sub (df shown : DataFrame) :
  (forall x, In x (df_data shown) -> In x (df_data df)) ->
  forall r, In r (df_rows shown) -> In r (df_rows df).
Proof.
  intros Hsub r Hr. unfold df_rows in *.
  apply in_map_iff in Hr as [x [<- Hx]]. apply in_map, Hsub, Hx.
Qed.

(** What [_show_history] and [_search_history] print after the frame
    has been fetched. *)
Lemma listing_run title none shown s :
  forallb HistoryPlugin.complete (df_rows shown) = true ->
  (if empty shown then print none
   else bind (print title)
          (fun _ => bind (print HistoryPlugin.rule)
             (fun _ => bind (HistoryPlugin.iterrows shown)
                (fun rows => HistoryPlugin.print_rows rows)))) s
  = (Return tt, printed (listed title none shown) s).
Proof.
  intros Hc. unfold listed. destruct (empty shown); [reflexivity|].
  unfold bind, print, modify. rewrite (iterrows_complete _ _ Hc).
  rewrite print_rows_run, !printed_cons. reflexivity.
Qed.

Lemma show_history_run hm limit s df shown :
  frame_of s hm = Some df ->
  forallb HistoryPlugin.complete (df_rows df) = true ->
  fst (HistoryManager.get_history hm limit s) = Return shown ->
  HistoryPlugin._show_history hm limit s
  = (Return tt,
     printed (listed (history_title shown) "No calculation history found."
                shown) s).
Proof.
  intros Hdf Hc Hshown.
  pose proof (get_history_selects _ _ _ _ _ Hdf Hshown) as Hsub.
  rewrite (get_history_run _ _ _ _ Hdf) in Hshown. cbn [fst] in Hshown.
  unfold HistoryPlugin._show_history. unfold bind at 1.
  rewrite (get_history_run _ _ _ _ Hdf).
  injection Hshown as ->.
  apply listing_run. exact (forallb_sub _ _ _ (rows_sub _ _ Hsub) Hc).
Qed.

Lemma dispatch_run hm user_input action more :
  reads user_input action more ->
  HistoryPlugin.dispatch hm user_input
  = if String.eqb action "show" then
      match more with
      | arg :: _ =>
          bind (HistoryPlugin.to_int arg)
            (fun limit => HistoryPlugin._show_history hm (Some limit))
      | [] => HistoryPlugin._show_history hm None
      end
    else if String.eqb action "clear" then HistoryCommand._clear_history hm
    else if String.eqb action "delete" then
      match more with
      | [] =>
          print "Index required for delete operation. Usage: delete [index]"
      | arg :: _ =>
          try_except
            (bind (HistoryPlugin.to_int arg)
               (fun index => HistoryPlugin._delete_entry hm index))
            PyLib.is_ValueError
            (fun _ => print "Invalid index number. Usage: delete [index]")
      end
    else if String.eqb action "save" then HistoryPlugin._save_history hm
    else if String.eqb action "search" then
      match more with
      | [] => print "Search term required. Usage: search [term]"
      | term :: _ => HistoryPlugin._search_history hm term
      end
    else
      print ("Unknown history action: " +:+ action
             +:+ ". Available actions: show, clear, delete, save, search").
Proof.
  intros (Hne & first & Hsplit & Hlower). unfold HistoryPlugin.dispatch.
  rewrite Hne, Hsplit. cbn [negb]. rewrite Hlower. reflexivity.
Qed.

Lemma execute_line hm user_input s :
  HistoryPlugin.execute hm (App.Line user_input) s
  = match
      HistoryPlugin.dispatch hm user_input
        (add_stdout HistoryPlugin.prompt s)
    with
    | (Raise e, s1) =>
        if is_Exception (exn_cls e)
        then
          match PyLib.exn_text e with
          | Some text =>
              (Return tt,
               add_stdout ("An error occurred: " +:+ text)
                 (logged ERROR "Error executing history command: {e}"
                    [exn_arg e] s1))
          | None =>
              (Unmodelled,
               logged ERROR "Error executing history command: {e}"
                 [exn_arg e] s1)
          end
        else (Raise e, s1)
    | r => r
    end.
Proof.
  unfold HistoryPlugin.execute, try_except. unfold bind at 1. cbn [modify].
  destruct (HistoryPlugin.dispatch hm user_input _) as [[u|e|] s1];
    try reflexivity.
  destruct (is_Exception (exn_cls e)); [|reflexivity].
  unfold bind, logging, modify. destruct (PyLib.exn_text e); reflexivity.
Qed.

Lemma frame_of_add_stdout line s self :
  frame_of (add_stdout line s) self = frame_of s self.
Proof. reflexivity. Qed.

Lemma to_int_ok arg n s :
  PyLib.int_of_str arg = PyLib.IntOk n ->
  HistoryPlugin.to_int arg s = (Return n, s).
Proof. intros H. unfold HistoryPlugin.to_int. rewrite H. reflexivity. Qed.



(** X14.  An empty line, or one of blanks only, is the command
    [show 10]: the history command prints the same and leaves the same
    state for both. *)
Theorem blank_line_is_show_ten (hm : nat) (user_input : string) (s : state) :
  PyStr.nonempty (PyStr.strip user_input) = false ->
  HistoryPlugin.execute hm (App.Line user_input) s
  = HistoryPlugin.execute hm (App.Line "show 10") s.
Proof.
  intros Hblank. rewrite !execute_line.
  assert (Hd : forall t,
    HistoryPlugin.dispatch hm user_input t
    = HistoryPlugin.dispatch hm "show 10" t).
  { intros t. unfold HistoryPlugin.dispatch at 1. rewrite Hblank.
    reflexivity. }
  rewrite Hd. reflexivity.
Qed.

Lemma blank_line_is_show_ten_witness :
  HistoryPlugin.execute 0 (App.Line "  ") Sample.two_entries
  = HistoryPlugin.execute 0 (App.Line "show 10") Sample.two_entries.
Proof.
  apply (blank_line_is_show_ten 0 "  " Sample.two_entries). reflexivity.
Defined.

Lemma not_an_action action :
  PyStr.elem action actions = false ->
  String.eqb action "show" = false /\ String.eqb action "clear" = false
  /\ String.eqb action "delete" = false /\ String.eqb action "save" = false
  /\ String.eqb action "search" = false.
Proof.
  unfold PyStr.elem, actions. cbn [existsb]. intros H.
  repeat (apply orb_false_elim in H as [? H]). repeat split; assumption.
Qed.

(** X15.  A command line that cannot be carried out (a [delete] or a
    [search] without argument, or an action that is none of the five)
    is answered with one line of complaint and nothing else: the
    store, the file and the log are as before. *)
Theorem incomplete_command_changes_nothing (hm : nat) (user_input : string)
    (action : string) (more : list string) (s : state) :
  reads user_input action more ->
  incomplete action more = true ->
  exists complaint,
    HistoryPlugin.execute hm (App.Line user_input) s
    = (Return tt, printed [HistoryPlugin.prompt; complaint] s).
Proof.
  intros Hreads Hinc. rewrite execute_line, (dispatch_run _ _ _ _ Hreads).
  unfold incomplete in Hinc.
  destruct (PyStr.elem action actions) eqn:Hknown.
  - rewrite orb_false_r in Hinc. destruct more as [|arg rest];
      [|discriminate Hinc].
    apply orb_prop in Hinc as [H|H]; apply String.eqb_eq in H; subst action;
      cbn [String.eqb Ascii.eqb Bool.eqb]; eexists; rewrite printed_cons;
      reflexivity.
  - destruct (not_an_action _ Hknown) as (H1 & H2 & H3 & H4 & H5).
    rewrite H1, H2, H3, H4, H5. eexists. rewrite printed_cons. reflexivity.
Qed.

Lemma incomplete_command_changes_nothing_witness :
  exists complaint,
    HistoryPlugin.execute 0 (App.Line "Undo 3") Sample.two_entries
    = (Return tt,
       printed [HistoryPlugin.prompt; complaint] Sample.two_entries).
Proof.
  apply (incomplete_command_changes_nothing 0 "Undo 3" "undo" ["3"]).
  - split; [reflexivity|]. exists "Undo". split; reflexivity.
  - reflexivity.
Defined.

Lemma to_int_fails arg quoted s :
  PyLib.int_of_str arg = PyLib.IntValueError ->
  PyLib.repr arg = Some quoted ->
  HistoryPlugin.to_int arg s
  = (Raise (mkExn ValueError
              (VStr ("invalid literal for int() with base 10: " +:+ quoted))),
     s).
Proof.
  intros Hi Hr. unfold HistoryPlugin.to_int. rewrite Hi, Hr. reflexivity.
Qed.

(** X16.  An argument that is no number is treated differently by the
    two subcommands that take one: [delete] answers with its usage
    line, [show] lets the [ValueError] of [int] reach the handler of
    [execute], which logs it and prints its text.  In both cases the
    store and the file are as before. *)
Theorem argument_that_is_no_number (hm : nat) (line_delete line_show : string)
    (arg quoted : string) (rest rest' : list string) (s : state) :
  reads line_delete "delete" (arg :: rest) ->
  reads line_show "show" (arg :: rest') ->
  PyLib.int_of_str arg = PyLib.IntValueError ->
  PyLib.repr arg = Some quoted ->
  let text := "invalid literal for int() with base 10: " +:+ quoted in
  HistoryPlugin.execute hm (App.Line line_delete) s
  = (Return tt,
     printed [HistoryPlugin.prompt;
              "Invalid index number. Usage: delete [index]"] s)
  /\ HistoryPlugin.execute hm (App.Line line_show) s
     = (Return tt,
        add_stdout ("An error occurred: " +:+ text)
          (logged ERROR "Error executing history command: {e}" [VStr text]
             (add_stdout HistoryPlugin.prompt s))).
Proof.
  intros Hd Hs Hint Hrepr text. split.
  - rewrite execute_line, (dispatch_run _ _ _ _ Hd).
    cbn [String.eqb Ascii.eqb Bool.eqb]. unfold try_except, bind.
    rewrite (to_int_fails _ _ _ Hint Hrepr), printed_cons. reflexivity.
  - rewrite execute_line, (dispatch_run _ _ _ _ Hs).
    cbn [String.eqb Ascii.eqb Bool.eqb]. unfold bind.
    rewrite (to_int_fails _ _ _ Hint Hrepr). reflexivity.
Qed.

Lemma argument_that_is_no_number_witness :
  let text := "invalid literal for int() with base 10: " +:+ "'two'" in
  HistoryPlugin.execute 0 (App.Line "delete two") Sample.two_entries
  = (Return tt,
     printed [HistoryPlugin.prompt;
              "Invalid index number. Usage: delete [index]"]
       Sample.two_entries)
  /\ HistoryPlugin.execute 0 (App.Line "show two") Sample.two_entries
     = (Return tt,
        add_stdout ("An error occurred: " +:+ text)
          (logged ERROR "Error executing history command: {e}" [VStr text]
             (add_stdout HistoryPlugin.prompt Sample.two_entries))).
Proof.
  apply (argument_that_is_no_number 0 "delete two" "show two" "two" "'two'"
           [] []).
  - split; [reflexivity|]. exists "delete". split; reflexivity.
  - split; [reflexivity|]. exists "show". split; reflexivity.
  - reflexivity.
  - reflexivity.
Defined.

Lemma initialised_add_stdout line s self df :
  initialised s self df -> initialised (add_stdout line s) self df.
Proof. intros H. exact H. Qed.

Lemma save_history_any s self df text :
  initialised s self df ->
  Csv.to_csv df = Some text ->
  HistoryManager.save_history self s
  = if disk_writable s
    then (Return (VBool true), saved text s)
    else (Return (VBool false),
          logged ERROR "Failed to save history file: {e}" [VNone] s).
Proof.
  intros Hi Hcsv. destruct (disk_writable s) eqn:Hw.
  - exact (save_history_run _ _ _ _ Hi Hw Hcsv).
  - apply (save_history_unwritable _ _ _ Hi Hw). right. rewrite Hcsv.
    discriminate.
Qed.

Lemma stdout_assign o n v s : stdout (assign o n v s) = stdout s.
Proof. unfold assign. destruct (heap s !! o); reflexivity. Qed.

Lemma stdout_saved text s : stdout (saved text s) = stdout s.
Proof. unfold saved. destruct (dir_exists s); reflexivity. Qed.

Lemma disk_saved text s : disk (saved text s) = FileContent text.
Proof. unfold saved. destruct (dir_exists s); reflexivity. Qed.

Lemma frame_of_saved text s self :
  frame_of (saved text s) self = frame_of s self.
Proof. unfold saved. destruct (dir_exists s); reflexivity. Qed.

Lemma log_saved text s :
  log (saved text s)
  = log s ++ [mkLog INFO "History saved to {self.history_file}"
                [VStr HistoryManager.history_file_path]].
Proof. unfold saved. destruct (dir_exists s); reflexivity. Qed.

Lemma delete_run hm user_input arg rest i df text s :
  reads user_input "delete" (arg :: rest) ->
  PyLib.int_of_str arg = PyLib.IntOk i ->
  initialised s hm df ->
  range_indexed df ->
  0 <= i < len df ->
  let df' :=
    mkFrame (df_columns df) (relabel (delete (Z.to_nat i) (df_rows df))) in
  let s1 :=
    logged INFO "Entry deleted from history: {index}" [VInt i]
      (assign hm "df" (VFrame df') (add_stdout HistoryPlugin.prompt s)) in
  Csv.to_csv df' = Some text ->
  initialised s1 hm df'
  /\ HistoryPlugin.execute hm (App.Line user_input) s
     = (Return tt,
        add_stdout ("Deleted entry at index " +:+ PyStr.of_int i +:+ ".")
          (if disk_writable s then saved text s1
           else logged ERROR "Failed to save history file: {e}" [VNone] s1)).
Proof.
  intros Hreads Hint Hinit Hr Hi df' s1 Hcsv.
  assert (Hinit' : initialised s1 hm df').
  { apply initialised_assign with (df := df). exact Hinit. }
  split; [exact Hinit'|].
  rewrite execute_line, (dispatch_run _ _ _ _ Hreads).
  cbn [String.eqb Ascii.eqb Bool.eqb]. unfold try_except. unfold bind at 1.
  rewrite (to_int_ok _ _ _ Hint).
  unfold HistoryPlugin._delete_entry. unfold bind at 1.
  pose proof (initialised_frame _ _ _ Hinit) as Hdf.
  rewrite (delete_entry_inside (add_stdout HistoryPlugin.prompt s) hm df Hdf
             i Hr Hi).
  cbn [truthy]. fold df'. fold s1.
  unfold bind at 1. rewrite (save_history_any _ _ _ _ Hinit' Hcsv).
  assert (Hw : disk_writable s1 = disk_writable s).
  { unfold s1. rewrite writable_logged, writable_assign. reflexivity. }
  rewrite Hw. destruct (disk_writable s); reflexivity.
Qed.



(** A number that [int] reads has at most 4300 digits. *)
Lemma digit_run_all body :
  PyStr.all_chars PyLib.is_digit body = true ->
  PyLib.digit_run body = String.length body.
Proof.
  induction body as [|c r IH]; [reflexivity|].
  cbn [PyStr.all_chars PyLib.digit_run String.length].
  intros [Hc Hr]%andb_true_iff. rewrite Hc, (IH Hr). reflexivity.
Qed.

Lemma digits_value_bound body : forall acc,
  PyStr.all_chars PyLib.is_digit body = true ->
  0 <= acc ->
  0 <= PyLib.digits_value body acc
  < (acc + 1) * 10 ^ Z.of_nat (String.length body).
Proof.
  induction body as [|c r IH]; intros acc Hall Hacc.
  - cbn [PyLib.digits_value String.length]. rewrite Z.pow_0_r. lia.
  - cbn [PyStr.all_chars] in Hall. apply andb_true_iff in Hall as [Hc Hr].
    cbn [PyLib.digits_value String.length].
    rewrite Nat2Z.inj_succ, Z.pow_succ_r by lia.
    unfold PyLib.is_digit in Hc. apply andb_true_iff in Hc as [Hlo Hhi].
    apply Nat.leb_le in Hlo, Hhi.
    specialize (IH (10 * acc + Z.of_nat (PyStr.code c - 48)) Hr).
    assert (0 < 10 ^ Z.of_nat (String.length r))
      by (apply Z.pow_pos_nonneg; lia).
    nia.
Qed.

Lemma int_of_str_short arg i :
  PyLib.int_of_str arg = PyLib.IntOk i -> PyStr.short i = true.
Proof.
  unfold PyLib.int_of_str.
  destruct (PyStr.mem "_" (PyLib.int_strip arg)); [discriminate|].
  destruct (PyLib.sign_split (PyLib.int_strip arg)) as [negative body].
  destruct (PyLib.max_str_digits <? PyLib.digit_run body)%nat eqn:Hlim;
    [discriminate|].
  destruct (PyStr.nonempty body && PyStr.all_chars PyLib.is_digit body)
    eqn:Hbody; [|discriminate].
  apply andb_true_iff in Hbody as [Hne Hall].
  apply Nat.ltb_ge in Hlim. rewrite (digit_run_all body Hall) in Hlim.
  unfold PyLib.max_str_digits in Hlim.
  pose proof (digits_value_bound body 0 Hall (Z.le_refl 0)) as Hv.
  intros [= <-]. unfold PyStr.short. apply Nat.leb_le.
  transitivity (String.length body); [|exact Hlim].
  replace (Z.abs (if negative then - PyLib.digits_value body 0
                  else PyLib.digits_value body 0))
    with (PyLib.digits_value body 0) by (destruct negative; lia).
  apply rendered_length; [lia|].
  destruct body; [discriminate Hne | cbn; lia].
Qed.

(** X18.  [delete i] with [i] outside [0 .. size-1], a negative number
    included, removes nothing: the command prints that the deletion
    failed, a WARNING is logged, and the store and the file are as
    before. *)
Theorem delete_out_of_range_keeps_all (hm : nat) (user_input arg : string)
    (rest : list string) (i : Z) (df : DataFrame) (s : state) :
  reads user_input "delete" (arg :: rest) ->
  PyLib.int_of_str arg = PyLib.IntOk i ->
  frame_of s hm = Some df ->
  ~ (0 <= i < len df) ->
  HistoryPlugin.execute hm (App.Line user_input) s
  = (Return tt,
     add_stdout
       ("Failed to delete entry at index " +:+ PyStr.of_int i
        +:+ ". Index may be out of range.")
       (logged WARNING "Index out of range: {index}" [VInt i]
          (add_stdout HistoryPlugin.prompt s))).
Proof.
  intros Hreads Hint Hdf Hi.
  rewrite execute_line, (dispatch_run _ _ _ _ Hreads).
  cbn [String.eqb Ascii.eqb Bool.eqb]. unfold try_except. unfold bind at 1.
  rewrite (to_int_ok _ _ _ Hint).
  unfold HistoryPlugin._delete_entry. unfold bind at 1.
  rewrite (delete_entry_outside (add_stdout HistoryPlugin.prompt s) hm df Hdf
             i Hi).
  rewrite (int_of_str_short arg i Hint). reflexivity.
Qed.

Lemma delete_out_of_range_keeps_all_witness :
  HistoryPlugin.execute 0 (App.Line "delete -1") Sample.two_entries
  = (Return tt,
     add_stdout
       ("Failed to delete entry at index " +:+ PyStr.of_int (-1)
        +:+ ". Index may be out of range.")
       (logged WARNING "Index out of range: {index}" [VInt (-1)]
          (add_stdout HistoryPlugin.prompt Sample.two_entries))).
Proof.
  apply (delete_out_of_range_keeps_all 0 "delete -1" "-1" [] (-1)
           Sample.two_entries_frame).
  - split; [reflexivity|]. exists "delete". split; reflexivity.
  - reflexivity.
  - reflexivity.
  - vm_compute. intros [H _]. apply H. reflexivity.
Defined.



Lemma filter_rows_complete (h : Z * HistoryEntry -> bool) df :
  forallb HistoryPlugin.complete (df_rows df) = true ->
  forallb HistoryPlugin.complete
    (df_rows (mkFrame (df_columns df) (List.filter h (df_data df)))) = true.
Proof.
  intros Hc. apply (forallb_sub _ (df_rows df)); [|exact Hc].
  apply rows_sub. cbn [df_data]. intros x Hx.
  apply filter_In in Hx as [Hx _]. exact Hx.
Qed.



(** X21.  A search term that is not a valid pattern is not reported as
    such: on a store with rows the failure of [search_history] is
    logged as an ERROR, and the command prints the same 'No matches
    found' line as for a term that occurs nowhere. *)
Theorem malformed_pattern_reads_as_no_match (hm : nat)
    (user_input term : string) (rest : list string) (df : DataFrame)
    (s : state) :
  reads user_input "search" (term :: rest) ->
  frame_of s hm = Some df ->
  df_data df <> [] ->
  Re.compile term = Re.Error ->
  HistoryPlugin.execute hm (App.Line user_input) s
  = (Return tt,
     add_stdout ("No matches found for '" +:+ term +:+ "'.")
       (logged ERROR "Failed to search history: {e}" [VStr term]
          (add_stdout HistoryPlugin.prompt s))).
Proof.
  intros Hreads Hdf Hrows Herr.
  rewrite execute_line, (dispatch_run _ _ _ _ Hreads).
  cbn [String.eqb Ascii.eqb Bool.eqb].
  unfold HistoryPlugin._search_history. unfold bind at 1.
  rewrite (search_history_fails (add_stdout HistoryPlugin.prompt s) hm df term)
    by assumption.
  reflexivity.
Qed.

Lemma malformed_pattern_reads_as_no_match_witness :
  HistoryPlugin.execute 0 (App.Line "search *") Sample.two_entries
  = (Return tt,
     add_stdout ("No matches found for '" +:+ "*" +:+ "'.")
       (logged ERROR "Failed to search history: {e}" [VStr "*"]
          (add_stdout HistoryPlugin.prompt Sample.two_entries))).
Proof.
  apply (malformed_pattern_reads_as_no_match 0 "search *" "*" []
           Sample.two_entries_frame).
  - split; [reflexivity|]. exists "search". split; reflexivity.
  - reflexivity.
  - discriminate.
  - reflexivity.
Defined.

(** ** [get_float] of the arithmetic plugins *)

Section GetFloat.

Variable F : Type.
Variable float_of_str : string -> option F.
Variable float_str : F -> string.
Variable prompt : string.

Lemma retried_next n s :
  retried prompt n (Arithmetic.rejected (add_stdout prompt s))
  = retried prompt (S n) s.
Proof.
  unfold retried. symmetry.
  apply (Nat.iter_succ_r n (fun t => Arithmetic.rejected (add_stdout prompt t))).
Qed.

Lemma get_float_skips pre : forall rest s,
  Forall (invalid float_of_str) pre ->
  Arithmetic.get_float F float_of_str float_str prompt (pre ++ rest) s
  = Arithmetic.get_float F float_of_str float_str prompt rest
      (retried prompt (length pre) s).
Proof.
  induction pre as [|ev pre IH]; intros rest s Hpre; [reflexivity|].
  inversion Hpre as [|? ? Hev Hpre']; subst.
  cbn [app length]. rewrite <- retried_next, <- (IH rest _ Hpre').
  cbn [Arithmetic.get_float].
  destruct ev as [text|e]; cbn [invalid] in Hev.
  - rewrite Hev. reflexivity.
  - destruct Hev as [-> ->]. reflexivity.
Qed.

Lemma retried_stdout n : forall s,
  stdout (retried prompt n s)
  = stdout s
    ++ concat (repeat [prompt; "Invalid Value. Please Try Again."] n).
Proof.
  induction n as [|n IH]; intros s.
  - cbn. rewrite app_nil_r. reflexivity.
  - rewrite <- retried_next, IH. cbn [repeat concat].
    unfold Arithmetic.rejected. cbn [add_stdout add_log stdout].
    rewrite <- !app_assoc. reflexivity.
Qed.

Lemma retried_log n : forall s,
  log (retried prompt n s)
  = log s
    ++ repeat (mkLog WARNING "Invalid Value. Please Try Again." []) n.
Proof.
  induction n as [|n IH]; intros s.
  - cbn. rewrite app_nil_r. reflexivity.
  - rewrite <- retried_next, IH. cbn [repeat].
    unfold Arithmetic.rejected. cbn [add_stdout add_log log].
    rewrite <- !app_assoc. reflexivity.
Qed.

Lemma retried_rest n s :
  heap (retried prompt n s) = heap s /\ disk (retried prompt n s) = disk s.
Proof.
  induction n as [|n IH]; [split; reflexivity|].
  unfold retried in *. cbn [Nat.iter]. exact IH.
Qed.

End GetFloat.

(** X22.  [get_float] has no limit of attempts: as long as every input
    is one that [float] rejects, or a [ValueError] of [input], it asks
    again, and each such input costs one prompt, one line 'Invalid
    Value. Please Try Again.' and one WARNING record; the store and
    the file are not touched. *)
Theorem get_float_asks_again (F : Type)
    (float_of_str : string -> option F) (float_str : F -> string)
    (prompt : string) (script : list App.input_event) (s : state) :
  Forall (invalid float_of_str) script ->
  let s' :=
    snd (Arithmetic.get_float F float_of_str float_str prompt script s) in
  fst (Arithmetic.get_float F float_of_str float_str prompt script s)
  = Arithmetic.StillAsking F
  /\ stdout s'
     = stdout s
       ++ concat (repeat [prompt; "Invalid Value. Please Try Again."]
                    (length script))
  /\ log s'
     = log s
       ++ repeat (mkLog WARNING "Invalid Value. Please Try Again." [])
            (length script)
  /\ heap s' = heap s /\ disk s' = disk s.
Proof.
  intros Hscript s'. subst s'.
  pose proof (get_float_skips F float_of_str float_str prompt script [] s
                Hscript) as H.
  rewrite app_nil_r in H. rewrite H. cbn [Arithmetic.get_float fst snd].
  split; [reflexivity|]. split; [apply retried_stdout|].
  split; [apply retried_log | apply retried_rest].
Qed.

Lemma get_float_asks_again_witness :
  let script :=
    [App.Line "two"; App.InputRaises (mkExn ValueError VNone); App.Line ""] in
  let s := Sample.two_entries in
  let s' :=
    snd (Arithmetic.get_float Z whole PyStr.of_int "Enter first number: "
           script s) in
  fst (Arithmetic.get_float Z whole PyStr.of_int "Enter first number: "
         script s)
  = Arithmetic.StillAsking Z
  /\ stdout s'
     = stdout s
       ++ concat (repeat ["Enter first number: ";
                          "Invalid Value. Please Try Again."]
                    (length script))
  /\ log s'
     = log s
       ++ repeat (mkLog WARNING "Invalid Value. Please Try Again." [])
            (length script)
  /\ heap s' = heap s /\ disk s' = disk s.
Proof.
  apply (get_float_asks_again Z whole PyStr.of_int "Enter first number: "
           [App.Line "two"; App.InputRaises (mkExn ValueError VNone);
            App.Line ""]
           Sample.two_entries).
  repeat constructor.
Defined.

(** X23.  [get_float] returns the first input that [float] accepts:
    the inputs before it are answered as invalid, the inputs after it
    are not read, and the value is logged once.  An exception of
    [input] that is no [ValueError] ends it instead and is passed
    on. *)
Theorem get_float_returns_first_valid (F : Type)
    (float_of_str : string -> option F) (float_str : F -> string)
    (prompt : string) (before rest : list App.input_event) (s : state) :
  Forall (invalid float_of_str) before ->
  let asked := retried prompt (length before) s in
  (forall text v, float_of_str text = Some v ->
     Arithmetic.get_float F float_of_str float_str prompt
       (before ++ App.Line text :: rest) s
     = (Arithmetic.Value F v rest,
        logged INFO "Value entered: {value}" [VStr (float_str v)]
          (add_stdout prompt asked)))
  /\ (forall e,
        PyLib.is_other (exn_cls e) = false ->
        PyLib.is_ValueError (exn_cls e) = false ->
        Arithmetic.get_float F float_of_str float_str prompt
          (before ++ App.InputRaises e :: rest) s
        = (Arithmetic.Failed F e rest, add_stdout prompt asked)).
Proof.
  intros Hbefore asked. subst asked. split.
  - intros text v Hv.
    rewrite (get_float_skips F float_of_str float_str prompt before _ s
               Hbefore).
    cbn [Arithmetic.get_float]. rewrite Hv. reflexivity.
  - intros e Ho Hv.
    rewrite (get_float_skips F float_of_str float_str prompt before _ s
               Hbefore).
    cbn [Arithmetic.get_float]. rewrite Ho, Hv. reflexivity.
Qed.

Lemma get_float_returns_first_valid_witness :
  let before := [App.Line "two"] in
  let rest := [App.Line "7"] in
  let s := Sample.two_entries in
  let asked := retried "Enter first number: " (length before) s in
  (forall text v, whole text = Some v ->
     Arithmetic.get_float Z whole PyStr.of_int "Enter first number: "
       (before ++ App.Line text :: rest) s
     = (Arithmetic.Value Z v rest,
        logged INFO "Value entered: {value}" [VStr (PyStr.of_int v)]
          (add_stdout "Enter first number: " asked)))
  /\ (forall e,
        PyLib.is_other (exn_cls e) = false ->
        PyLib.is_ValueError (exn_cls e) = false ->
        Arithmetic.get_float Z whole PyStr.of_int "Enter first number: "
          (before ++ App.InputRaises e :: rest) s
        = (Arithmetic.Failed Z e rest,
           add_stdout "Enter first number: " asked)).
Proof.
  apply (get_float_returns_first_valid Z whole PyStr.of_int
           "Enter first number: " [App.Line "two"] [App.Line "7"]
           Sample.two_entries).
  repeat constructor.
Defined.

(** ** The number of a row, typed back *)

Lemma digits_acc d : forall acc,
  PyLib.digits_value (NilEmpty.string_of_uint d) (Z.pos acc)
  = Z.pos (Pos.of_uint_acc d acc).
Proof.
  induction d; intros acc;
    cbn [NilEmpty.string_of_uint PyLib.digits_value Pos.of_uint_acc];
    [reflexivity|..];
    rewrite <- IHd; f_equal;
    match goal with
    | |- context [Z.of_nat ?n] =>
        let v := eval vm_compute in (Z.of_nat n) in
        change (Z.of_nat n) with v
    end; lia.
Qed.

Lemma digits_zero d :
  PyLib.digits_value (NilEmpty.string_of_uint d) 0 = Z.of_uint d.
Proof.
  unfold Z.of_uint.
  induction d; cbn [NilEmpty.string_of_uint PyLib.digits_value Pos.of_uint];
    [reflexivity | exact IHd |..];
    match goal with
    | |- context [Z.of_nat ?n] =>
        let v := eval vm_compute in (Z.of_nat n) in
        change (Z.of_nat n) with v
    end; cbn [Z.mul Z.add]; apply digits_acc.
Qed.

Lemma uint_digits d :
  PyStr.all_chars PyLib.is_digit (NilEmpty.string_of_uint d) = true.
Proof.
  induction d; cbn [NilEmpty.string_of_uint PyStr.all_chars];
    try rewrite IHd; reflexivity.
Qed.

Lemma uint_digit_run d :
  PyLib.digit_run (NilEmpty.string_of_uint d)
  = String.length (NilEmpty.string_of_uint d).
Proof.
  induction d; [reflexivity|..];
    cbn [NilEmpty.string_of_uint String.length];
    rewrite <- IHd; reflexivity.
Qed.

Lemma int_char_solid c :
  PyStr.mem c int_chars = true ->
  PyStr.isspace c = false /\ PyLib.int_space c = false
  /\ PyLib.shlex_space c = false
  /\ PyLib.shlex_special c = false /\ Ascii.eqb "_"%char c = false.
Proof.
  intros H. apply mem_cases in H. cbn in H.
  repeat (destruct H as [<-|H]; [repeat split|]). destruct H.
Qed.

Lemma int_lstrip_solid l :
  Forall (fun c => PyLib.int_space c = false) l -> PyLib.int_lstrip l = l.
Proof.
  intros H. destruct H as [|c l Hc _]; [reflexivity|].
  cbn [PyLib.int_lstrip]. rewrite Hc. reflexivity.
Qed.

Lemma int_strip_solid s :
  Forall (fun c => PyLib.int_space c = false) (list_ascii_of_string s) ->
  PyLib.int_strip s = s.
Proof.
  intros H. unfold PyLib.int_strip. rewrite (int_lstrip_solid _ H).
  rewrite int_lstrip_solid by (apply Forall_rev, H).
  rewrite rev_involutive. apply string_of_list_ascii_of_string.
Qed.

Lemma all_chars_Forall p s :
  PyStr.all_chars p s = true ->
  Forall (fun c => p c = true) (list_ascii_of_string s).
Proof.
  induction s as [|c s IH]; cbn [PyStr.all_chars list_ascii_of_string];
    intros H; [constructor|].
  apply andb_prop in H as [Hc Hs]. constructor; [exact Hc | exact (IH Hs)].
Qed.

Lemma Forall_weaken {A} (P Q : A -> Prop) (l : list A) :
  (forall x, P x -> Q x) -> Forall P l -> Forall Q l.
Proof.
  intros HPQ H. induction H as [|x l Hx _ IH]; constructor;
    [exact (HPQ x Hx) | exact IH].
Qed.

Lemma Forall_all_chars p s :
  Forall (fun c => p c = true) (list_ascii_of_string s) ->
  PyStr.all_chars p s = true.
Proof.
  induction s as [|c s IH]; cbn [PyStr.all_chars list_ascii_of_string];
    intros H; [reflexivity|].
  inversion H as [|? ? Hc Hs]; subst. rewrite Hc. exact (IH Hs).
Qed.

Lemma of_int_solid z :
  Forall
    (fun c =>
       PyStr.isspace c = false /\ PyLib.int_space c = false
       /\ PyLib.shlex_space c = false
       /\ PyLib.shlex_special c = false /\ Ascii.eqb "_"%char c = false)
    (list_ascii_of_string (PyStr.of_int z)).
Proof.
  apply (Forall_weaken (fun c => PyStr.mem c int_chars = true)).
  - intros c Hc. exact (int_char_solid c Hc).
  - apply (all_chars_Forall (fun c => PyStr.mem c int_chars)), of_int_chars.
Qed.

Lemma mem_absent c s :
  Forall (fun d => Ascii.eqb c d = false) (list_ascii_of_string s) ->
  PyStr.mem c s = false.
Proof.
  induction s as [|d s IH]; cbn [list_ascii_of_string PyStr.mem];
    intros H; [reflexivity|].
  inversion H as [|? ? Hd Hs]; subst. rewrite Hd. exact (IH Hs).
Qed.

Lemma sign_split_digit c r :
  PyLib.is_digit c = true ->
  PyLib.sign_split (String c r) = (false, String c r).
Proof.
  intros Hc. unfold PyLib.sign_split.
  destruct (Ascii.eqb_spec c "-") as [->|_]; [discriminate Hc|].
  destruct (Ascii.eqb_spec c "+") as [->|_]; [discriminate Hc|].
  reflexivity.
Qed.

(** [int(str(z))] is [z] for a [z >= 0] of at most 4300 digits. *)
Lemma int_of_str_of_int z :
  0 <= z -> PyStr.short z = true ->
  PyLib.int_of_str (PyStr.of_int z) = PyLib.IntOk z.
Proof.
  intros Hz Hshort.
  pose proof (of_int_solid z) as Hsolid. unfold PyLib.int_of_str.
  rewrite int_strip_solid
    by (eapply Forall_weaken; [|exact Hsolid]; intros c Hc; apply Hc).
  rewrite mem_absent
    by (eapply Forall_weaken; [|exact Hsolid]; intros c Hc; apply Hc).
  clear Hsolid. unfold PyStr.short in Hshort. apply Nat.leb_le in Hshort.
  rewrite Z.abs_eq in Hshort by exact Hz.
  unfold PyStr.of_int in *.
  destruct z as [|p|p]; [reflexivity| |lia].
  cbn [Z.to_int NilZero.string_of_int] in *.
  assert (Hs : NilZero.string_of_uint (Pos.to_uint p)
               = NilEmpty.string_of_uint (Pos.to_uint p)).
  { unfold NilZero.string_of_uint.
    pose proof (DecimalPos.Unsigned.to_uint_nonnil p) as Hn.
    destruct (Pos.to_uint p); [contradiction|reflexivity..]. }
  rewrite Hs in *.
  pose proof (DecimalPos.Unsigned.of_to p) as Hp.
  pose proof (digits_zero (Pos.to_uint p)) as Hval.
  pose proof (uint_digits (Pos.to_uint p)) as Hdig.
  pose proof (uint_digit_run (Pos.to_uint p)) as Hrun.
  unfold Z.of_uint in Hval. rewrite Hp in Hval.
  assert (Hne : PyStr.nonempty (NilEmpty.string_of_uint (Pos.to_uint p))
                = true).
  { pose proof (DecimalPos.Unsigned.to_uint_nonnil p) as Hn.
    destruct (Pos.to_uint p); [contradiction|reflexivity..]. }
  set (body := NilEmpty.string_of_uint (Pos.to_uint p)) in *.
  assert (Hsplit : PyLib.sign_split body = (false, body)).
  { destruct body as [|c r]; [reflexivity|].
    cbn [PyStr.all_chars] in Hdig. apply andb_true_iff in Hdig as [Hc _].
    apply sign_split_digit, Hc. }
  rewrite Hsplit.
  assert (Hlim : (PyLib.max_str_digits <? PyLib.digit_run body)%nat = false).
  { apply Nat.ltb_ge. rewrite Hrun. exact Hshort. }
  rewrite Hlim, Hne, Hdig, Hval. reflexivity.
Qed.

Lemma words_solid t : forall cur,
  Forall (fun c => PyLib.shlex_space c = false) (list_ascii_of_string t) ->
  cur <> [] \/ t <> "" ->
  PyLib.words t cur
  = [string_of_list_ascii (rev cur ++ list_ascii_of_string t)].
Proof.
  induction t as [|c t IH]; intros cur Hsolid Hne.
  - cbn [PyLib.words list_ascii_of_string]. rewrite app_nil_r.
    destruct cur as [|a cur]; [destruct Hne as [H|H]; contradiction|].
    reflexivity.
  - cbn [list_ascii_of_string] in *. inversion Hsolid as [|? ? Hc Ht]; subst.
    cbn [PyLib.words]. rewrite Hc. rewrite IH; [|exact Ht|left; discriminate].
    cbn [rev]. rewrite <- app_assoc. reflexivity.
Qed.

Lemma lstrip_keeps c l :
  In c l -> PyStr.isspace c = false -> In c (PyStr.lstrip_chars l).
Proof.
  intros Hin Hc. induction l as [|a l IH]; [destruct Hin|].
  cbn [PyStr.lstrip_chars]. destruct (PyStr.isspace a) eqn:Ea.
  - destruct Hin as [->|Hin]; [congruence | exact (IH Hin)].
  - exact Hin.
Qed.

Lemma strip_nonempty c s :
  In c (list_ascii_of_string s) -> PyStr.isspace c = false ->
  PyStr.nonempty (PyStr.strip s) = true.
Proof.
  intros Hin Hc. unfold PyStr.strip.
  assert (H : In c (rev (PyStr.lstrip_chars
                       (rev (PyStr.lstrip_chars (list_ascii_of_string s)))))).
  { apply -> in_rev. apply lstrip_keeps; [|exact Hc]. apply -> in_rev.
    apply lstrip_keeps; [exact Hin | exact Hc]. }
  destruct (rev _) as [|a l]; [destruct H | reflexivity].
Qed.

(** The line made of [delete], a blank and the text of a number is
    read as the action [delete] with that text as its one argument. *)
Lemma delete_line_reads i :
  reads ("delete " +:+ PyStr.of_int i) "delete" [PyStr.of_int i].
Proof.
  pose proof (of_int_solid i) as Hsolid. split.
  - apply (strip_nonempty "d"); [left; reflexivity | reflexivity].
  - exists "delete". split; [|reflexivity].
    unfold PyLib.shlex_split. rewrite any_char_app.
    replace (PyStr.any_char PyLib.shlex_special (PyStr.of_int i)) with false.
    + cbn [PyStr.any_char PyStr.all_chars orb negb].
      change (PyStr.any_char PyLib.shlex_special "delete ") with false.
      cbn [orb]. f_equal.
      rewrite !append_cons, append_nil.
      cbn [PyLib.words PyLib.shlex_space PyStr.code].
      change (PyLib.words (String "d" (String "e" (String "l" (String "e"
                (String "t" (String "e" (String " " (PyStr.of_int i))))))))
                [])
        with ("delete" :: PyLib.words (PyStr.of_int i) []).
      rewrite words_solid.
      * cbn [rev app]. rewrite string_of_list_ascii_of_string. reflexivity.
      * eapply Forall_weaken; [|exact Hsolid]. intros c Hc. apply Hc.
      * right. intros H.
        pose proof (of_int_has_digit i) as Hd. rewrite H in Hd.
        discriminate Hd.
    + symmetry. apply any_char_none, Forall_all_chars.
      eapply Forall_weaken; [|exact Hsolid].
      intros c (_ & _ & _ & Hc & _). rewrite Hc. reflexivity.
Qed.

(** X24.  The number the listing prints in front of a row can be typed
    back.  On a store whose row labels are the positions, the line
    made of [delete], a blank and [str(i)], for the number [i] of a row
    (a number of at most 4300 digits, which [str] and [int] accept),
    is carried out as [delete_entry(i)]: the command reports the
    deletion of [i] and the store holds the rows without the one at
    position [i]. *)
Theorem listed_number_reads_back (hm : nat) (i : Z) (df : DataFrame)
    (text : string) (s : state) :
  initialised s hm df ->
  range_indexed df ->
  0 <= i < len df ->
  PyStr.short i = true ->
  let df' :=
    mkFrame (df_columns df) (relabel (delete (Z.to_nat i) (df_rows df))) in
  Csv.to_csv df' = Some text ->
  let line := "delete " +:+ PyStr.of_int i in
  let s' := snd (HistoryPlugin.execute hm (App.Line line) s) in
  PyLib.int_of_str (PyStr.of_int i) = PyLib.IntOk i
  /\ fst (HistoryPlugin.execute hm (App.Line line) s) = Return tt
  /\ stdout s'
     = stdout s
       ++ [HistoryPlugin.prompt;
           "Deleted entry at index " +:+ PyStr.of_int i +:+ "."]
  /\ frame_of s' hm = Some df'.
Proof.
  intros Hinit Hr Hi Hshort df' Hcsv line s'. subst s' line.
  assert (Hint : PyLib.int_of_str (PyStr.of_int i) = PyLib.IntOk i)
    by (apply int_of_str_of_int; [lia | exact Hshort]).
  split; [exact Hint|].
  destruct (delete_run hm _ _ [] i df text s (delete_line_reads i) Hint
              Hinit Hr Hi Hcsv) as [Hinit' ->].
  pose proof (initialised_frame _ _ _ Hinit') as Hdf'.
  cbn [fst snd]. split; [reflexivity|].
  destruct (disk_writable s).
  - split.
    { cbn [add_stdout stdout]. rewrite stdout_saved.
      cbn [logged add_log stdout]. rewrite stdout_assign.
      cbn [add_stdout stdout]. rewrite <- app_assoc. reflexivity. }
    rewrite frame_of_add_stdout, frame_of_saved. exact Hdf'.
  - split.
    { cbn [add_stdout stdout logged add_log]. rewrite stdout_assign.
      cbn [add_stdout stdout]. rewrite <- app_assoc. reflexivity. }
    rewrite frame_of_add_stdout, frame_of_logged. exact Hdf'.
Qed.

Lemma listed_number_reads_back_witness :
  let df' :=
    mkFrame (df_columns Sample.two_entries_frame)
      (relabel (delete (Z.to_nat 1) (df_rows Sample.two_entries_frame))) in
  let line := "delete " +:+ PyStr.of_int 1 in
  let s' := snd (HistoryPlugin.execute 0 (App.Line line) Sample.two_entries) in
  PyLib.int_of_str (PyStr.of_int 1) = PyLib.IntOk 1
  /\ fst (HistoryPlugin.execute 0 (App.Line line) Sample.two_entries)
     = Return tt
  /\ stdout s'
     = stdout Sample.two_entries
       ++ [HistoryPlugin.prompt;
           "Deleted entry at index " +:+ PyStr.of_int 1 +:+ "."]
  /\ frame_of s' 0 = Some df'.
Proof.
  apply (listed_number_reads_back 0 1 Sample.two_entries_frame
           (Csv.write_records
              (row_keys
               :: [row_strs
                     (entry_of (mkCalculation "add" [1; 2] 3 Sample.noon))]))
           Sample.two_entries).
  - split; [|split]; vm_compute; reflexivity.
  - reflexivity.
  - vm_compute. split; [discriminate | reflexivity].
  - reflexivity.
  - vm_compute. reflexivity.
Defined.

(** ** A data directory that cannot be created *)

Lemma dir_exists_assign o n v s : dir_exists (assign o n v s) = dir_exists s.
Proof. unfold assign. destruct (heap s !! o); reflexivity. Qed.

Lemma log_prepared_unwritable self s :
  dir_exists s = false -> disk_writable s = false ->
  log (prepared self s)
  = log s
    ++ [mkLog INFO "History Manager initialised" [];
        mkLog WARNING "Failed to create history directory: {e}" [VNone]].
Proof.
  intros Hd Hw. unfold prepared. rewrite log_assign. unfold dir_checked.
  rewrite dir_exists_assign, writable_assign.
  cbn [logged add_log dir_exists disk_writable].
  rewrite dir_exists_assign, writable_assign, Hd, Hw.
  cbn [logged add_log log]. rewrite log_assign. cbn [logged add_log log].
  rewrite log_assign, <- app_assoc. reflexivity.
Qed.

(** X25.  Where the data directory is missing and cannot be created,
    the store and the application part ways: [HistoryManager()] logs a
    WARNING and comes up with an empty history, which [save_history]
    then fails to save, returning [False]; [App()] raises the
    [OSError] of [os.makedirs] before anything is constructed or
    logged. *)
Theorem missing_directory_store_and_app (s : state) (now : datetime) :
  fresh s ->
  dir_exists s = false ->
  disk_writable s = false ->
  disk s = FileAbsent ->
  let s1 := snd (HistoryManager.call s) in
  fst (HistoryManager.call s) = Return 0%nat
  /\ frame_of s1 0 = Some (DataFrame_columns row_keys)
  /\ In (mkLog WARNING "Failed to create history directory: {e}" [VNone])
       (log s1)
  /\ fst (HistoryManager.save_history 0 s1) = Return (VBool false)
  /\ App.__init__ now s = (Raise os_error, s).
Proof.
  intros Hf Hd Hw Hdisk s1. subst s1.
  assert (Hload : initial_frame (disk s) = Some (DataFrame_columns row_keys))
    by (rewrite Hdisk; reflexivity).
  destruct (call_first s _ Hf Hload) as (Hr & (_ & Hi & _) & _ & Hw1).
  split; [exact Hr|]. split; [exact (initialised_frame _ _ _ Hi)|]. split.
  { rewrite (call_fresh s Hf).
    rewrite (initialise_run (created s) 0) by (eexists; reflexivity).
    change (disk (created s)) with (disk s). rewrite Hdisk. cbn [snd].
    rewrite log_finished. unfold succeeded. cbn [logged add_log log].
    rewrite log_assign, (log_prepared_unwritable 0 (created s) Hd Hw).
    apply in_or_app. left. apply in_or_app. left. apply in_or_app. right.
    right. left. reflexivity. }
  split.
  { rewrite (save_history_unwritable _ _ _ Hi).
    - reflexivity.
    - rewrite Hw1. exact Hw.
    - right. discriminate. }
  unfold App.__init__, bind, makedirs. rewrite Hd, Hw. reflexivity.
Qed.

Lemma missing_directory_store_and_app_witness :
  let s := App.boot FileAbsent false false in
  let s1 := snd (HistoryManager.call s) in
  fst (HistoryManager.call s) = Return 0%nat
  /\ frame_of s1 0 = Some (DataFrame_columns row_keys)
  /\ In (mkLog WARNING "Failed to create history directory: {e}" [VNone])
       (log s1)
  /\ fst (HistoryManager.save_history 0 s1) = Return (VBool false)
  /\ App.__init__ Sample.noon s = (Raise os_error, s).
Proof.
  apply (missing_directory_store_and_app (App.boot FileAbsent false false)
           Sample.noon).
  - split; reflexivity.
  - reflexivity.
  - reflexivity.
  - reflexivity.
Defined.

(** ** The command [clear] *)

(** X26.  [HistoryCommand._clear_history] tests the value of
    [clear_history()] for truth.  On an initialised store that value is
    [None], so the command takes the [else] branch: the store is
    emptied, but the command prints the failure message and does not
    save, and the history file holds what it held. *)
Theorem clear_command_reports_failure (s : state) (hm : nat)
    (df : DataFrame) :
  initialised s hm df ->
  let s' := snd (HistoryCommand._clear_history hm s) in
  fst (HistoryCommand._clear_history hm s) = Return tt
  /\ stdout s' = stdout s ++ ["Failed to clear history."]
  /\ frame_of s' hm = Some (mkFrame row_keys [])
  /\ disk s' = disk s.
Proof.
  intros Hinit s'. subst s'.
  pose proof (initialised_frame s hm df Hinit) as Hdf.
  unfold HistoryCommand._clear_history, bind.
  rewrite (clear_history_run s hm df Hinit). cbn [truthy fst snd].
  unfold print, modify. cbn [fst snd].
  split; [reflexivity|]. split; [|split].
  - cbn [add_stdout stdout logged add_log]. rewrite stdout_assign.
    reflexivity.
  - rewrite frame_of_add_stdout, frame_of_logged. apply frame_of_assign.
    exact (frame_of_allocated _ _ _ Hdf).
  - cbn [add_stdout disk logged add_log]. apply disk_assign.
Qed.

Lemma clear_command_reports_failure_witness :
  let s := Sample.two_entries in
  let s' := snd (HistoryCommand._clear_history 0 s) in
  fst (HistoryCommand._clear_history 0 s) = Return tt
  /\ stdout s' = stdout s ++ ["Failed to clear history."]
  /\ frame_of s' 0 = Some (mkFrame row_keys [])
  /\ disk s' = disk s.
Proof.
  apply (clear_command_reports_failure Sample.two_entries 0
           Sample.two_entries_frame).
  split; [|split]; vm_compute; reflexivity.
Defined.
